(** * FedMCP server: artifact signing, verification, storage and audit

    A shallow embedding of the FedMCP reference code:
    - [fedmcp/artifact.py]  (sign_artifact, verify_artifact),
    - [fedmcp/audit.py]     (AuditAction, emit_event),
    - [fedmcp/cli.py]       (the command sign),
    - [src/fedmcp_server.py] (storage backends, audit log, endpoints),
    - [src/fed_server.py]   (the audit middleware).

    Python values that travel through [json.dumps] / [json.loads] are
    modelled by the type [json]; a Python [dict] is an association list in
    insertion order, because the serializer follows that order. *)

From Stdlib Require Import ZArith List Bool Ascii String Decimal DecimalFacts
  DecimalPos Lia.
From stdpp Require Import base gmap strings.

Local Open Scope Z_scope.

#[local] Arguments String.append !s1 s2 /.

(* ====================================================================== *)
(** ** Strings                                                             *)
(* ====================================================================== *)

(** A Python [str] is modelled by [string]; each character stands for the
    code point of the same number, so the model covers U+0000..U+00FF.
    [bytes] values are strings as well, one character per byte. *)

Module Str.

Definition dquote : ascii := "034"%char.
Definition backslash : ascii := "092"%char.

Lemma app_assoc (a b c : string) : (a +:+ b) +:+ c = a +:+ (b +:+ c).
Proof. induction a as [|x a IH]; cbn; [reflexivity | f_equal; exact IH]. Qed.

Lemma app_nil_r (a : string) : a +:+ "" = a.
Proof. induction a as [|x a IH]; cbn; [reflexivity | f_equal; exact IH]. Qed.

Lemma length_app (a b : string) :
  String.length (a +:+ b) = (String.length a + String.length b)%nat.
Proof. induction a as [|x a IH]; cbn; [reflexivity | f_equal; exact IH]. Qed.

(** [s.encode()]: UTF-8 of the code points U+0000..U+00FF. *)
Definition encode_char (c : ascii) : string :=
  let n := N_of_ascii c in
  if (n <? 128)%N then String c ""
  else String (ascii_of_N (192 + n / 64)) (String (ascii_of_N (128 + n mod 64)) "").

Fixpoint encode (s : string) : string :=
  match s with
  | "" => ""
  | String c r => encode_char c +:+ encode r
  end.

(** [b.decode('utf-8')], on the byte sequences that denote code points up
    to U+00FF.  [None] stands for UnicodeDecodeError, and also for the
    well-formed sequences of higher code points, which the model does not
    represent. *)
Fixpoint decode (b : string) : option string :=
  match b with
  | "" => Some ""
  | String c r =>
      let n := N_of_ascii c in
      if (n <? 128)%N then option_map (String c) (decode r)
      else if ((n =? 194) || (n =? 195))%N then
        match r with
        | String d r' =>
            let m := N_of_ascii d in
            if ((128 <=? m) && (m <? 192))%N
            then option_map (String (ascii_of_N ((n - 192) * 64 + (m - 128))))
                            (decode r')
            else None
        | "" => None
        end
      else None
  end.

Lemma decode_encode_char (c : ascii) (r : string) :
  decode (encode_char c +:+ r) = option_map (String c) (decode r).
Proof.
  destruct c as [[] [] [] [] [] [] [] []]; reflexivity.
Qed.

Lemma decode_encode (s : string) : decode (encode s) = Some s.
Proof.
  induction s as [|c s IH]; [reflexivity|].
  cbn [encode]. rewrite decode_encode_char, IH. reflexivity.
Qed.

End Str.

(* ====================================================================== *)
(** ** JSON values, [json.dumps] and [json.loads]                           *)
(* ====================================================================== *)

(** The values of Python's [json] module, without floating point numbers.
    A [dict] keeps its keys in insertion order, and its keys are strings. *)

Module Json.
Import Str.

#[local] Set Warnings "-register-all".

Inductive json : Type :=
| JNull
| JBool (b : bool)
| JInt (z : Z)
| JStr (s : string)
| JArr (l : list json)
| JObj (m : list (string * json)).

(** Induction with the hypotheses for the elements of lists and dicts. *)
Section json_induction.
Variable P : json -> Prop.
Hypothesis Hnull : P JNull.
Hypothesis Hbool : forall b, P (JBool b).
Hypothesis Hint : forall z, P (JInt z).
Hypothesis Hstr : forall s, P (JStr s).
Hypothesis Harr : forall l, Forall P l -> P (JArr l).
Hypothesis Hobj : forall m, Forall (fun kv => P (snd kv)) m -> P (JObj m).

Fixpoint json_nested_ind (v : json) : P v :=
  match v with
  | JNull => Hnull
  | JBool b => Hbool b
  | JInt z => Hint z
  | JStr s => Hstr s
  | JArr l =>
      Harr l ((fix go (l : list json) : Forall P l :=
                 match l with
                 | [] => List.Forall_nil P
                 | x :: xs => @List.Forall_cons _ P x xs (json_nested_ind x) (go xs)
                 end) l)
  | JObj m =>
      Hobj m ((fix go (m : list (string * json))
                 : Forall (fun kv => P (snd kv)) m :=
                 match m with
                 | [] => List.Forall_nil _
                 | kv :: xs =>
                     @List.Forall_cons _ (fun kv => P (snd kv)) kv xs
                       (json_nested_ind (snd kv)) (go xs)
                 end) m)
  end.
End json_induction.

(** *** Python dict operations on the association list *)

Fixpoint dict_get (k : string) (d : list (string * json)) : option json :=
  match d with
  | [] => None
  | (k', v) :: d' => if String.eqb k' k then Some v else dict_get k d'
  end.

(** [d[k] = v]: an existing key keeps its place, a new key goes last. *)
Fixpoint dict_set (k : string) (v : json) (d : list (string * json))
  : list (string * json) :=
  match d with
  | [] => [(k, v)]
  | (k', v') :: d' =>
      if String.eqb k' k then (k', v) :: d' else (k', v') :: dict_set k v d'
  end.

(** The dict built from a sequence of pairs, as the decoder builds it. *)
Definition dict_of_pairs (l : list (string * json)) : list (string * json) :=
  fold_left (fun d kv => dict_set (fst kv) (snd kv) d) l [].

Fixpoint mem_str (k : string) (l : list string) : bool :=
  match l with
  | [] => false
  | x :: xs => String.eqb x k || mem_str k xs
  end.

Fixpoint nodup_keys (l : list string) : bool :=
  match l with
  | [] => true
  | x :: xs => negb (mem_str x xs) && nodup_keys xs
  end.

(** A value is well formed when no dict in it lists a key twice: what every
    Python dict satisfies. *)
Fixpoint wf (v : json) : bool :=
  match v with
  | JArr l => forallb wf l
  | JObj m => nodup_keys (map fst m) && forallb (fun kv => wf (snd kv)) m
  | _ => true
  end.

(** *** [json.dumps] with its default arguments

    ensure_ascii=True, separators (', ', ': '), sort_keys=False. *)

Definition hex_digit (n : N) : ascii :=
  ascii_of_N (if (n <? 10)%N then 48 + n else 87 + n).

(** The escape of a code point below 0x10000: backslash, u, four lower-case
    hexadecimal digits. *)
Definition u_escape (n : N) : string :=
  String backslash (String "u"
    (String (hex_digit (n / 4096)) (String (hex_digit (n / 256 mod 16))
      (String (hex_digit (n / 16 mod 16)) (String (hex_digit (n mod 16)) ""))))).

Definition escape_char (c : ascii) : string :=
  let n := N_of_ascii c in
  if (n =? 34)%N then String backslash (String dquote "")
  else if (n =? 92)%N then String backslash (String backslash "")
  else if (n =? 10)%N then String backslash "n"
  else if (n =? 13)%N then String backslash "r"
  else if (n =? 9)%N then String backslash "t"
  else if (n =? 8)%N then String backslash "b"
  else if (n =? 12)%N then String backslash "f"
  else if ((32 <=? n) && (n <=? 126))%N then String c ""
  else u_escape n.

Fixpoint escape (s : string) : string :=
  match s with
  | "" => ""
  | String c r => escape_char c +:+ escape r
  end.

Definition dumps_str (s : string) : string :=
  String dquote (escape s +:+ String dquote "").

Fixpoint string_of_uint (d : uint) : string :=
  match d with
  | Nil => ""
  | D0 d => String "0" (string_of_uint d)
  | D1 d => String "1" (string_of_uint d)
  | D2 d => String "2" (string_of_uint d)
  | D3 d => String "3" (string_of_uint d)
  | D4 d => String "4" (string_of_uint d)
  | D5 d => String "5" (string_of_uint d)
  | D6 d => String "6" (string_of_uint d)
  | D7 d => String "7" (string_of_uint d)
  | D8 d => String "8" (string_of_uint d)
  | D9 d => String "9" (string_of_uint d)
  end.

Definition dumps_int (z : Z) : string :=
  match z with
  | Z0 => "0"
  | Zpos p => string_of_uint (Pos.to_uint p)
  | Zneg p => String "-" (string_of_uint (Pos.to_uint p))
  end.

Fixpoint dumps (v : json) : string :=
  match v with
  | JNull => "null"
  | JBool true => "true"
  | JBool false => "false"
  | JInt z => dumps_int z
  | JStr s => dumps_str s
  | JArr l => "[" +:+ String.concat ", " (map dumps l) +:+ "]"
  | JObj m =>
      "{" +:+ String.concat ", "
                (map (fun kv => dumps_str (fst kv) +:+ ": " +:+ dumps (snd kv)) m)
          +:+ "}"
  end.

(** *** [json.loads]

    The decoder, for the documents without floating point numbers.  [None]
    stands for JSONDecodeError, and also for the two things the model does
    not represent: a number with a fraction or an exponent, and an escape
    of a code point above U+00FF. *)

Definition is_ws (c : ascii) : bool :=
  let n := N_of_ascii c in
  ((n =? 32) || (n =? 9) || (n =? 10) || (n =? 13))%N.

Fixpoint skip_ws (s : string) : string :=
  match s with
  | "" => ""
  | String c r => if is_ws c then skip_ws r else s
  end.

Definition hex_val (c : ascii) : option N :=
  let n := N_of_ascii c in
  if ((48 <=? n) && (n <=? 57))%N then Some (n - 48)%N
  else if ((97 <=? n) && (n <=? 102))%N then Some (n - 87)%N
  else if ((65 <=? n) && (n <=? 70))%N then Some (n - 55)%N
  else None.

Definition hex4 (a b c d : ascii) : option N :=
  match hex_val a, hex_val b, hex_val c, hex_val d with
  | Some x, Some y, Some z, Some w => Some (x * 4096 + y * 256 + z * 16 + w)%N
  | _, _, _, _ => None
  end.

(** The character a one-letter escape stands for. *)
Definition simple_escape (e : ascii) : option ascii :=
  let n := N_of_ascii e in
  if (n =? 34)%N then Some dquote
  else if (n =? 92)%N then Some backslash
  else if (n =? 47)%N then Some "/"%char
  else if (n =? 98)%N then Some "008"%char
  else if (n =? 102)%N then Some "012"%char
  else if (n =? 110)%N then Some "010"%char
  else if (n =? 114)%N then Some "013"%char
  else if (n =? 116)%N then Some "009"%char
  else None.

Definition cons_result (c : ascii) (r : option (string * string))
  : option (string * string) :=
  match r with
  | Some (s, rest) => Some (String c s, rest)
  | None => None
  end.

(** [scanstring], from just after the opening quote, in strict mode: the
    string read and the text after its closing quote. *)
Fixpoint scan_string (s : string) : option (string * string) :=
  match s with
  | "" => None
  | String c r =>
      let n := N_of_ascii c in
      if (n =? 34)%N then Some ("", r)
      else if (n =? 92)%N then
        match r with
        | "" => None
        | String e r' =>
            match simple_escape e with
            | Some ch => cons_result ch (scan_string r')
            | None =>
                if (N_of_ascii e =? 117)%N then
                  match r' with
                  | String h1 (String h2 (String h3 (String h4 r''))) =>
                      match hex4 h1 h2 h3 h4 with
                      | Some u =>
                          if (u <? 256)%N
                          then cons_result (ascii_of_N u) (scan_string r'')
                          else None
                      | None => None
                      end
                  | _ => None
                  end
                else None
            end
        end
      else if (n <? 32)%N then None
      else cons_result c (scan_string r)
  end.

Definition is_digit (c : ascii) : bool :=
  let n := N_of_ascii c in ((48 <=? n) && (n <=? 57))%N.

Definition cons_digit (c : ascii) (d : uint) : uint :=
  match N_of_ascii c with
  | 48%N => D0 d | 49%N => D1 d | 50%N => D2 d | 51%N => D3 d | 52%N => D4 d
  | 53%N => D5 d | 54%N => D6 d | 55%N => D7 d | 56%N => D8 d | _ => D9 d
  end.

Fixpoint scan_digits (s : string) : uint * string :=
  match s with
  | "" => (Nil, "")
  | String c r =>
      if is_digit c
      then let (d, r') := scan_digits r in (cons_digit c d, r')
      else (Nil, s)
  end.

(** The integer part of a number: a single 0, or digits that start with a
    digit other than 0. *)
Definition scan_int (s : string) : option (uint * string) :=
  match s with
  | "" => None
  | String c r =>
      if (N_of_ascii c =? 48)%N then Some (D0 Nil, r)
      else if is_digit c then Some (scan_digits s)
      else None
  end.

(** Whether a fraction or an exponent follows: the number is then a float. *)
Definition is_float_tail (r : string) : bool :=
  match r with
  | String c (String d r') =>
      let n := N_of_ascii c in
      if (n =? 46)%N then is_digit d
      else if ((n =? 101) || (n =? 69))%N then
        is_digit d
        || (((N_of_ascii d =? 43) || (N_of_ascii d =? 45))%N
            && match r' with String x _ => is_digit x | "" => false end)
      else false
  | _ => false
  end.

Definition parse_number (s : string) : option (json * string) :=
  let '(neg, s1) :=
    match s with
    | String c r => if (N_of_ascii c =? 45)%N then (true, r) else (false, s)
    | "" => (false, s)
    end in
  match scan_int s1 with
  | Some (d, r) =>
      if is_float_tail r then None
      else Some (JInt (if neg then - Z.of_uint d else Z.of_uint d), r)
  | None => None
  end.

Fixpoint strip_prefix (p s : string) : option string :=
  match p, s with
  | "", _ => Some s
  | String a p', String b s' => if Ascii.eqb a b then strip_prefix p' s' else None
  | String _ _, "" => None
  end.

Definition literal (p : string) (v : json) (s : string) : option (json * string) :=
  match strip_prefix p s with
  | Some r => Some (v, r)
  | None => None
  end.

(** The recursive decoder.  [fuel] bounds the nesting of calls; every call
    reads at least one character, so the length of the text is enough. *)
Fixpoint parse_value (fuel : nat) (s : string) : option (json * string) :=
  match fuel with
  | O => None
  | S fuel =>
      match s with
      | "" => None
      | String c r =>
          let n := N_of_ascii c in
          if (n =? 34)%N then
            match scan_string r with
            | Some (x, r1) => Some (JStr x, r1)
            | None => None
            end
          else if (n =? 91)%N then
            match skip_ws r with
            | String c1 r1 =>
                if (N_of_ascii c1 =? 93)%N then Some (JArr [], r1)
                else match parse_elements fuel (String c1 r1) with
                     | Some (l, r2) => Some (JArr l, r2)
                     | None => None
                     end
            | "" => None
            end
          else if (n =? 123)%N then
            match skip_ws r with
            | String c1 r1 =>
                if (N_of_ascii c1 =? 125)%N then Some (JObj [], r1)
                else match parse_members fuel (String c1 r1) with
                     | Some (m, r2) => Some (JObj (dict_of_pairs m), r2)
                     | None => None
                     end
            | "" => None
            end
          else if (n =? 110)%N then literal "ull" JNull r
          else if (n =? 116)%N then literal "rue" (JBool true) r
          else if (n =? 102)%N then literal "alse" (JBool false) r
          else parse_number s
      end
  end

(** The elements of an array after its opening bracket, up to and
    including the closing bracket. *)
with parse_elements (fuel : nat) (s : string) : option (list json * string) :=
  match fuel with
  | O => None
  | S fuel =>
      match parse_value fuel s with
      | Some (v, r) =>
          match skip_ws r with
          | String c r1 =>
              if (N_of_ascii c =? 93)%N then Some ([v], r1)
              else if (N_of_ascii c =? 44)%N then
                match parse_elements fuel (skip_ws r1) with
                | Some (vs, r2) => Some (v :: vs, r2)
                | None => None
                end
              else None
          | "" => None
          end
      | None => None
      end
  end

(** The members of an object from the opening quote of a key, up to and
    including the closing brace. *)
with parse_members (fuel : nat) (s : string)
  : option (list (string * json) * string) :=
  match fuel with
  | O => None
  | S fuel =>
      match s with
      | "" => None
      | String q r =>
          if (N_of_ascii q =? 34)%N then
            match scan_string r with
            | Some (k, r1) =>
                match skip_ws r1 with
                | String c r2 =>
                    if (N_of_ascii c =? 58)%N then
                      match parse_value fuel (skip_ws r2) with
                      | Some (v, r3) =>
                          match skip_ws r3 with
                          | String c' r4 =>
                              if (N_of_ascii c' =? 125)%N then Some ([(k, v)], r4)
                              else if (N_of_ascii c' =? 44)%N then
                                match parse_members fuel (skip_ws r4) with
                                | Some (m, r5) => Some ((k, v) :: m, r5)
                                | None => None
                                end
                              else None
                          | "" => None
                          end
                      | None => None
                      end
                    else None
                | "" => None
                end
            | None => None
            end
          else None
      end
  end.

(** [json.loads] of a str: one value, with white space around it only. *)
Definition loads (s : string) : option json :=
  match parse_value (S (String.length s)) (skip_ws s) with
  | Some (v, r) => match skip_ws r with "" => Some v | String _ _ => None end
  | None => None
  end.

(** [json.loads] of bytes: the text is decoded first, as UTF-8 (the
    decoder also detects UTF-16 and UTF-32 from the first bytes; such
    payloads are outside the model and read as [None]). *)
Definition loads_bytes (b : string) : option json :=
  match decode b with
  | Some s => loads s
  | None => None
  end.

(** [qq s] is [s] with a double quote for each apostrophe: it lets the
    examples spell JSON text legibly. *)
Fixpoint qq (s : string) : string :=
  match s with
  | "" => ""
  | String c r => String (if (N_of_ascii c =? 39)%N then dquote else c) (qq r)
  end.

Example dumps_example :
  dumps (JObj [("id", JStr "a1"); ("version", JInt 1);
               ("jsonBody", JObj [("rule", JStr "x"); ("tags", JArr [JNull; JBool true; JInt (-7)])])])
  = qq "{'id': 'a1', 'version': 1, 'jsonBody': {'rule': 'x', 'tags': [null, true, -7]}}".
Proof. reflexivity. Qed.

Example loads_example :
  loads (qq " {'id':'a1' , 'version': 10,'jsonBody':{'rule':'x\n\u00e9','tags':[ null,true, -7 ]}} ")
  = Some (JObj [("id", JStr "a1"); ("version", JInt 10);
                ("jsonBody", JObj [("rule", JStr (String "x" (String "010" (String "233" ""))));
                                   ("tags", JArr [JNull; JBool true; JInt (-7)])])]).
Proof. reflexivity. Qed.

Example loads_duplicate_key :
  loads (qq "{'a': 1, 'b': 2, 'a': 3}") = Some (JObj [("a", JInt 3); ("b", JInt 2)]).
Proof. reflexivity. Qed.

Example loads_rejects :
  loads "01" = None /\ loads "[1,]" = None /\ loads (qq "'a") = None
  /\ loads "" = None /\ loads "-" = None /\ loads (qq "{'a' 1}") = None.
Proof. repeat split; reflexivity. Qed.

(** Outside the model: a float, and a character above U+00FF. *)
Example loads_not_represented :
  loads "1.5" = None /\ loads "2e3" = None /\ loads (qq "'\u0100'") = None.
Proof. repeat split; reflexivity. Qed.

(** *** Reading back what [dumps] writes: numbers *)

Definition num_stop (rest : string) : bool :=
  match rest with
  | "" => true
  | String c _ =>
      let n := N_of_ascii c in
      negb (is_digit c) && negb ((n =? 46) || (n =? 101) || (n =? 69))%N
  end.

Lemma num_stop_no_float rest : num_stop rest = true -> is_float_tail rest = false.
Proof.
  destruct rest as [|c [|d r]]; [reflexivity | reflexivity |].
  unfold num_stop, is_float_tail.
  destruct (N_of_ascii c =? 46)%N; [rewrite !andb_false_r; discriminate|].
  destruct (N_of_ascii c =? 101)%N; [rewrite !andb_false_r; discriminate|].
  destruct (N_of_ascii c =? 69)%N; [rewrite !andb_false_r; discriminate|].
  reflexivity.
Qed.

Lemma scan_digits_stop rest :
  num_stop rest = true -> scan_digits rest = (Nil, rest).
Proof.
  destruct rest as [|c r]; [reflexivity|].
  unfold num_stop. cbn [scan_digits].
  destruct (is_digit c); [discriminate | reflexivity].
Qed.

Lemma scan_digits_string_of_uint (d : uint) (rest : string) :
  num_stop rest = true ->
  scan_digits (string_of_uint d +:+ rest) = (d, rest).
Proof.
  intros Hstop.
  induction d as [|d IH|d IH|d IH|d IH|d IH|d IH|d IH|d IH|d IH|d IH];
    [exact (scan_digits_stop rest Hstop) | ..];
    cbn [string_of_uint String.append scan_digits];
    change (is_digit _) with true; cbv iota; rewrite IH; reflexivity.
Qed.

Lemma to_uint_head_nonzero (p : positive) (d : uint) : Pos.to_uint p <> D0 d.
Proof.
  intros H.
  pose proof (DecimalPos.Unsigned.to_of (Pos.to_uint p)) as E.
  rewrite DecimalPos.Unsigned.of_to in E. cbn [N.to_uint] in E.
  unfold unorm in E.
  destruct (nzhead (Pos.to_uint p)) eqn:Hz;
    try (rewrite H in E; discriminate E).
  - exact (DecimalPos.Unsigned.to_uint_nonzero p E).
  - exact (nzhead_nonzero _ _ Hz).
Qed.

Lemma scan_int_to_uint (p : positive) (rest : string) :
  num_stop rest = true ->
  scan_int (string_of_uint (Pos.to_uint p) +:+ rest) = Some (Pos.to_uint p, rest).
Proof.
  intros Hstop.
  pose proof (scan_digits_string_of_uint (Pos.to_uint p) rest Hstop) as Hd.
  pose proof (to_uint_head_nonzero p) as Hz.
  pose proof (DecimalPos.Unsigned.to_uint_nonnil p) as Hn.
  destruct (Pos.to_uint p) as [|d|d|d|d|d|d|d|d|d|d];
    [contradiction | exfalso; exact (Hz d eq_refl) | ..];
    cbn [string_of_uint String.append] in *; unfold scan_int;
    change (N_of_ascii _ =? 48)%N with false; change (is_digit _) with true;
    cbv iota; rewrite Hd; reflexivity.
Qed.

Lemma parse_number_dumps_int (z : Z) (rest : string) :
  num_stop rest = true ->
  parse_number (dumps_int z +:+ rest) = Some (JInt z, rest).
Proof.
  intros Hstop. pose proof (num_stop_no_float rest Hstop) as Hf.
  destruct z as [|p|p].
  - transitivity (if is_float_tail rest then None else Some (JInt 0, rest));
      [reflexivity | rewrite Hf; reflexivity].
  - unfold dumps_int, parse_number.
    pose proof (scan_int_to_uint p rest Hstop) as Hs.
    pose proof (DecimalPos.Unsigned.to_uint_nonnil p) as Hn.
    assert (Hneg : match string_of_uint (Pos.to_uint p) +:+ rest with
                   | String c r => if (N_of_ascii c =? 45)%N then (true, r)
                                   else (false, string_of_uint (Pos.to_uint p) +:+ rest)
                   | "" => (false, string_of_uint (Pos.to_uint p) +:+ rest)
                   end = (false, string_of_uint (Pos.to_uint p) +:+ rest)).
    { destruct (Pos.to_uint p); [contradiction | reflexivity ..]. }
    rewrite Hneg, Hs, Hf. unfold Z.of_uint.
    rewrite DecimalPos.Unsigned.of_to. reflexivity.
  - unfold dumps_int, parse_number. cbn [String.append].
    change (N_of_ascii "-" =? 45)%N with true. cbv iota.
    rewrite (scan_int_to_uint p rest Hstop), Hf. unfold Z.of_uint.
    rewrite DecimalPos.Unsigned.of_to. reflexivity.
Qed.

(** *** Reading back what [dumps] writes: strings *)

Lemma scan_string_escape_char (c : ascii) (r : string) :
  scan_string (escape_char c +:+ r) = cons_result c (scan_string r).
Proof.
  destruct c as [[] [] [] [] [] [] [] []]; reflexivity.
Qed.

Lemma scan_string_escape (s rest : string) :
  scan_string (escape s +:+ String dquote rest) = Some (s, rest).
Proof.
  induction s as [|c s IH]; [reflexivity|].
  cbn [escape]. rewrite app_assoc, scan_string_escape_char, IH. reflexivity.
Qed.

Lemma dumps_str_app (s rest : string) :
  dumps_str s +:+ rest = String dquote (escape s +:+ String dquote rest).
Proof. unfold dumps_str. cbn [String.append]. now rewrite app_assoc. Qed.

(** *** The first character of a rendered value *)

(** A value never starts with white space nor with a closing bracket. *)
Definition value_start (s : string) : bool :=
  match s with
  | "" => false
  | String c _ => negb (is_ws c) && negb (N_of_ascii c =? 93)%N
  end.

Lemma string_of_uint_start (d : uint) (r : string) :
  d <> Nil -> value_start (string_of_uint d +:+ r) = true.
Proof. destruct d; [contradiction | reflexivity ..]. Qed.

Lemma dumps_start (v : json) (r : string) : value_start (dumps v +:+ r) = true.
Proof.
  destruct v as [|[]|[|p|p]|s|l|m]; try reflexivity.
  apply string_of_uint_start, DecimalPos.Unsigned.to_uint_nonnil.
Qed.

Lemma skip_ws_start (s : string) : value_start s = true -> skip_ws s = s.
Proof.
  destruct s as [|c r]; [reflexivity|]. cbn.
  destruct (is_ws c); [discriminate | reflexivity].
Qed.

Lemma skip_ws_dumps (v : json) (r : string) :
  skip_ws (dumps v +:+ r) = dumps v +:+ r.
Proof. apply skip_ws_start, dumps_start. Qed.

(** *** One step of each decoder function *)

Lemma parse_value_string (f : nat) (r : string) :
  parse_value (S f) (String dquote r)
  = match scan_string r with
    | Some (x, r1) => Some (JStr x, r1)
    | None => None
    end.
Proof. reflexivity. Qed.

Lemma parse_value_array (f : nat) (r : string) :
  parse_value (S f) (String "[" r)
  = match skip_ws r with
    | String c1 r1 =>
        if (N_of_ascii c1 =? 93)%N then Some (JArr [], r1)
        else match parse_elements f (String c1 r1) with
             | Some (l, r2) => Some (JArr l, r2)
             | None => None
             end
    | "" => None
    end.
Proof. reflexivity. Qed.

Lemma parse_value_object (f : nat) (r : string) :
  parse_value (S f) (String "{" r)
  = match skip_ws r with
    | String c1 r1 =>
        if (N_of_ascii c1 =? 125)%N then Some (JObj [], r1)
        else match parse_members f (String c1 r1) with
             | Some (m, r2) => Some (JObj (dict_of_pairs m), r2)
             | None => None
             end
    | "" => None
    end.
Proof. reflexivity. Qed.

Lemma parse_value_int (f : nat) (z : Z) (rest : string) :
  parse_value (S f) (dumps_int z +:+ rest) = parse_number (dumps_int z +:+ rest).
Proof.
  destruct z as [|p|p]; [reflexivity | | reflexivity].
  unfold dumps_int.
  pose proof (DecimalPos.Unsigned.to_uint_nonnil p) as Hn.
  destruct (Pos.to_uint p); [contradiction | reflexivity ..].
Qed.

Lemma parse_elements_step (f : nat) (s : string) :
  parse_elements (S f) s
  = match parse_value f s with
    | Some (v, r) =>
        match skip_ws r with
        | String c r1 =>
            if (N_of_ascii c =? 93)%N then Some ([v], r1)
            else if (N_of_ascii c =? 44)%N then
              match parse_elements f (skip_ws r1) with
              | Some (vs, r2) => Some (v :: vs, r2)
              | None => None
              end
            else None
        | "" => None
        end
    | None => None
    end.
Proof. reflexivity. Qed.

Lemma parse_members_step (f : nat) (r : string) :
  parse_members (S f) (String dquote r)
  = match scan_string r with
    | Some (k, r1) =>
        match skip_ws r1 with
        | String c r2 =>
            if (N_of_ascii c =? 58)%N then
              match parse_value f (skip_ws r2) with
              | Some (v, r3) =>
                  match skip_ws r3 with
                  | String c' r4 =>
                      if (N_of_ascii c' =? 125)%N then Some ([(k, v)], r4)
                      else if (N_of_ascii c' =? 44)%N then
                        match parse_members f (skip_ws r4) with
                        | Some (m, r5) => Some ((k, v) :: m, r5)
                        | None => None
                        end
                      else None
                  | "" => None
                  end
              | None => None
              end
            else None
        | "" => None
        end
    | None => None
    end.
Proof. reflexivity. Qed.

(** *** Dicts without repeated keys are rebuilt as they were *)

Lemma mem_str_In (k : string) (l : list string) : mem_str k l = true <-> In k l.
Proof.
  induction l as [|x l IH]; cbn; [split; [discriminate | tauto]|].
  rewrite orb_true_iff, IH, String.eqb_eq. tauto.
Qed.

Lemma nodup_keys_NoDup (l : list string) : nodup_keys l = true -> List.NoDup l.
Proof.
  induction l as [|x l IH]; cbn; [constructor|].
  rewrite andb_true_iff, negb_true_iff. intros [Hx Hl].
  constructor; [|auto].
  rewrite <- mem_str_In, Hx. discriminate.
Qed.

Lemma dict_set_fresh (k : string) (v : json) (d : list (string * json)) :
  ~ In k (map fst d) -> dict_set k v d = d ++ [(k, v)].
Proof.
  induction d as [|[k' v'] d IH]; cbn; [reflexivity|].
  intros Hin. destruct (String.eqb_spec k' k) as [->|Hne]; [tauto|].
  rewrite IH; [reflexivity | tauto].
Qed.

Lemma fold_dict_set_fresh (l acc : list (string * json)) :
  List.NoDup (map fst l) ->
  (forall k, In k (map fst l) -> ~ In k (map fst acc)) ->
  fold_left (fun d kv => dict_set (fst kv) (snd kv) d) l acc = acc ++ l.
Proof.
  revert acc. induction l as [|[k v] l IH]; intros acc Hnd Hdisj; cbn.
  - now rewrite List.app_nil_r.
  - cbn in Hnd. inversion Hnd as [|? ? Hk Hl]; subst.
    rewrite dict_set_fresh by (apply Hdisj; now left).
    rewrite IH; [now rewrite <- List.app_assoc | exact Hl |].
    intros k' Hk' Hin. rewrite map_app, in_app_iff in Hin. cbn in Hin.
    destruct Hin as [Hin|[<-|[]]].
    + apply (Hdisj k'); [now right | exact Hin].
    + exact (Hk Hk').
Qed.

Lemma dict_of_pairs_nodup (m : list (string * json)) :
  nodup_keys (map fst m) = true -> dict_of_pairs m = m.
Proof.
  intros H. unfold dict_of_pairs.
  rewrite fold_dict_set_fresh; [reflexivity | now apply nodup_keys_NoDup |].
  intros k _ [].
Qed.

(** *** The fuel a value needs *)

Fixpoint size (v : json) : nat :=
  match v with
  | JArr l => S (list_sum (map (fun x => S (size x)) l))
  | JObj m => S (list_sum (map (fun kv => S (size (snd kv))) m))
  | _ => 1
  end.

Definition member_text (kv : string * json) : string :=
  dumps_str (fst kv) +:+ ": " +:+ dumps (snd kv).

Lemma dumps_obj (m : list (string * json)) :
  dumps (JObj m) = "{" +:+ String.concat ", " (map member_text m) +:+ "}".
Proof. reflexivity. Qed.

Lemma dumps_arr (l : list json) :
  dumps (JArr l) = "[" +:+ String.concat ", " (map dumps l) +:+ "]".
Proof. reflexivity. Qed.

Lemma concat_two (sep x y : string) (l : list string) :
  String.concat sep (x :: y :: l) = x +:+ sep +:+ String.concat sep (y :: l).
Proof. reflexivity. Qed.

Lemma concat_map_two {A} (g : A -> string) (sep : string) (x y : A) (l : list A) :
  String.concat sep (map g (x :: y :: l))
  = g x +:+ sep +:+ String.concat sep (map g (y :: l)).
Proof. reflexivity. Qed.

Lemma items_start (y : json) (ys : list json) (r : string) :
  value_start (String.concat ", " (map dumps (y :: ys)) +:+ r) = true.
Proof.
  destruct ys as [|z zs].
  - apply dumps_start.
  - rewrite concat_map_two, app_assoc. apply dumps_start.
Qed.

Lemma members_start (kv : string * json) (m : list (string * json)) (r : string) :
  exists t, String.concat ", " (map member_text (kv :: m)) +:+ r = String dquote t.
Proof.
  destruct m as [|kv' m].
  - cbn [map String.concat]. unfold member_text. rewrite dumps_str_app. eauto.
  - rewrite concat_map_two. unfold member_text at 1. rewrite dumps_str_app.
    eauto.
Qed.

(** What the decoder does on the rendering of [v], with [fuel] to spare. *)
Definition reads_back (v : json) : Prop :=
  forall (f : nat) (rest : string),
    (size v <= f)%nat -> num_stop rest = true -> wf v = true ->
    parse_value f (dumps v +:+ rest) = Some (v, rest).

Lemma parse_elements_dumps (l : list json) :
  Forall reads_back l -> l <> [] ->
  forall (f : nat) (rest : string),
    (list_sum (map (fun x => S (size x)) l) <= f)%nat ->
    forallb wf l = true ->
    parse_elements f (String.concat ", " (map dumps l) +:+ String "]" rest)
    = Some (l, rest).
Proof.
  induction l as [|x xs IH]; [intros _ Hne; contradiction|].
  intros HF _ f rest Hf Hwf.
  inversion HF as [|? ? Hx Hxs]; subst.
  cbn [map list_sum fold_right forallb] in Hf, Hwf. apply andb_true_iff in Hwf as [Hwx Hwxs].
  destruct f as [|f]; [exfalso; cbn in Hf; lia|].
  rewrite parse_elements_step.
  destruct xs as [|y ys].
  - cbn [map String.concat].
    rewrite (Hx f (String "]" rest)); [reflexivity | cbn in Hf; lia | reflexivity | exact Hwx].
  - rewrite concat_map_two, !app_assoc.
    rewrite (Hx f); [| cbn in Hf |- *; lia | reflexivity | exact Hwx].
    set (T := String.concat ", " (map dumps (y :: ys)) +:+ String "]" rest).
    transitivity (match parse_elements f (skip_ws T) with
                  | Some (vs, r2) => Some (x :: vs, r2)
                  | None => None
                  end); [reflexivity|].
    unfold T. rewrite skip_ws_start by apply (items_start y ys).
    rewrite (IH Hxs ltac:(discriminate) f rest); [reflexivity | | exact Hwxs].
    cbn [map list_sum fold_right] in Hf |- *. lia.
Qed.

Lemma parse_members_dumps (m : list (string * json)) :
  Forall (fun kv => reads_back (snd kv)) m -> m <> [] ->
  forall (f : nat) (rest : string),
    (list_sum (map (fun kv => S (size (snd kv))) m) <= f)%nat ->
    forallb (fun kv => wf (snd kv)) m = true ->
    parse_members f (String.concat ", " (map member_text m) +:+ String "}" rest)
    = Some (m, rest).
Proof.
  induction m as [|[k v] xs IH]; [intros _ Hne; contradiction|].
  intros HF _ f rest Hf Hwf.
  inversion HF as [|? ? Hx Hxs]; subst. cbn [snd] in Hx.
  cbn [map list_sum fold_right forallb snd] in Hf, Hwf.
  apply andb_true_iff in Hwf as [Hwx Hwxs].
  destruct f as [|f]; [exfalso; cbn in Hf; lia|].
  destruct xs as [|y ys].
  - cbn [map String.concat]. unfold member_text. cbn [fst snd].
    rewrite !app_assoc, dumps_str_app, parse_members_step, scan_string_escape.
    transitivity (match parse_value f (skip_ws (dumps v +:+ String "}" rest)) with
                  | Some (v0, r3) =>
                      match skip_ws r3 with
                      | String c' r4 =>
                          if (N_of_ascii c' =? 125)%N then Some ([(k, v0)], r4)
                          else if (N_of_ascii c' =? 44)%N then
                            match parse_members f (skip_ws r4) with
                            | Some (m, r5) => Some ((k, v0) :: m, r5)
                            | None => None
                            end
                          else None
                      | "" => None
                      end
                  | None => None
                  end); [reflexivity|].
    rewrite skip_ws_dumps.
    rewrite (Hx f); [reflexivity | lia | reflexivity | exact Hwx].
  - rewrite concat_map_two. unfold member_text at 1. cbn [fst snd].
    rewrite !app_assoc, dumps_str_app, parse_members_step, scan_string_escape.
    set (T := String.concat ", " (map member_text (y :: ys))
              +:+ String "}" rest).
    transitivity (match parse_value f (skip_ws (dumps v +:+ (", " +:+ T))) with
                  | Some (v0, r3) =>
                      match skip_ws r3 with
                      | String c' r4 =>
                          if (N_of_ascii c' =? 125)%N then Some ([(k, v0)], r4)
                          else if (N_of_ascii c' =? 44)%N then
                            match parse_members f (skip_ws r4) with
                            | Some (m, r5) => Some ((k, v0) :: m, r5)
                            | None => None
                            end
                          else None
                      | "" => None
                      end
                  | None => None
                  end); [reflexivity|].
    rewrite skip_ws_dumps.
    rewrite (Hx f); [| cbn [map list_sum fold_right] in Hf; lia | reflexivity | exact Hwx].
    transitivity (match parse_members f (skip_ws T) with
                  | Some (m, r5) => Some ((k, v) :: m, r5)
                  | None => None
                  end); [reflexivity|].
    destruct (members_start y ys (String "}" rest)) as [t Ht].
    fold T in Ht.
    rewrite (skip_ws_start T) by (rewrite Ht; reflexivity).
    unfold T.
    rewrite (IH Hxs ltac:(discriminate) f rest); [reflexivity | | exact Hwxs].
    cbn [map list_sum fold_right] in Hf |- *. lia.
Qed.

Lemma reads_back_all (v : json) : reads_back v.
Proof.
  induction v as [| b | z | s | l IH | m IH] using json_nested_ind;
    intros f rest Hf Hstop Hwf;
    (destruct f as [|f]; [exfalso; cbn in Hf; lia|]).
  - reflexivity.
  - destruct b; reflexivity.
  - cbn [dumps]. rewrite parse_value_int. now apply parse_number_dumps_int.
  - cbn [dumps]. rewrite dumps_str_app, parse_value_string, scan_string_escape.
    reflexivity.
  - rewrite dumps_arr, !app_assoc. cbn [String.append].
    rewrite parse_value_array.
    destruct l as [|x xs]; [reflexivity|].
    pose proof (items_start x xs (String "]" rest)) as Hst.
    rewrite (skip_ws_start _ Hst).
    pose proof (parse_elements_dumps (x :: xs) IH ltac:(discriminate) f rest) as Hp.
    destruct (String.concat ", " (map dumps (x :: xs)) +:+ String "]" rest)
      as [|c r]; [discriminate Hst|].
    cbn in Hst. apply andb_true_iff in Hst as [_ Hc].
    apply negb_true_iff in Hc. rewrite Hc.
    rewrite Hp; [reflexivity | cbn [size] in Hf; lia | exact Hwf].
  - rewrite dumps_obj, !app_assoc. cbn [String.append].
    rewrite parse_value_object.
    cbn [wf] in Hwf. apply andb_true_iff in Hwf as [Hnd Hwf].
    destruct m as [|kv xs]; [reflexivity|].
    destruct (members_start kv xs (String "}" rest)) as [t Ht].
    pose proof (parse_members_dumps (kv :: xs) IH ltac:(discriminate) f rest) as Hp.
    rewrite Ht in Hp |- *.
    transitivity (match parse_members f (String dquote t) with
                  | Some (m, r2) => Some (JObj (dict_of_pairs m), r2)
                  | None => None
                  end); [reflexivity|].
    rewrite Hp; [| cbn [size] in Hf; lia | exact Hwf].
    now rewrite dict_of_pairs_nodup.
Qed.

(** *** The text is long enough to serve as fuel *)

Lemma sum_le_concat {A} (sz : A -> nat) (g : A -> string) (l : list A) :
  Forall (fun x => (sz x <= String.length (g x))%nat) l ->
  (list_sum (map (fun x => S (sz x)) l)
   <= S (String.length (String.concat ", " (map g l))))%nat.
Proof.
  induction l as [|x xs IH]; intros HF; [cbn; lia|].
  inversion HF as [|? ? Hx Hxs]; subst. specialize (IH Hxs).
  destruct xs as [|y ys].
  - cbn. lia.
  - rewrite concat_map_two, !length_app.
    cbn [map list_sum fold_right] in IH |- *. cbn [String.length]. lia.
Qed.

Lemma string_of_uint_length (d : uint) :
  d <> Nil -> (1 <= String.length (string_of_uint d))%nat.
Proof. destruct d; [contradiction | cbn; lia ..]. Qed.

Lemma size_le_length (v : json) : (size v <= String.length (dumps v))%nat.
Proof.
  induction v as [| b | z | s | l IH | m IH] using json_nested_ind.
  - cbn. lia.
  - destruct b; cbn; lia.
  - destruct z as [|p|p]; cbn [size dumps dumps_int String.length];
      [lia | |];
      pose proof (string_of_uint_length (Pos.to_uint p)
                    (DecimalPos.Unsigned.to_uint_nonnil p)); lia.
  - cbn. lia.
  - rewrite dumps_arr, !length_app. cbn [size String.length].
    pose proof (sum_le_concat size dumps l IH). lia.
  - rewrite dumps_obj, !length_app. cbn [size String.length].
    assert (HF : Forall (fun kv => (size (snd kv) <= String.length (member_text kv))%nat) m).
    { eapply Forall_impl; [exact IH|]. intros kv Hkv. cbn beta in Hkv.
      unfold member_text. rewrite !length_app. lia. }
    pose proof (sum_le_concat (fun kv => size (snd kv)) member_text m HF). lia.
Qed.

(** *** The round trip *)

(** [json.loads(json.dumps(v)) == v], for every well-formed value. *)
Theorem loads_dumps (v : json) : wf v = true -> loads (dumps v) = Some v.
Proof.
  intros Hwf. unfold loads.
  pose proof (dumps_start v "") as Hst. rewrite app_nil_r in Hst.
  rewrite (skip_ws_start _ Hst).
  pose proof (reads_back_all v (S (String.length (dumps v))) "") as Hr.
  rewrite app_nil_r in Hr. rewrite Hr; [reflexivity | | reflexivity | exact Hwf].
  pose proof (size_le_length v). lia.
Qed.

(** The same through bytes: [json.loads(json.dumps(v).encode()) == v]. *)
Theorem loads_bytes_dumps (v : json) :
  wf v = true -> loads_bytes (encode (dumps v)) = Some v.
Proof.
  intros Hwf. unfold loads_bytes. rewrite decode_encode. now apply loads_dumps.
Qed.

Lemma encode_dumps_inj (v1 v2 : json) :
  wf v1 = true -> wf v2 = true ->
  encode (dumps v1) = encode (dumps v2) -> v1 = v2.
Proof.
  intros H1 H2 E.
  pose proof (loads_bytes_dumps v1 H1) as L1. rewrite E in L1.
  rewrite (loads_bytes_dumps v2 H2) in L1. congruence.
Qed.

Example loads_dumps_example :
  let v := JObj [("id", JStr (String "a" (String dquote (String "200" (String "009" "")))));
                 ("n", JArr [JInt 0; JInt (-120); JInt 9007199254740993]);
                 ("e", JObj []); ("l", JArr [])] in
  loads_bytes (encode (dumps v)) = Some v.
Proof. reflexivity. Qed.

(** *** What [dumps] writes is printable ASCII *)

Definition printable_char (c : ascii) : bool :=
  let n := N_of_ascii c in ((32 <=? n) && (n <=? 126))%N.

Fixpoint printable (s : string) : bool :=
  match s with
  | "" => true
  | String c r => printable_char c && printable r
  end.

Lemma printable_app (a b : string) :
  printable (a +:+ b) = printable a && printable b.
Proof.
  induction a as [|c a IH]; [reflexivity|].
  cbn [String.append printable]. now rewrite IH, andb_assoc.
Qed.

Lemma escape_char_printable (c : ascii) : printable (escape_char c) = true.
Proof. destruct c as [[] [] [] [] [] [] [] []]; reflexivity. Qed.

Lemma escape_printable (s : string) : printable (escape s) = true.
Proof.
  induction s as [|c s IH]; [reflexivity|].
  cbn [escape]. now rewrite printable_app, escape_char_printable, IH.
Qed.

Lemma dumps_str_printable (s : string) : printable (dumps_str s) = true.
Proof.
  unfold dumps_str. cbn [printable]. rewrite printable_app, escape_printable.
  reflexivity.
Qed.

Lemma string_of_uint_printable (d : uint) : printable (string_of_uint d) = true.
Proof. induction d; cbn [string_of_uint printable]; [reflexivity | assumption ..]. Qed.

Lemma dumps_int_printable (z : Z) : printable (dumps_int z) = true.
Proof.
  destruct z; cbn [dumps_int printable]; [reflexivity | |];
    now rewrite ?string_of_uint_printable.
Qed.

Lemma concat_printable (sep : string) (l : list string) :
  printable sep = true -> Forall (fun x => printable x = true) l ->
  printable (String.concat sep l) = true.
Proof.
  intros Hsep HF. induction HF as [|x xs Hx Hxs IH]; [reflexivity|].
  destruct xs as [|y ys]; [exact Hx|].
  rewrite concat_two, !printable_app, Hx, Hsep, IH. reflexivity.
Qed.

Lemma dumps_printable (v : json) : printable (dumps v) = true.
Proof.
  induction v as [| b | z | s | l IH | m IH] using json_nested_ind.
  - reflexivity.
  - destruct b; reflexivity.
  - apply dumps_int_printable.
  - apply dumps_str_printable.
  - rewrite dumps_arr, !printable_app, concat_printable; [reflexivity..|].
    apply Forall_map. exact IH.
  - rewrite dumps_obj, !printable_app, concat_printable; [reflexivity..|].
    apply Forall_map. eapply Forall_impl; [exact IH|].
    intros kv Hkv. cbn beta in Hkv |- *. unfold member_text.
    rewrite !printable_app, dumps_str_printable, Hkv. reflexivity.
Qed.

Lemma encode_printable (s : string) : printable s = true -> encode s = s.
Proof.
  induction s as [|c s IH]; [reflexivity|].
  cbn [printable encode]. intros H. apply andb_true_iff in H as [Hc Hs].
  rewrite (IH Hs). unfold encode_char, printable_char in *.
  apply andb_true_iff in Hc as [_ Hc]. apply N.leb_le in Hc.
  destruct (N.ltb_spec (N_of_ascii c) 128); [reflexivity | lia].
Qed.

(** A printable text holds no line feed. *)
Lemma printable_no_newline (s a b : string) :
  printable s = true -> s <> a +:+ String "010" b.
Proof.
  intros H ->. rewrite printable_app in H. cbn in H.
  rewrite andb_false_r in H. discriminate.
Qed.

(** *** What [loads] returns is well formed *)

Lemma NoDup_nodup_keys (l : list string) : List.NoDup l -> nodup_keys l = true.
Proof.
  induction 1 as [|x l Hx Hl IH]; [reflexivity|]. cbn.
  rewrite IH, andb_true_r. apply negb_true_iff.
  destruct (mem_str x l) eqn:E; [|reflexivity].
  apply mem_str_In in E. contradiction.
Qed.

Lemma dict_set_keys_in (k x : string) (v : json) (d : list (string * json)) :
  In x (map fst (dict_set k v d)) -> x = k \/ In x (map fst d).
Proof.
  induction d as [|[k' v'] d IH]; cbn.
  - intros [<-|[]]. now left.
  - destruct (String.eqb k' k); cbn; intros [<-|H]; auto.
    destruct (IH H); auto.
Qed.

Lemma dict_set_nodup (k : string) (v : json) (d : list (string * json)) :
  List.NoDup (map fst d) -> List.NoDup (map fst (dict_set k v d)).
Proof.
  induction d as [|[k' v'] d IH]; cbn; intros Hnd.
  - constructor; [intros [] | constructor].
  - inversion Hnd as [|? ? Hk Hd]; subst.
    destruct (String.eqb_spec k' k) as [->|Hne]; cbn; [now constructor|].
    constructor; [|auto].
    intros Hin. apply dict_set_keys_in in Hin as [->|Hin]; [now apply Hne | auto].
Qed.

Lemma dict_set_values (k : string) (v : json) (d : list (string * json)) :
  wf v = true -> forallb (fun kv => wf (snd kv)) d = true ->
  forallb (fun kv => wf (snd kv)) (dict_set k v d) = true.
Proof.
  intros Hv. induction d as [|[k' v'] d IH]; cbn; [now rewrite Hv|].
  intros H. apply andb_true_iff in H as [H1 H2].
  destruct (String.eqb k' k); cbn; [now rewrite Hv, H2 | now rewrite H1, IH].
Qed.

Lemma dict_of_pairs_wf (m : list (string * json)) :
  forallb (fun kv => wf (snd kv)) m = true -> wf (JObj (dict_of_pairs m)) = true.
Proof.
  unfold dict_of_pairs.
  assert (H : forall acc,
             List.NoDup (map fst acc) ->
             forallb (fun kv => wf (snd kv)) acc = true ->
             forallb (fun kv => wf (snd kv)) m = true ->
             wf (JObj (fold_left (fun d kv => dict_set (fst kv) (snd kv) d) m acc))
             = true).
  { induction m as [|[k v] m IH]; intros acc Hnd Hacc Hm; cbn [fold_left].
    - cbn [wf]. now rewrite (NoDup_nodup_keys _ Hnd), Hacc.
    - cbn [forallb snd] in Hm. apply andb_true_iff in Hm as [Hv Hm].
      apply IH; [now apply dict_set_nodup | now apply dict_set_values | exact Hm]. }
  apply H; [constructor | reflexivity].
Qed.

Lemma parse_number_is_int (s r : string) (v : json) :
  parse_number s = Some (v, r) -> exists z, v = JInt z.
Proof.
  unfold parse_number.
  destruct (match s with
            | String c r0 => if (N_of_ascii c =? 45)%N then (true, r0) else (false, s)
            | "" => (false, s)
            end) as [neg s1].
  destruct (scan_int s1) as [[d r0]|]; [|discriminate].
  destruct (is_float_tail r0); [discriminate|]. intros [= <- _]. eauto.
Qed.

Lemma literal_value (p s r : string) (v v' : json) :
  literal p v s = Some (v', r) -> v' = v.
Proof. unfold literal. destruct (strip_prefix p s); [now intros [= <- _] | discriminate]. Qed.

Lemma parse_value_step (f : nat) (c : ascii) (r : string) :
  parse_value (S f) (String c r)
  = let n := N_of_ascii c in
    if (n =? 34)%N then
      match scan_string r with
      | Some (x, r1) => Some (JStr x, r1)
      | None => None
      end
    else if (n =? 91)%N then
      match skip_ws r with
      | String c1 r1 =>
          if (N_of_ascii c1 =? 93)%N then Some (JArr [], r1)
          else match parse_elements f (String c1 r1) with
               | Some (l, r2) => Some (JArr l, r2)
               | None => None
               end
      | "" => None
      end
    else if (n =? 123)%N then
      match skip_ws r with
      | String c1 r1 =>
          if (N_of_ascii c1 =? 125)%N then Some (JObj [], r1)
          else match parse_members f (String c1 r1) with
               | Some (m, r2) => Some (JObj (dict_of_pairs m), r2)
               | None => None
               end
      | "" => None
      end
    else if (n =? 110)%N then literal "ull" JNull r
    else if (n =? 116)%N then literal "rue" (JBool true) r
    else if (n =? 102)%N then literal "alse" (JBool false) r
    else parse_number (String c r).
Proof. reflexivity. Qed.

Lemma parse_members_unfold (f : nat) (q : ascii) (r : string) :
  parse_members (S f) (String q r)
  = if (N_of_ascii q =? 34)%N then parse_members (S f) (String dquote r) else None.
Proof.
  destruct (N.eqb_spec (N_of_ascii q) 34) as [E|E].
  - replace q with dquote; [reflexivity|].
    rewrite <- (ascii_N_embedding q), E. reflexivity.
  - cbn. apply N.eqb_neq in E. rewrite E. reflexivity.
Qed.

Lemma parse_wf (f : nat) :
  (forall s v r, parse_value f s = Some (v, r) -> wf v = true)
  /\ (forall s l r, parse_elements f s = Some (l, r) -> forallb wf l = true)
  /\ (forall s m r, parse_members f s = Some (m, r) ->
                    forallb (fun kv => wf (snd kv)) m = true).
Proof.
  induction f as [|f (IHv & IHe & IHm)]; [repeat split; discriminate|].
  split; [|split].
  - intros [|c s] v r; [discriminate|]. rewrite parse_value_step. cbv zeta.
    destruct (N_of_ascii c =? 34)%N.
    { destruct (scan_string s) as [[x r1]|]; [|discriminate]. now intros [= <- _]. }
    destruct (N_of_ascii c =? 91)%N.
    { destruct (skip_ws s) as [|c1 r1]; [discriminate|].
      destruct (N_of_ascii c1 =? 93)%N; [now intros [= <- _]|].
      destruct (parse_elements f (String c1 r1)) as [[l r2]|] eqn:E; [|discriminate].
      intros [= <- _]. exact (IHe _ _ _ E). }
    destruct (N_of_ascii c =? 123)%N.
    { destruct (skip_ws s) as [|c1 r1]; [discriminate|].
      destruct (N_of_ascii c1 =? 125)%N; [now intros [= <- _]|].
      destruct (parse_members f (String c1 r1)) as [[m r2]|] eqn:E; [|discriminate].
      intros [= <- _]. apply dict_of_pairs_wf. exact (IHm _ _ _ E). }
    destruct (N_of_ascii c =? 110)%N.
    { intros H. now rewrite (literal_value _ _ _ _ _ H). }
    destruct (N_of_ascii c =? 116)%N.
    { intros H. now rewrite (literal_value _ _ _ _ _ H). }
    destruct (N_of_ascii c =? 102)%N.
    { intros H. now rewrite (literal_value _ _ _ _ _ H). }
    intros H. destruct (parse_number_is_int _ _ _ H) as [z ->]. reflexivity.
  - intros s l r. rewrite parse_elements_step.
    destruct (parse_value f s) as [[v r0]|] eqn:E; [|discriminate].
    destruct (skip_ws r0) as [|c r1]; [discriminate|].
    destruct (N_of_ascii c =? 93)%N.
    { intros [= <- _]. cbn. now rewrite (IHv _ _ _ E). }
    destruct (N_of_ascii c =? 44)%N; [|discriminate].
    destruct (parse_elements f (skip_ws r1)) as [[vs r2]|] eqn:E2; [|discriminate].
    intros [= <- _]. cbn. now rewrite (IHv _ _ _ E), (IHe _ _ _ E2).
  - intros [|q s] m r; [discriminate|]. rewrite parse_members_unfold.
    destruct (N_of_ascii q =? 34)%N; [|discriminate].
    rewrite parse_members_step.
    destruct (scan_string s) as [[k r1]|]; [|discriminate].
    destruct (skip_ws r1) as [|c r2]; [discriminate|].
    destruct (N_of_ascii c =? 58)%N; [|discriminate].
    destruct (parse_value f (skip_ws r2)) as [[v r3]|] eqn:E; [|discriminate].
    destruct (skip_ws r3) as [|c' r4]; [discriminate|].
    destruct (N_of_ascii c' =? 125)%N.
    { intros [= <- _]. cbn. now rewrite (IHv _ _ _ E). }
    destruct (N_of_ascii c' =? 44)%N; [|discriminate].
    destruct (parse_members f (skip_ws r4)) as [[m' r5]|] eqn:E2; [|discriminate].
    intros [= <- _]. cbn. now rewrite (IHv _ _ _ E), (IHm _ _ _ E2).
Qed.

(** No dict that [json.loads] builds lists a key twice. *)
Lemma loads_wf (s : string) (v : json) : loads s = Some v -> wf v = true.
Proof.
  unfold loads.
  destruct (parse_value (S (String.length s)) (skip_ws s)) as [[v' r]|] eqn:E;
    [|discriminate].
  destruct (skip_ws r); [|discriminate]. intros [= <-].
  exact (proj1 (parse_wf _) _ _ _ E).
Qed.

Lemma loads_bytes_wf (b : string) (v : json) : loads_bytes b = Some v -> wf v = true.
Proof.
  unfold loads_bytes. destruct (decode b); [apply loads_wf | discriminate].
Qed.
End Json.

(* ====================================================================== *)
(** ** Python exceptions                                                    *)
(* ====================================================================== *)

Module Py.

(** An exception: the name of its class and the text [str(e)] gives. *)
Record exc : Type := mkExc { exc_class : string; exc_str : string }.

Inductive result (A : Type) : Type :=
| Ok (a : A)
| Raise (e : exc).
Arguments Ok {A} a.
Arguments Raise {A} e.

Definition bind {A B} (r : result A) (k : A -> result B) : result B :=
  match r with
  | Ok a => k a
  | Raise e => Raise e
  end.

Definition is_ok {A} (r : result A) : bool :=
  match r with Ok _ => true | Raise _ => false end.

End Py.

Notation "'do' x <- r ; k" := (Py.bind r (fun x => k))
  (at level 10, x name, r at level 100, k at level 200).

(* ====================================================================== *)
(** ** fedmcp/artifact.py                                                   *)
(* ====================================================================== *)

Module ArtifactPy.
Import Str Json Py.

(** An [Artifact] is a dict (a TypedDict does not exist at run time). *)
Definition Artifact : Type := json.

Definition field_is_str (a : list (string * json)) (k : string) : bool :=
  match dict_get k a with Some (JStr _) => true | _ => false end.

Definition field_is_int (a : list (string * json)) (k : string) : bool :=
  match dict_get k a with Some (JInt _) => true | _ => false end.

Definition field_present (a : list (string * json)) (k : string) : bool :=
  match dict_get k a with Some _ => true | None => false end.

(** The fields the TypedDict declares, with their types. *)
Definition valid_artifact (a : Artifact) : bool :=
  match a with
  | JObj m =>
      wf a && field_is_str m "id" && field_is_str m "type"
      && field_is_int m "version" && field_is_str m "workspaceId"
      && field_is_str m "createdAt" && field_present m "jsonBody"
  | _ => false
  end.

(** [art[key]] for a str key. *)
Definition subscript (art : json) (key : string) : result json :=
  match art with
  | JObj m =>
      match dict_get key m with
      | Some v => Ok v
      | None => Raise (mkExc "KeyError" ("'" +:+ key +:+ "'"))
      end
  | JArr _ => Raise (mkExc "TypeError" "list indices must be integers or slices, not str")
  | JStr _ => Raise (mkExc "TypeError" "string indices must be integers, not 'str'")
  | JNull => Raise (mkExc "TypeError" "'NoneType' object is not subscriptable")
  | JBool _ => Raise (mkExc "TypeError" "'bool' object is not subscriptable")
  | JInt _ => Raise (mkExc "TypeError" "'int' object is not subscriptable")
  end.

(** [v != s] for a str [s]: a value differs from a str unless it is that
    str. *)
Definition ne_str (v : json) (s : string) : bool :=
  match v with
  | JStr x => negb (String.eqb x s)
  | _ => true
  end.

(** The error of line 27. *)
Definition workspace_mismatch : exc := mkExc "ValueError" "workspaceId mismatch".

Definition JSONDecodeError : exc := mkExc "JSONDecodeError" "the payload is not a JSON document".

(** The default of the parameter [kid] of [sign_artifact]. *)
Definition default_kid : string := "workspace-root".

(** The protected header of line 17. *)
Definition protected_header (kid : string) : json :=
  JObj [("alg", JStr "ES256"); ("typ", JStr "JWT"); ("kid", JStr kid)].

(** The bytes line 16 hands to the signature: [json.dumps(art).encode()]. *)
Definition signed_payload (art : Artifact) : string := encode (dumps art).

Definition workspace_of (a : Artifact) : option string :=
  match a with
  | JObj m => match dict_get "workspaceId" m with Some (JStr w) => Some w | _ => None end
  | _ => None
  end.

(** Python's [==] on these values: dicts compare as mappings, whatever the
    order of their keys; [True == 1] and [False == 0]. *)
Fixpoint py_eq (a b : json) : bool :=
  match a, b with
  | JNull, JNull => true
  | JBool x, JBool y => Bool.eqb x y
  | JBool x, JInt z | JInt z, JBool x => (z =? (if x then 1 else 0))
  | JInt x, JInt y => (x =? y)
  | JStr x, JStr y => String.eqb x y
  | JArr l1, JArr l2 =>
      (fix go (l1 l2 : list json) : bool :=
         match l1, l2 with
         | [], [] => true
         | x :: xs, y :: ys => py_eq x y && go xs ys
         | _, _ => false
         end) l1 l2
  | JObj m1, JObj m2 =>
      Nat.eqb (length m1) (length m2)
      && (fix go (m : list (string * json)) : bool :=
            match m with
            | [] => true
            | (k, v) :: r =>
                match dict_get k m2 with
                | Some v' => py_eq v v'
                | None => false
                end && go r
            end) m1
  | _, _ => false
  end.

Section WithJwcrypto.

(** The jwcrypto library, by its interface.  A key is a [JWK]; [JWS] is a
    token object after [deserialize]. *)
Variable JWK : Type.
Variable JWS : Type.

(** [jwk.JWK.from_pem(data)] *)
Variable from_pem : string -> result JWK.
(** [key.update(kid=kid, alg=alg)] *)
Variable key_update : JWK -> string -> string -> JWK.
(** [t = jws.JWS(payload); t.add_signature(key, protected=header);
    t.serialize(compact=True)].  ECDSA draws a nonce at each signature:
    it is the last argument. *)
Variable sign_compact : JWK -> json -> string -> N -> result string.
(** [t = jws.JWS(); t.deserialize(raw)] *)
Variable deserialize : string -> result JWS.
(** [t.verify(key)] *)
Variable verify : JWK -> JWS -> result unit.
(** [t.payload], and the protected header. *)
Variable payload : JWS -> string.
Variable jose_header : JWS -> json.

(** [key_pair sk pk]: [sk] is a P-256 private key and [pk] holds its
    public half. *)
Variable key_pair : JWK -> JWK -> Prop.

(** ES256 signatures made with a private key verify under the public half
    of the pair, and the token carries the header and payload given. *)
Hypothesis sign_then_verify :
  forall (sk pk : JWK) (kid pl : string) (nonce : N),
    key_pair sk pk ->
    exists (tok : string) (t : JWS),
      sign_compact (key_update sk kid "ES256") (protected_header kid) pl nonce = Ok tok
      /\ deserialize tok = Ok t
      /\ jose_header t = protected_header kid
      /\ payload t = pl
      /\ verify pk t = Ok tt.

Definition sign_artifact (art : Artifact) (pem_private : string) (kid : string)
  (nonce : N) : result string :=
  do key <- from_pem (encode pem_private);
  let key := key_update key kid "ES256" in
  sign_compact key (protected_header kid) (signed_payload art) nonce.

Definition verify_artifact (jws_compact pem_public expected_workspace : string)
  : result Artifact :=
  do key <- from_pem (encode pem_public);
  do token <- deserialize jws_compact;
  do verified <- verify key token;
  do art <- match loads_bytes (payload token) with
            | Some a => Ok a
            | None => Raise JSONDecodeError
            end;
  do ws <- subscript art "workspaceId";
  if ne_str ws expected_workspace then Raise workspace_mismatch else Ok art.

(** The kid a token announces in its header. *)
Definition header_kid (t : JWS) : option string :=
  match jose_header t with
  | JObj m => match dict_get "kid" m with Some (JStr k) => Some k | _ => None end
  | _ => None
  end.

(** *** Lemmas on the two functions *)

Lemma valid_artifact_workspace (a : Artifact) :
  valid_artifact a = true ->
  exists m w, a = JObj m /\ dict_get "workspaceId" m = Some (JStr w) /\ wf a = true.
Proof.
  destruct a as [| | | | |m]; try discriminate. unfold valid_artifact.
  rewrite !andb_true_iff. intros [[[[[[Hwf _] _] _] Hws] _] _].
  unfold field_is_str in Hws.
  destruct (dict_get "workspaceId" m) as [[| | |w| |]|] eqn:E; try discriminate.
  eauto.
Qed.

Lemma valid_artifact_wf (a : Artifact) : valid_artifact a = true -> wf a = true.
Proof. intros H. destruct (valid_artifact_workspace a H) as (? & ? & _ & _ & ?); auto. Qed.

Lemma workspace_of_subscript (a : Artifact) (w : string) :
  workspace_of a = Some w -> subscript a "workspaceId" = Ok (JStr w).
Proof.
  destruct a as [| | | | |m]; try discriminate. cbn.
  destruct (dict_get "workspaceId" m) as [[| | |x| |]|]; try discriminate.
  now intros [= ->].
Qed.

(** What [verify_artifact] returns for a token just signed. *)
Lemma verify_signed (a : Artifact) (priv pub kid expected : string)
  (sk pk : JWK) (nonce : N) (w : string) :
  wf a = true -> workspace_of a = Some w ->
  from_pem (encode priv) = Ok sk -> from_pem (encode pub) = Ok pk ->
  key_pair sk pk ->
  exists (tok : string) (t : JWS),
    sign_artifact a priv kid nonce = Ok tok
    /\ deserialize tok = Ok t
    /\ header_kid t = Some kid
    /\ verify pk t = Ok tt
    /\ verify_artifact tok pub expected
       = if String.eqb w expected then Ok a else Raise workspace_mismatch.
Proof.
  intros Hwf Hw Hsk Hpk Hpair.
  destruct (sign_then_verify sk pk kid (signed_payload a) nonce Hpair)
    as (tok & t & Hsign & Hdes & Hhdr & Hpl & Hver).
  exists tok, t. repeat split; try assumption.
  - unfold sign_artifact. rewrite Hsk. exact Hsign.
  - unfold header_kid. rewrite Hhdr. reflexivity.
  - unfold verify_artifact. rewrite Hpk. cbn [bind]. rewrite Hdes. cbn [bind].
    rewrite Hver. cbn [bind]. rewrite Hpl. unfold signed_payload.
    rewrite (loads_bytes_dumps a Hwf). cbn [bind].
    rewrite (workspace_of_subscript a w Hw). cbn [bind ne_str].
    destruct (String.eqb w expected); reflexivity.
Qed.

(** *** The properties of signing and verification *)

(** C1 (round trip): for every valid Artifact [a] and every key pair whose
    public half matches the signing private key, signing [a] yields a
    token, and verifying that token with the expected workspace equal to
    [a]'s workspaceId returns [a] itself, field for field (and in the
    same field order). *)
Theorem sign_verify_roundtrip (a : Artifact) (priv pub kid w : string)
  (sk pk : JWK) (nonce : N) :
  valid_artifact a = true -> workspace_of a = Some w ->
  from_pem (encode priv) = Ok sk -> from_pem (encode pub) = Ok pk ->
  key_pair sk pk ->
  exists tok : string,
    sign_artifact a priv kid nonce = Ok tok
    /\ verify_artifact tok pub w = Ok a.
Proof.
  intros Hv Hw Hsk Hpk Hpair.
  destruct (verify_signed a priv pub kid w sk pk nonce w
              (valid_artifact_wf a Hv) Hw Hsk Hpk Hpair)
    as (tok & t & Hsign & _ & _ & _ & Hver).
  exists tok. split; [exact Hsign|].
  rewrite Hver, String.eqb_refl. reflexivity.
Qed.

(** C2 (workspace binding): a token signed for an Artifact of workspace
    [w1], verified with the right public key but an expected workspace
    [w2] other than [w1], is refused with the workspace mismatch error of
    line 27; no artifact is returned, although the signature check of the
    token passes. *)
Theorem workspace_binding (a : Artifact) (priv pub kid w1 w2 : string)
  (sk pk : JWK) (nonce : N) :
  valid_artifact a = true -> workspace_of a = Some w1 -> w2 <> w1 ->
  from_pem (encode priv) = Ok sk -> from_pem (encode pub) = Ok pk ->
  key_pair sk pk ->
  exists (tok : string) (t : JWS),
    sign_artifact a priv kid nonce = Ok tok
    /\ deserialize tok = Ok t
    /\ verify pk t = Ok tt
    /\ verify_artifact tok pub w2 = Raise workspace_mismatch.
Proof.
  intros Hv Hw Hne Hsk Hpk Hpair.
  destruct (verify_signed a priv pub kid w2 sk pk nonce w1
              (valid_artifact_wf a Hv) Hw Hsk Hpk Hpair)
    as (tok & t & Hsign & Hdes & _ & Hok & Hver).
  exists tok, t. repeat split; try assumption.
  rewrite Hver. destruct (String.eqb_spec w1 w2) as [->|_]; [contradiction|].
  reflexivity.
Qed.

(** C4, as the code has it: [verify_artifact] checks a token against the
    public key its caller supplies, and never reads the kid of the header.
    A token signed under any kid is accepted under the caller-supplied key
    that matches the signing key; under a caller-supplied key that does
    not verify the signature, the call fails with the error of that
    check.  There is no keyring. *)
Theorem caller_key_decides (a : Artifact) (priv pub kid w : string)
  (sk pk : JWK) (nonce : N) :
  valid_artifact a = true -> workspace_of a = Some w ->
  from_pem (encode priv) = Ok sk -> from_pem (encode pub) = Ok pk ->
  key_pair sk pk ->
  exists (tok : string) (t : JWS),
    sign_artifact a priv kid nonce = Ok tok
    /\ deserialize tok = Ok t
    /\ header_kid t = Some kid
    /\ verify_artifact tok pub w = Ok a
    /\ (forall (pub' : string) (key' : JWK) (e : exc),
          from_pem (encode pub') = Ok key' -> verify key' t = Raise e ->
          verify_artifact tok pub' w = Raise e).
Proof.
  intros Hv Hw Hsk Hpk Hpair.
  destruct (verify_signed a priv pub kid w sk pk nonce w
              (valid_artifact_wf a Hv) Hw Hsk Hpk Hpair)
    as (tok & t & Hsign & Hdes & Hkid & _ & Hver).
  exists tok, t. repeat split; try assumption.
  - rewrite Hver, String.eqb_refl. reflexivity.
  - intros pub' key' e Hk He. unfold verify_artifact.
    rewrite Hk. cbn [bind]. rewrite Hdes. cbn [bind]. rewrite He. reflexivity.
Qed.

(** *** What a successful verification guarantees *)

(** Every artifact [verify_artifact] returns comes from a token that the
    caller-supplied key verifies; it is a dict without repeated keys, and
    its workspaceId is the str the caller expects. *)
Theorem verify_artifact_sound (jws_compact pem_public expected : string)
  (a : Artifact) :
  verify_artifact jws_compact pem_public expected = Ok a ->
  exists (key : JWK) (t : JWS) (m : list (string * json)),
    from_pem (encode pem_public) = Ok key
    /\ deserialize jws_compact = Ok t
    /\ verify key t = Ok tt
    /\ loads_bytes (payload t) = Some a
    /\ a = JObj m
    /\ dict_get "workspaceId" m = Some (JStr expected)
    /\ wf a = true.
Proof.
  unfold verify_artifact.
  destruct (from_pem (encode pem_public)) as [key|e] eqn:Hk; [cbn [bind]|discriminate].
  destruct (deserialize jws_compact) as [t|e] eqn:Ht; [cbn [bind]|discriminate].
  destruct (verify key t) as [[]|e] eqn:Hv; [cbn [bind]|discriminate].
  destruct (loads_bytes (payload t)) as [art|] eqn:Hl; [cbn [bind]|discriminate].
  destruct art as [| | | | |m]; try discriminate. cbn [subscript].
  destruct (dict_get "workspaceId" m) as [ws|] eqn:Hws; [cbn [bind]|discriminate].
  destruct ws as [| | |x| |]; try discriminate. cbn [ne_str].
  destruct (String.eqb_spec x expected) as [->|]; [|discriminate].
  intros [= <-]. exists key, t, m.
  repeat split; try assumption; try reflexivity.
  exact (loads_bytes_wf _ _ Hl).
Qed.

(** [sign_artifact] validates nothing: an artifact without a str
    workspaceId (no such key, another type of value, or no dict at all) is
    signed like any other, and no verification of its token can succeed.
    With the right key, and whatever workspace is expected, the call
    raises: the error of the subscript when there is no workspaceId to
    read, the workspace mismatch error when the value is not a str. *)
Theorem artifact_without_workspace_never_verifies (a : Artifact)
  (priv pub kid : string) (sk pk : JWK) (nonce : N) :
  wf a = true -> workspace_of a = None ->
  from_pem (encode priv) = Ok sk -> from_pem (encode pub) = Ok pk ->
  key_pair sk pk ->
  exists tok : string,
    sign_artifact a priv kid nonce = Ok tok
    /\ forall expected : string,
         verify_artifact tok pub expected
         = Raise (match subscript a "workspaceId" with
                  | Raise e => e
                  | Ok _ => workspace_mismatch
                  end).
Proof.
  intros Hwf Hnone Hsk Hpk Hpair.
  destruct (sign_then_verify sk pk kid (signed_payload a) nonce Hpair)
    as (tok & t & Hsign & Hdes & _ & Hpl & Hver).
  exists tok. split.
  - unfold sign_artifact. rewrite Hsk. exact Hsign.
  - intros expected. unfold verify_artifact.
    rewrite Hpk. cbn [bind]. rewrite Hdes. cbn [bind]. rewrite Hver. cbn [bind].
    rewrite Hpl. unfold signed_payload. rewrite (loads_bytes_dumps a Hwf).
    cbn [bind]. destruct (subscript a "workspaceId") as [ws|e] eqn:Hsub;
      [|reflexivity].
    cbn [bind]. destruct a as [| | | | |m]; try discriminate.
    cbn [subscript workspace_of] in *.
    destruct (dict_get "workspaceId" m) as [v|]; [|discriminate].
    injection Hsub as <-. destruct v; try reflexivity. discriminate.
Qed.

(** A key that cannot be read stops both functions before any token is
    made or read. *)
Lemma bad_pem_raises (a : Artifact) (pem kid tok expected : string) (nonce : N)
  (e : exc) :
  from_pem (encode pem) = Raise e ->
  sign_artifact a pem kid nonce = Raise e
  /\ verify_artifact tok pem expected = Raise e.
Proof.
  intros H. unfold sign_artifact, verify_artifact. rewrite H. split; reflexivity.
Qed.

End WithJwcrypto.

(** C3, as the code has it: the payload is [json.dumps(art)] with its
    default arguments, encoded: the fields come in the artifact's own
    order, with a comma and a space between members and a colon and a space
    after each key.  The payload reads back as the artifact, so two
    artifacts have the same payload bytes exactly when they are the same
    value with the same field order at every level. *)
Theorem payload_follows_field_order (a1 a2 : Artifact) :
  (forall m : list (string * json),
      signed_payload (JObj m)
      = encode ("{" +:+ String.concat ", "
                        (map (fun kv => dumps_str (fst kv) +:+ ": " +:+ dumps (snd kv)) m)
                    +:+ "}"))
  /\ (wf a1 = true -> loads_bytes (signed_payload a1) = Some a1)
  /\ (wf a1 = true -> wf a2 = true ->
      (signed_payload a1 = signed_payload a2 <-> a1 = a2)).
Proof.
  split; [reflexivity|]. split.
  - apply loads_bytes_dumps.
  - intros H1 H2. split; [now apply encode_dumps_inj | now intros ->].
Qed.

(** The payload is printable ASCII: [encode] changes nothing in it, and a
    character of a field that is not printable ASCII (a line feed, a
    letter with an accent) appears in it as an escape. *)
Theorem signed_payload_ascii (a : Artifact) :
  printable (signed_payload a) = true /\ signed_payload a = dumps a.
Proof.
  unfold signed_payload.
  rewrite (encode_printable _ (dumps_printable a)).
  split; [apply dumps_printable | reflexivity].
Qed.

End ArtifactPy.

(* ====================================================================== *)
(** ** A small instance of the jwcrypto interface                           *)
(* ====================================================================== *)

(** The functions of [ArtifactPy] are stated over the interface of the
    jwcrypto library.  [RefJws] is an instance of it that computes: keys are
    named strings and the signature of a message is a tag built from the
    key's name, which is all the laws of the interface ask for.  It serves
    to run the functions on concrete tokens. *)

Module RefJws.
Import Str Json Py.

Definition JWK : Type := bool * string.
Definition JWS : Type := json * string * string.

Definition from_pem (data : string) : result JWK :=
  match strip_prefix "PRIVATE " data with
  | Some name => Ok (true, name)
  | None =>
      match strip_prefix "PUBLIC " data with
      | Some name => Ok (false, name)
      | None => Raise (mkExc "ValueError" "Could not deserialize key data")
      end
  end.

Definition key_update (k : JWK) (kid alg : string) : JWK := k.

Definition tag (name : string) (header : json) (pl : string) : string :=
  name +:+ "." +:+ dumps header +:+ "." +:+ pl.

Definition sign_compact (k : JWK) (header : json) (pl : string) (nonce : N)
  : result string :=
  if fst k && wf header
  then Ok (dumps (JArr [header; JStr pl; JStr (tag (snd k) header pl)]))
  else Raise (mkExc "InvalidJWSOperation" "the key cannot sign").

Definition deserialize (raw : string) : result JWS :=
  match loads raw with
  | Some (JArr [h; JStr p; JStr s]) => Ok (h, p, s)
  | _ => Raise (mkExc "InvalidJWSObject" "Invalid format")
  end.

Definition payload (t : JWS) : string := snd (fst t).
Definition jose_header (t : JWS) : json := fst (fst t).

Definition verify (k : JWK) (t : JWS) : result unit :=
  if String.eqb (snd t) (tag (snd k) (jose_header t) (payload t))
  then Ok tt
  else Raise (mkExc "InvalidJWSSignature" "Verification failed for all signatures").

Definition key_pair (sk pk : JWK) : Prop := fst sk = true /\ snd pk = snd sk.

Lemma sign_then_verify (sk pk : JWK) (kid pl : string) (nonce : N) :
  key_pair sk pk ->
  exists (tok : string) (t : JWS),
    sign_compact (key_update sk kid "ES256") (ArtifactPy.protected_header kid) pl nonce
    = Ok tok
    /\ deserialize tok = Ok t
    /\ jose_header t = ArtifactPy.protected_header kid
    /\ payload t = pl
    /\ verify pk t = Ok tt.
Proof.
  intros [Hpriv Hname].
  set (h := ArtifactPy.protected_header kid).
  exists (dumps (JArr [h; JStr pl; JStr (tag (snd sk) h pl)])),
         (h, pl, tag (snd sk) h pl).
  repeat split.
  - unfold sign_compact, key_update. rewrite Hpriv. reflexivity.
  - unfold deserialize. rewrite loads_dumps; reflexivity.
  - unfold verify. cbn [snd fst jose_header payload].
    rewrite Hname, String.eqb_refl. reflexivity.
Qed.

(** The artifact of the spec's scenario, and the same fields in another
    order. *)
Definition example_artifact : json :=
  JObj [("id", JStr "a1"); ("type", JStr "policy"); ("version", JInt 1);
        ("workspaceId", JStr "ws-1"); ("createdAt", JStr "2025-01-01T00:00:00+00:00");
        ("jsonBody", JObj [("rule", JStr "x")])].

Definition example_reordered : json :=
  JObj [("workspaceId", JStr "ws-1"); ("id", JStr "a1"); ("type", JStr "policy");
        ("version", JInt 1); ("createdAt", JStr "2025-01-01T00:00:00+00:00");
        ("jsonBody", JObj [("rule", JStr "x")])].

Definition sign_artifact := ArtifactPy.sign_artifact JWK from_pem key_update sign_compact.
Definition verify_artifact := ArtifactPy.verify_artifact JWK JWS from_pem deserialize verify payload.

Example sign_example :
  sign_artifact (JObj [("workspaceId", JStr "w")]) "PRIVATE k" "kid-1" 0
  = Ok (qq "[{'alg': 'ES256', 'typ': 'JWT', 'kid': 'kid-1'}, '{\'workspaceId\': \'w\'}', 'k.{\'alg\': \'ES256\', \'typ\': \'JWT\', \'kid\': \'kid-1\'}.{\'workspaceId\': \'w\'}']").
Proof. reflexivity. Qed.

Example verify_wrong_key :
  let tok := qq "[{'alg': 'ES256', 'typ': 'JWT', 'kid': 'kid-1'}, '{\'workspaceId\': \'w\'}', 'k.{\'alg\': \'ES256\', \'typ\': \'JWT\', \'kid\': \'kid-1\'}.{\'workspaceId\': \'w\'}']" in
  verify_artifact tok "PUBLIC k" "w" = Ok (JObj [("workspaceId", JStr "w")])
  /\ verify_artifact tok "PUBLIC other" "w"
     = Raise (mkExc "InvalidJWSSignature" "Verification failed for all signatures")
  /\ verify_artifact tok "PUBLIC k" "w2" = Raise ArtifactPy.workspace_mismatch
  /\ verify_artifact "x.y.z" "PUBLIC k" "w" = Raise (mkExc "InvalidJWSObject" "Invalid format").
Proof. repeat split; reflexivity. Qed.

(** *** Concrete runs *)

Lemma roundtrip_witness :
  exists tok : string,
    sign_artifact example_artifact "PRIVATE k1" "kid-1" 7 = Ok tok
    /\ verify_artifact tok "PUBLIC k1" "ws-1" = Ok example_artifact.
Proof.
  apply (ArtifactPy.sign_verify_roundtrip JWK JWS from_pem key_update sign_compact
           deserialize verify payload jose_header key_pair sign_then_verify
           example_artifact "PRIVATE k1" "PUBLIC k1" "kid-1" "ws-1"
           (true, "k1") (false, "k1") 7);
    [reflexivity | reflexivity | reflexivity | reflexivity | split; reflexivity].
Defined.

Lemma workspace_binding_witness :
  exists (tok : string) (t : JWS),
    sign_artifact example_artifact "PRIVATE k1" "kid-1" 7 = Ok tok
    /\ deserialize tok = Ok t
    /\ verify (false, "k1") t = Ok tt
    /\ verify_artifact tok "PUBLIC k1" "ws-2" = Raise ArtifactPy.workspace_mismatch.
Proof.
  apply (ArtifactPy.workspace_binding JWK JWS from_pem key_update sign_compact
           deserialize verify payload jose_header key_pair sign_then_verify
           example_artifact "PRIVATE k1" "PUBLIC k1" "kid-1" "ws-1" "ws-2"
           (true, "k1") (false, "k1") 7);
    [reflexivity | reflexivity | discriminate | reflexivity | reflexivity
    | split; reflexivity].
Defined.

Lemma caller_key_decides_witness :
  exists (tok : string) (t : JWS),
    sign_artifact example_artifact "PRIVATE k1" "kid-9" 7 = Ok tok
    /\ deserialize tok = Ok t
    /\ ArtifactPy.header_kid JWS jose_header t = Some "kid-9"
    /\ verify_artifact tok "PUBLIC k1" "ws-1" = Ok example_artifact
    /\ (forall (pub' : string) (key' : JWK) (e : exc),
          from_pem (encode pub') = Ok key' -> verify key' t = Raise e ->
          verify_artifact tok pub' "ws-1" = Raise e).
Proof.
  apply (ArtifactPy.caller_key_decides JWK JWS from_pem key_update sign_compact
           deserialize verify payload jose_header key_pair sign_then_verify
           example_artifact "PRIVATE k1" "PUBLIC k1" "kid-9" "ws-1"
           (true, "k1") (false, "k1") 7);
    [reflexivity | reflexivity | reflexivity | reflexivity | split; reflexivity].
Defined.

Lemma payload_follows_field_order_witness :
  loads_bytes (ArtifactPy.signed_payload example_artifact) = Some example_artifact
  /\ (ArtifactPy.signed_payload example_artifact
      = ArtifactPy.signed_payload example_reordered
      <-> example_artifact = example_reordered).
Proof.
  destruct (ArtifactPy.payload_follows_field_order example_artifact example_reordered)
    as (_ & Hloads & Hiff).
  split; [apply Hloads | apply Hiff]; reflexivity.
Defined.

(** C3 fails as stated: two artifacts that Python holds equal, with their
    fields in different orders, are signed over different payload bytes;
    and the payload has a space after each comma and colon, which a reader
    of the document does not need. *)
Lemma payload_depends_on_field_order :
  ArtifactPy.valid_artifact example_artifact = true
  /\ ArtifactPy.valid_artifact example_reordered = true
  /\ ArtifactPy.py_eq example_artifact example_reordered = true
  /\ ArtifactPy.signed_payload example_artifact
     <> ArtifactPy.signed_payload example_reordered
  /\ ArtifactPy.signed_payload example_artifact
     = qq "{'id': 'a1', 'type': 'policy', 'version': 1, 'workspaceId': 'ws-1', 'createdAt': '2025-01-01T00:00:00+00:00', 'jsonBody': {'rule': 'x'}}"
  /\ loads (qq "{'id':'a1','type':'policy','version':1,'workspaceId':'ws-1','createdAt':'2025-01-01T00:00:00+00:00','jsonBody':{'rule':'x'}}")
     = Some example_artifact.
Proof.
  repeat split; try reflexivity. discriminate.
Qed.

(** C4 fails as stated: the token below is well formed and announces the
    kid kid-9; a keyring that registers only kid-1 does not hold that kid,
    and no keyring is consulted: verification with the public key the
    caller passes succeeds and returns the artifact. *)
Lemma verify_never_looks_up_kid :
  exists (tok : string) (t : JWS),
    sign_artifact example_artifact "PRIVATE k1" "kid-9" 7 = Ok tok
    /\ deserialize tok = Ok t
    /\ ArtifactPy.header_kid JWS jose_header t = Some "kid-9"
    /\ ({[ "kid-1" := (false, "k1") ]} : gmap string JWK) !! "kid-9" = None
    /\ verify_artifact tok "PUBLIC k1" "ws-1" = Ok example_artifact.
Proof.
  eexists. eexists. split; [reflexivity|].
  split; [reflexivity|]. split; [reflexivity|]. split; reflexivity.
Qed.

(** *** Runs of the further properties of [ArtifactPy] *)

Definition example_token : string :=
  qq "[{'alg': 'ES256', 'typ': 'JWT', 'kid': 'kid-1'}, '{\'workspaceId\': \'w\'}', 'k.{\'alg\': \'ES256\', \'typ\': \'JWT\', \'kid\': \'kid-1\'}.{\'workspaceId\': \'w\'}']".

Lemma verify_artifact_sound_witness :
  exists (key : JWK) (t : JWS) (m : list (string * json)),
    from_pem (encode "PUBLIC k") = Ok key
    /\ deserialize example_token = Ok t
    /\ verify key t = Ok tt
    /\ loads_bytes (payload t) = Some (JObj [("workspaceId", JStr "w")])
    /\ JObj [("workspaceId", JStr "w")] = JObj m
    /\ dict_get "workspaceId" m = Some (JStr "w")
    /\ wf (JObj [("workspaceId", JStr "w")]) = true.
Proof.
  apply (ArtifactPy.verify_artifact_sound JWK JWS from_pem deserialize verify
           payload example_token "PUBLIC k" "w" (JObj [("workspaceId", JStr "w")])).
  reflexivity.
Defined.

Lemma artifact_without_workspace_never_verifies_witness :
  exists tok : string,
    sign_artifact (JObj [("id", JStr "a1"); ("workspaceId", JInt 7)])
      "PRIVATE k1" "kid-1" 7 = Ok tok
    /\ forall expected : string,
         verify_artifact tok "PUBLIC k1" expected
         = Raise (match ArtifactPy.subscript
                          (JObj [("id", JStr "a1"); ("workspaceId", JInt 7)])
                          "workspaceId" with
                  | Raise e => e
                  | Ok _ => ArtifactPy.workspace_mismatch
                  end).
Proof.
  apply (ArtifactPy.artifact_without_workspace_never_verifies JWK JWS from_pem
           key_update sign_compact deserialize verify payload jose_header key_pair
           sign_then_verify (JObj [("id", JStr "a1"); ("workspaceId", JInt 7)])
           "PRIVATE k1" "PUBLIC k1" "kid-1" (true, "k1") (false, "k1") 7);
    [reflexivity | reflexivity | reflexivity | reflexivity | split; reflexivity].
Defined.

Example unbound_artifact_examples :
  (forall expected tok,
      sign_artifact (JObj [("id", JStr "a1")]) "PRIVATE k1" "kid-1" 7 = Ok tok ->
      verify_artifact tok "PUBLIC k1" expected
      = Raise (mkExc "KeyError" "'workspaceId'"))
  /\ (forall expected tok,
        sign_artifact (JArr [JStr "ws-1"]) "PRIVATE k1" "kid-1" 7 = Ok tok ->
        verify_artifact tok "PUBLIC k1" expected
        = Raise (mkExc "TypeError" "list indices must be integers or slices, not str")).
Proof. split; intros expected tok [= <-]; reflexivity. Qed.

End RefJws.


(* ====================================================================== *)
(** ** fedmcp/audit.py                                                      *)
(* ====================================================================== *)

Module AuditPy.
Import Str Json Py.

(** [AuditAction = Literal["create", "update", "deploy", "delete"]]: the
    actions the annotation of [emit_event] declares.  An annotation is not
    checked when the program runs: the function takes the action it is
    given, which is a str. *)
Inductive AuditAction : Type := create | update | deploy | delete.

(** The str an action is. *)
Definition action_str (a : AuditAction) : string :=
  match a with
  | create => "create"
  | update => "update"
  | deploy => "deploy"
  | delete => "delete"
  end.

Definition newline : string := String "010" "".

(** [emit_event]: the event is printed as one line of JSON.  [uuid4] and
    [now] are what [uuid.uuid4()] and the clock give at the call; the
    standard output is the list of the lines printed so far. *)
Definition event_of (artifact_id : string) (action : string) (actor : string)
  (uuid4 now : string) : json :=
  JObj [("eventId", JStr uuid4); ("artifactId", JStr artifact_id);
        ("action", JStr action); ("actor", JStr actor);
        ("timestamp", JStr now)].

Definition emit_event (artifact_id : string) (action : string) (actor : string)
  (uuid4 now : string) (stdout : list string) : list string :=
  stdout ++ [dumps (event_of artifact_id action actor uuid4 now) +:+ newline].

(** The enumeration the specification gives for the action of an event. *)
Definition spec_actions : list string :=
  ["create"; "read"; "update"; "delete"; "verify"; "deploy"].

Example emit_event_example :
  emit_event "a1" (action_str deploy) "user:alice" "e-1" "2025-01-01T00:00:00+00:00" []
  = [qq "{'eventId': 'e-1', 'artifactId': 'a1', 'action': 'deploy', 'actor': 'user:alice', 'timestamp': '2025-01-01T00:00:00+00:00'}"
     +:+ newline].
Proof. reflexivity. Qed.

(** The action is not looked at: read, which the annotation leaves out, is
    printed like any other. *)
Example emit_event_read :
  emit_event "a1" "read" "user:alice" "e-1" "2025-01-01T00:00:00+00:00" []
  = [qq "{'eventId': 'e-1', 'artifactId': 'a1', 'action': 'read', 'actor': 'user:alice', 'timestamp': '2025-01-01T00:00:00+00:00'}"
     +:+ newline].
Proof. reflexivity. Qed.

(** C5, as the code has it: [emit_event] does not check the action.  The
    event it prints carries the action it was given, whatever str that is:
    the line printed reads back as an event whose action is that str.  So
    an event can be emitted for each of the six actions of the
    enumeration, read and verify included, and the action of an emitted
    event is in the enumeration exactly when the action given is.  The
    four actions the annotation declares are among the six. *)
Theorem emitted_action_is_given_action
  (artifact_id actor uuid4 now : string) (action : string) (stdout : list string) :
  (exists (line : string) (evt : json),
      emit_event artifact_id action actor uuid4 now stdout
      = stdout ++ [line +:+ newline]
      /\ loads line = Some evt
      /\ ArtifactPy.subscript evt "action" = Ok (JStr action)
      /\ (forall s : string,
            ArtifactPy.subscript evt "action" = Ok (JStr s) ->
            (In s spec_actions <-> In action spec_actions)))
  /\ (forall s : string,
        In s spec_actions ->
        exists evt : json,
          emit_event artifact_id s actor uuid4 now stdout
          = stdout ++ [dumps evt +:+ newline]
          /\ loads (dumps evt) = Some evt
          /\ ArtifactPy.subscript evt "action" = Ok (JStr s))
  /\ (forall a : AuditAction, In (action_str a) spec_actions).
Proof.
  split; [|split; [|intros a; destruct a; cbn; tauto]].
  - exists (dumps (event_of artifact_id action actor uuid4 now)),
           (event_of artifact_id action actor uuid4 now).
    split; [reflexivity|]. split; [apply loads_dumps; reflexivity|].
    split; [reflexivity|]. intros s [= <-]. reflexivity.
  - intros s _. exists (event_of artifact_id s actor uuid4 now).
    split; [reflexivity|]. split; [apply loads_dumps|]; reflexivity.
Qed.

(** C5 fails as stated: a call with the action archive, which is none of
    the six actions of the enumeration, prints an event whose action
    field is archive. *)
Lemma action_outside_enumeration_is_emitted :
  emit_event "a1" "archive" "user:alice" "e-1" "2025-01-01T00:00:00+00:00" []
  = [qq "{'eventId': 'e-1', 'artifactId': 'a1', 'action': 'archive', 'actor': 'user:alice', 'timestamp': '2025-01-01T00:00:00+00:00'}"
     +:+ newline]
  /\ (exists evt : json,
        loads (qq "{'eventId': 'e-1', 'artifactId': 'a1', 'action': 'archive', 'actor': 'user:alice', 'timestamp': '2025-01-01T00:00:00+00:00'}")
        = Some evt
        /\ ArtifactPy.subscript evt "action" = Ok (JStr "archive"))
  /\ existsb (String.eqb "archive") spec_actions = false.
Proof.
  split; [reflexivity|]. split; [|reflexivity].
  eexists. split; reflexivity.
Qed.
(** Each call prints one line and keeps the lines before it.  The line is
    printable ASCII, so it holds no line feed of its own, whatever
    characters the artifact id, the action and the actor hold; read with
    [json.loads] it gives the event back, with the id, the action and the
    actor of the call. *)
Theorem emitted_line_reads_back (artifact_id actor uuid4 now : string)
  (action : string) (stdout : list string) :
  exists line : string,
    emit_event artifact_id action actor uuid4 now stdout = stdout ++ [line +:+ newline]
    /\ printable line = true
    /\ (forall a b : string, line <> a +:+ newline +:+ b)
    /\ loads line = Some (event_of artifact_id action actor uuid4 now)
    /\ ArtifactPy.subscript (event_of artifact_id action actor uuid4 now) "artifactId"
       = Ok (JStr artifact_id)
    /\ ArtifactPy.subscript (event_of artifact_id action actor uuid4 now) "actor"
       = Ok (JStr actor).
Proof.
  exists (dumps (event_of artifact_id action actor uuid4 now)).
  split; [reflexivity|]. split; [apply dumps_printable|].
  split; [|split; [apply loads_dumps; reflexivity | split; reflexivity]].
  intros a b. apply printable_no_newline, dumps_printable.
Qed.

Example emit_event_escapes_line_feed :
  emit_event (String "a" (String "010" "b")) "create" "u" "e-1" "t" []
  = [qq "{'eventId': 'e-1', 'artifactId': 'a\nb', 'action': 'create', 'actor': 'u', 'timestamp': 't'}"
     +:+ newline].
Proof. reflexivity. Qed.

End AuditPy.

(* ====================================================================== *)
(** ** fedmcp/cli.py                                                        *)
(* ====================================================================== *)

Module CliPy.
Import Str Json Py.

Definition FileNotFoundError (p : string) : exc :=
  mkExc "FileNotFoundError" ("No such file or directory: '" +:+ p +:+ "'").

(** [Path.read_text()]: the file system is the map from the path of a file
    to its text. *)
Definition read_text (fs : gmap string string) (p : string) : result string :=
  match fs !! p with
  | Some text => Ok text
  | None => Raise (FileNotFoundError p)
  end.

(** [json.loads] of a str, with its exception. *)
Definition json_loads (text : string) : result json :=
  match loads text with
  | Some v => Ok v
  | None => Raise ArtifactPy.JSONDecodeError
  end.

Section WithJwcrypto.

Variable JWK : Type.
Variable JWS : Type.
Variable from_pem : string -> result JWK.
Variable key_update : JWK -> string -> string -> JWK.
Variable sign_compact : JWK -> json -> string -> N -> result string.
Variable deserialize : string -> result JWS.
Variable verify : JWK -> JWS -> result unit.
Variable payload : JWS -> string.
Variable jose_header : JWS -> json.
Variable key_pair : JWK -> JWK -> Prop.

Hypothesis sign_then_verify :
  forall (sk pk : JWK) (kid pl : string) (nonce : N),
    key_pair sk pk ->
    exists (tok : string) (t : JWS),
      sign_compact (key_update sk kid "ES256") (ArtifactPy.protected_header kid) pl nonce
      = Ok tok
      /\ deserialize tok = Ok t
      /\ jose_header t = ArtifactPy.protected_header kid
      /\ payload t = pl
      /\ verify pk t = Ok tt.

(** The command [sign]: [artifact] and [key] are the paths of the two
    files; [typer.echo] adds a line to the standard output. *)
Definition sign (fs : gmap string string) (artifact key kid : string) (nonce : N)
  (stdout : list string) : result (list string) :=
  do text <- read_text fs artifact;
  do art <- json_loads text;
  do pem <- read_text fs key;
  do token <- ArtifactPy.sign_artifact JWK from_pem key_update sign_compact
                art pem kid nonce;
  Ok (stdout ++ [token +:+ AuditPy.newline]).

(** The command stops at the first step that fails, in the order of the
    source: the artifact file, then the key file. *)
Lemma sign_stops_early (fs : gmap string string) (artifact key kid : string)
  (nonce : N) (stdout : list string) :
  (fs !! artifact = None ->
   sign fs artifact key kid nonce stdout = Raise (FileNotFoundError artifact))
  /\ (forall text art, fs !! artifact = Some text -> loads text = Some art ->
        fs !! key = None ->
        sign fs artifact key kid nonce stdout = Raise (FileNotFoundError key)).
Proof.
  unfold sign, read_text, json_loads. split.
  - intros ->. reflexivity.
  - intros text art -> H Hk. cbn [bind]. rewrite H. cbn [bind]. rewrite Hk. reflexivity.
Qed.

(** The token the command echoes for an artifact file verifies back to the
    artifact of the file: whatever JSON text the file holds, if it reads as
    a dict with a str workspaceId, the line printed is a token that
    [verify_artifact] accepts under the matching public key and that
    workspace, returning the artifact read from the file. *)
Theorem sign_output_verifies (fs : gmap string string)
  (artifact key kid text priv pub w : string) (a : json) (sk pk : JWK)
  (nonce : N) (stdout : list string) :
  fs !! artifact = Some text -> loads text = Some a ->
  ArtifactPy.workspace_of a = Some w ->
  fs !! key = Some priv ->
  from_pem (encode priv) = Ok sk -> from_pem (encode pub) = Ok pk ->
  key_pair sk pk ->
  exists tok : string,
    sign fs artifact key kid nonce stdout = Ok (stdout ++ [tok +:+ AuditPy.newline])
    /\ ArtifactPy.verify_artifact JWK JWS from_pem deserialize verify payload
         tok pub w = Ok a.
Proof.
  intros Hf Hl Hw Hk Hsk Hpk Hpair.
  destruct (ArtifactPy.verify_signed JWK JWS from_pem key_update sign_compact
              deserialize verify payload jose_header key_pair sign_then_verify
              a priv pub kid w sk pk nonce w (loads_wf _ _ Hl) Hw Hsk Hpk Hpair)
    as (tok & t & Hsign & _ & _ & _ & Hver).
  exists tok. split.
  - unfold sign, read_text, json_loads. rewrite Hf. cbn [bind]. rewrite Hl.
    cbn [bind]. rewrite Hk. cbn [bind]. rewrite Hsign. reflexivity.
  - rewrite Hver, String.eqb_refl. reflexivity.
Qed.

End WithJwcrypto.

Definition example_files : gmap string string :=
  {[ "artifact.json" := qq " {'workspaceId' :'ws-1', 'id': 'a1', 'jsonBody': [1, {'k': null}]} ";
     "priv.pem" := "PRIVATE k1" ]}.

Lemma sign_output_verifies_witness :
  exists tok : string,
    sign RefJws.JWK RefJws.from_pem RefJws.key_update RefJws.sign_compact
      example_files "artifact.json" "priv.pem" ArtifactPy.default_kid 3 []
    = Ok ([] ++ [tok +:+ AuditPy.newline])
    /\ RefJws.verify_artifact tok "PUBLIC k1" "ws-1"
       = Ok (JObj [("workspaceId", JStr "ws-1"); ("id", JStr "a1");
                   ("jsonBody", JArr [JInt 1; JObj [("k", JNull)]])]).
Proof.
  apply (sign_output_verifies RefJws.JWK RefJws.JWS RefJws.from_pem
           RefJws.key_update RefJws.sign_compact RefJws.deserialize RefJws.verify
           RefJws.payload RefJws.jose_header RefJws.key_pair RefJws.sign_then_verify
           example_files "artifact.json" "priv.pem" ArtifactPy.default_kid
           (qq " {'workspaceId' :'ws-1', 'id': 'a1', 'jsonBody': [1, {'k': null}]} ")
           "PRIVATE k1" "PUBLIC k1" "ws-1" _ (true, "k1") (false, "k1") 3 []);
    try reflexivity. split; reflexivity.
Defined.

End CliPy.

(* ====================================================================== *)
(** ** src/fedmcp_server.py: storage backends                               *)
(* ====================================================================== *)

Module Storage.
Import Str Json Py.

(** [class StorageBackend]: the two methods the endpoints of the claims
    call.  A backend value carries the contents of its medium, and
    [store_artifact] returns the backend after the write. *)
Class StorageBackend (B : Type) : Type := {
  store_artifact : B -> string -> json -> result B;
  get_artifact : B -> string -> result (option json)
}.

Definition JSONDecodeError : exc := mkExc "JSONDecodeError" "the text is not a JSON document".

(** [class LocalStorage]: one file per artifact under [path].  The file
    system is the map from the path of a file to its text.  Its
    directories are the storage directory and the directories above it,
    which [__init__] has made, and the directories above a file of the
    map; paths are absolute, with one slash between two names. *)
Record LocalStorage : Type := mkLocalStorage {
  path : string;
  files : gmap string string
}.

Fixpoint has_char (x : ascii) (s : string) : bool :=
  match s with
  | "" => false
  | String c r => Ascii.eqb c x || has_char x r
  end.

(** [self.path / f"{artifact_id}.json"] for an id that is a file name (an
    id without a slash): the file of that name in the storage directory.
    No directory there has a name in .json: the server makes none. *)
Definition file_path (s : LocalStorage) (artifact_id : string) : string :=
  path s +:+ "/" +:+ artifact_id +:+ ".json".

(** An id with a slash is a path of its own.  [s.split("/")]: *)
Fixpoint segments (s : string) : list string :=
  match s with
  | "" => [""]
  | String c r =>
      if Ascii.eqb c "/" then "" :: segments r
      else match segments r with
           | x :: xs => String c x :: xs
           | [] => [String c ""]
           end
  end.

(** The names of a path: pathlib leaves out the empty segments and the
    segments that are one dot, and keeps the double dots. *)
Definition names (p : string) : list string :=
  List.filter (fun x => negb (String.eqb x "" || String.eqb x ".")) (segments p).

Fixpoint path_of (l : list string) : string :=
  match l with
  | [] => ""
  | x :: r => "/" +:+ x +:+ path_of r
  end.

Fixpoint is_prefix (d l : list string) : bool :=
  match d, l with
  | [], _ => true
  | x :: d', y :: l' => String.eqb x y && is_prefix d' l'
  | _ :: _, [] => false
  end.

Definition is_dir (s : LocalStorage) (d : list string) : bool :=
  is_prefix d (names (path s))
  || existsb (fun f => is_prefix d (removelast (names (fst f))))
       (map_to_list (files s)).

Definition is_file (s : LocalStorage) (d : list string) : bool :=
  match files s !! path_of d with
  | Some _ => true
  | None => false
  end.

(** The root of a joined path: pathlib keeps two leading slashes, and
    takes three or more for one. *)
Definition root_of (p : string) : string :=
  match p with
  | String "/" (String "/" (String "/" _)) => "/"
  | String "/" (String "/" _) => "//"
  | _ => "/"
  end.

(** [str(self.path / f"{artifact_id}.json")], the text the errors of the
    file system quote: a joined path that is absolute replaces the storage
    directory. *)
Definition joined (s : LocalStorage) (artifact_id : string) : string :=
  let rel := artifact_id +:+ ".json" in
  match rel with
  | String "/" _ =>
      match path_of (names rel) with
      | String _ r => root_of rel +:+ r
      | "" => root_of rel
      end
  | _ => path_of (names (path s) ++ names rel)
  end.

Definition FileNotFoundError (p : string) : exc :=
  mkExc "FileNotFoundError" ("[Errno 2] No such file or directory: '" +:+ p +:+ "'").
Definition NotADirectoryError (p : string) : exc :=
  mkExc "NotADirectoryError" ("[Errno 20] Not a directory: '" +:+ p +:+ "'").
Definition IsADirectoryError (p : string) : exc :=
  mkExc "IsADirectoryError" ("[Errno 21] Is a directory: '" +:+ p +:+ "'").

(** The file system follows a path name by name from the directory [cur]:
    a double dot goes up, a name must be a directory, and the last name is
    the file.  [quoted] is the path as the error quotes it. *)
Fixpoint walk (s : LocalStorage) (quoted : string) (cur rest : list string)
  : result (list string) :=
  match rest with
  | [] => Ok cur
  | x :: rest' =>
      match rest' with
      | [] => Ok (cur ++ [x])
      | _ :: _ =>
          if String.eqb x ".." then walk s quoted (removelast cur) rest'
          else if is_dir s (cur ++ [x]) then walk s quoted (cur ++ [x]) rest'
          else if is_file s (cur ++ [x]) then Raise (NotADirectoryError quoted)
          else Raise (FileNotFoundError quoted)
      end
  end.

(** The file an id with a slash names, if the directories on the way to
    it exist. *)
Definition resolve (s : LocalStorage) (artifact_id : string) : result (list string) :=
  let rel := artifact_id +:+ ".json" in
  walk s (joined s artifact_id)
    (match rel with
     | String "/" _ => []
     | _ => names (path s)
     end)
    (names rel).

(** [store_artifact]: [open(file_path, 'w')] makes the file, not the
    directory it is in. *)
Definition local_store (s : LocalStorage) (artifact_id : string) (data : json)
  : result LocalStorage :=
  if has_char "/" artifact_id then
    match resolve s artifact_id with
    | Raise e => Raise e
    | Ok target =>
        if is_dir s target then Raise (IsADirectoryError (joined s artifact_id))
        else Ok {| path := path s;
                   files := <[path_of target := dumps data]> (files s) |}
    end
  else
    Ok {| path := path s;
          files := <[file_path s artifact_id := dumps data]> (files s) |}.

(** What [get_artifact] does with the text of the file.  [loads] reads
    the documents without floating point numbers; a text with one is
    outside the model, and reads here like a text that is no JSON. *)
Definition read_document (text : option string) : result (option json) :=
  match text with
  | None => Ok None
  | Some t =>
      match loads t with
      | Some v => Ok (Some v)
      | None => Raise JSONDecodeError
      end
  end.

(** [get_artifact]: [file_path.exists()] is false when a directory on the
    way to the file is missing. *)
Definition local_get (s : LocalStorage) (artifact_id : string)
  : result (option json) :=
  if has_char "/" artifact_id then
    match resolve s artifact_id with
    | Raise _ => Ok None
    | Ok target =>
        if is_dir s target then Raise (IsADirectoryError (joined s artifact_id))
        else read_document (files s !! path_of target)
    end
  else read_document (files s !! file_path s artifact_id).

#[export] Instance LocalStorage_backend : StorageBackend LocalStorage := {
  store_artifact := local_store;
  get_artifact := local_get
}.

(** [class S3Storage]: one object per artifact under the prefix artifacts/
    of [bucket].  The service is the map from a bucket and a key to the
    bytes of the object. *)
Record S3Storage : Type := mkS3Storage {
  bucket : string;
  objects : gmap (string * string) string
}.

Definition object_key (artifact_id : string) : string :=
  "artifacts/" +:+ artifact_id +:+ ".json".

Definition s3_store (s : S3Storage) (artifact_id : string) (data : json)
  : result S3Storage :=
  Ok {| bucket := bucket s;
        objects := <[(bucket s, object_key artifact_id) := encode (dumps data)]>
                     (objects s) |}.

Definition s3_get (s : S3Storage) (artifact_id : string) : result (option json) :=
  match objects s !! (bucket s, object_key artifact_id) with
  | None => Ok None
  | Some body =>
      match loads_bytes body with
      | Some v => Ok (Some v)
      | None => Raise JSONDecodeError
      end
  end.

#[export] Instance S3Storage_backend : StorageBackend S3Storage := {
  store_artifact := s3_store;
  get_artifact := s3_get
}.

(** *** Store, then get *)


Lemma s3_store_get (s : S3Storage) (artifact_id : string) (doc : json) :
  wf doc = true ->
  exists s', store_artifact s artifact_id doc = Ok s'
             /\ get_artifact s' artifact_id = Ok (Some doc)
             /\ bucket s' = bucket s.
Proof.
  intros Hwf. eexists. split; [reflexivity|]. split; [|reflexivity].
  cbn. unfold s3_get. cbn [bucket objects].
  rewrite lookup_insert_eq, (loads_bytes_dumps doc Hwf). reflexivity.
Qed.


Definition example_doc : json :=
  JObj [("artifact", RefJws.example_artifact); ("jws", JStr "token")].



(** Ids with a slash, as the file system takes them: a dot and a doubled
    slash change nothing, a double dot leaves the storage directory, and a
    directory that holds a file exists. *)
Definition then_get (stored : result LocalStorage) (artifact_id : string)
  : result (option json) :=
  match stored with
  | Ok fs' => get_artifact fs' artifact_id
  | Raise e => Raise e
  end.

Definition sub_fs : LocalStorage :=
  mkLocalStorage "/tmp/fedmcp" {[ "/tmp/fedmcp/sub/a0.json" := "{}" ]}.

Example slash_ids :
  then_get (store_artifact sub_fs "./a3" example_doc) "a3" = Ok (Some example_doc)
  /\ then_get (store_artifact sub_fs "sub//a3" example_doc) "sub/a3"
     = Ok (Some example_doc)
  /\ then_get (store_artifact sub_fs "../a3" example_doc) "/tmp/a3"
     = Ok (Some example_doc)
  /\ store_artifact sub_fs "nosub/a3" example_doc
     = Raise (FileNotFoundError "/tmp/fedmcp/nosub/a3.json")
  /\ store_artifact sub_fs "sub/a0.json/a3" example_doc
     = Raise (NotADirectoryError "/tmp/fedmcp/sub/a0.json/a3.json")
  /\ get_artifact sub_fs "sub/a0.json/a3" = Ok None.
Proof.
  split; [vm_compute; reflexivity|]. split; [vm_compute; reflexivity|].
  split; [vm_compute; reflexivity|]. split; [vm_compute; reflexivity|].
  split; vm_compute; reflexivity.
Qed.

Example local_get_missing :
  get_artifact (mkLocalStorage "/tmp/fedmcp" ∅) "a1" = Ok None.
Proof. reflexivity. Qed.

(** *** Other artifacts are left alone *)







(** *** What a get returns can be stored again *)




(** The object storage backend gives back what it was given, under any
    id. *)
Lemma s3_store_get_law (b b' : S3Storage) (id : string) (doc : json) :
  wf doc = true -> store_artifact b id doc = Ok b' ->
  get_artifact b' id = Ok (Some doc).
Proof.
  intros Hwf H. destruct (s3_store_get b id doc Hwf) as (s' & H1 & H2 & _).
  congruence.
Qed.

(** *** [list_artifacts] of the file system backend *)

(** [s.rpartition(sep)]: the text before and the text after the last
    [sep], or [None] when [s] holds none. *)
Fixpoint rsplit1 (sep : ascii) (s : string) : option (string * string) :=
  match s with
  | "" => None
  | String c r =>
      match rsplit1 sep r with
      | Some (a, b) => Some (String c a, b)
      | None => if Ascii.eqb c sep then Some ("", r) else None
      end
  end.

(** [s.endswith(suffix)] *)
Fixpoint ends_with (suffix s : string) : bool :=
  String.eqb s suffix
  || match s with
     | "" => false
     | String _ r => ends_with suffix r
     end.

(** [Path.stem]: the name without its last suffix; a dot that starts or
    ends the name opens no suffix. *)
Definition stem (name : string) : string :=
  match rsplit1 "." name with
  | Some (String c a, String _ _) => String c a
  | _ => name
  end.

(** The name of [file] as an entry of the directory [dir], when it is
    one. *)
Definition entry_name (dir file : string) : option string :=
  match strip_prefix (dir +:+ "/") file with
  | Some name => if has_char "/" name || String.eqb name "" then None else Some name
  | None => None
  end.

(** [self.path.glob("*.json")], with the text of each file.  The order of
    a directory listing is not specified; the entries come here in the
    order of the map.  The directory of the storage holds files only (the
    server makes nothing else there): a sub-directory is no entry. *)
Definition glob_json (s : LocalStorage) : list (string * string) :=
  omap (fun ft : string * string =>
          match entry_name (path s) (fst ft) with
          | Some name => if ends_with ".json" name then Some (name, snd ft) else None
          | None => None
          end)
       (map_to_list (files s)).

(** [x if workspace_id else y]: [None] and the empty str are falsy. *)
Definition given (workspace_id : option string) : option string :=
  match workspace_id with
  | Some (String c r) => Some (String c r)
  | _ => None
  end.

Definition AttributeError : exc := mkExc "AttributeError" "object has no attribute 'get'".

(** [data.get("artifact", {}).get("workspaceId") == workspace_id] *)
Definition workspace_matches (data : json) (workspace_id : string) : result bool :=
  do art <- match data with
            | JObj m => Ok (match dict_get "artifact" m with
                            | Some a => a
                            | None => JObj []
                            end)
            | _ => Raise AttributeError
            end;
  do ws <- match art with
           | JObj m => Ok (dict_get "workspaceId" m)
           | _ => Raise AttributeError
           end;
  Ok (match ws with
      | Some (JStr x) => String.eqb x workspace_id
      | _ => false
      end).

(** What the body of the loop of [list_artifacts] does with one entry:
    the id it appends, if any. *)
Definition entry_id (workspace_id : option string) (entry : string * string)
  : result (option string) :=
  match given workspace_id with
  | Some w =>
      do data <- match loads (snd entry) with
                 | Some d => Ok d
                 | None => Raise JSONDecodeError
                 end;
      do keep <- workspace_matches data w;
      Ok (if keep then Some (stem (fst entry)) else None)
  | None => Ok (Some (stem (fst entry)))
  end.

(** The loop over the entries. *)
Fixpoint list_entries (workspace_id : option string)
  (entries : list (string * string)) : result (list string) :=
  match entries with
  | [] => Ok []
  | entry :: rest =>
      do x <- entry_id workspace_id entry;
      do ids <- list_entries workspace_id rest;
      Ok (match x with Some i => i :: ids | None => ids end)
  end.

Definition local_list_artifacts (s : LocalStorage) (workspace_id : option string)
  : result (list string) :=
  list_entries workspace_id (glob_json s).

Example local_list_example :
  let s := mkLocalStorage "/data"
             {[ "/data/a1.json" := qq "{'artifact': {'workspaceId': 'ws-1'}}";
                "/data/a2.json" := qq "{'artifact': {'workspaceId': 'ws-2'}}";
                "/data/notes.txt" := "x";
                "/data/sub/a3.json" := "{}";
                "/other/a4.json" := "{}" ]} in
  (exists l, local_list_artifacts s None = Ok l /\ l ≡ₚ ["a1"; "a2"])
  /\ local_list_artifacts s (Some "ws-2") = Ok ["a2"]
  /\ (exists l, local_list_artifacts s (Some "") = Ok l /\ l ≡ₚ ["a1"; "a2"]).
Proof.
  vm_compute. repeat split; eexists; (split; [reflexivity|]);
    first [reflexivity | apply perm_swap].
Qed.

Example local_list_corrupt_file :
  local_list_artifacts (mkLocalStorage "/data" {[ "/data/a1.json" := "{" ]}) (Some "ws-1")
  = Raise JSONDecodeError
  /\ local_list_artifacts (mkLocalStorage "/data" {[ "/data/a1.json" := "{" ]}) None
     = Ok ["a1"].
Proof. split; reflexivity. Qed.

(** Whether [list_artifacts] keeps a document under the filter given. *)
Definition listed_under (workspace_id : option string) (doc : json) : result bool :=
  match given workspace_id with
  | Some w => workspace_matches doc w
  | None => Ok true
  end.

Lemma strip_prefix_app (p s : string) : strip_prefix p (p +:+ s) = Some s.
Proof.
  induction p as [|c p IH]; [now destruct s|].
  cbn. now rewrite Ascii.eqb_refl.
Qed.

Lemma has_char_app (x : ascii) (a b : string) :
  has_char x (a +:+ b) = has_char x a || has_char x b.
Proof.
  induction a as [|c a IH]; [reflexivity|]. cbn. now rewrite IH, orb_assoc.
Qed.

Lemma ends_with_app (suffix a : string) : ends_with suffix (a +:+ suffix) = true.
Proof.
  induction a as [|c a IH].
  - cbn [String.append]. destruct suffix; cbn [ends_with];
      now rewrite String.eqb_refl.
  - cbn. rewrite IH. apply orb_true_r.
Qed.

Lemma rsplit1_none (sep : ascii) (s : string) :
  has_char sep s = false -> rsplit1 sep s = None.
Proof.
  induction s as [|c s IH]; [reflexivity|]. cbn.
  intros H. apply orb_false_iff in H as [Hc Hs]. now rewrite (IH Hs), Hc.
Qed.

Lemma rsplit1_app (sep : ascii) (a b : string) :
  has_char sep b = false -> rsplit1 sep (a +:+ String sep b) = Some (a, b).
Proof.
  intros Hb. induction a as [|c a IH]; cbn.
  - now rewrite (rsplit1_none _ _ Hb), Ascii.eqb_refl.
  - now rewrite IH.
Qed.

Lemma stem_json (id : string) : id <> "" -> stem (id +:+ ".json") = id.
Proof.
  intros Hne. unfold stem.
  change (id +:+ ".json") with (id +:+ String "." "json").
  rewrite rsplit1_app by reflexivity.
  destruct id; [contradiction | reflexivity].
Qed.

Lemma entry_name_file_path (s : LocalStorage) (id : string) :
  has_char "/" id = false ->
  entry_name (path s) (file_path s id) = Some (id +:+ ".json").
Proof.
  intros H. unfold entry_name, file_path.
  rewrite <- app_assoc, strip_prefix_app, has_char_app, H.
  destruct id; reflexivity.
Qed.

Lemma list_entries_perm (w : option string) (e1 e2 : list (string * string)) :
  e1 ≡ₚ e2 ->
  forall l, list_entries w e1 = Ok l ->
            exists l', list_entries w e2 = Ok l' /\ l ≡ₚ l'.
Proof.
  induction 1 as [|x e1 e2 _ IH|x y e|e1 e2 e3 _ IH1 _ IH2]; intros l; cbn.
  - intros [= <-]. eauto.
  - destruct (entry_id w x) as [ox|]; [cbn [bind]|discriminate].
    destruct (list_entries w e1) as [l1|]; [cbn [bind]|discriminate].
    intros [= <-]. destruct (IH l1 eq_refl) as (l2 & -> & Hp). cbn [bind].
    eexists. split; [reflexivity|]. destruct ox; [now constructor | exact Hp].
  - destruct (entry_id w y) as [oy|]; [cbn [bind]|discriminate].
    destruct (entry_id w x) as [ox|]; [cbn [bind]|discriminate].
    destruct (list_entries w e) as [l1|]; [cbn [bind]|discriminate].
    intros [= <-]. eexists. split; [reflexivity|].
    destruct ox, oy; first [reflexivity | apply perm_swap].
  - intros H1. destruct (IH1 l H1) as (l2 & H2 & Hp2).
    destruct (IH2 l2 H2) as (l3 & H3 & Hp3).
    exists l3. split; [exact H3 | now transitivity l2].
Qed.

Lemma list_entries_unfiltered (w : option string) (entries : list (string * string)) :
  given w = None ->
  list_entries w entries = Ok (map (fun e => stem (fst e)) entries).
Proof.
  intros Hw. induction entries as [|e rest IH]; [reflexivity|].
  cbn [list_entries map]. unfold entry_id. rewrite Hw, IH. reflexivity.
Qed.

Lemma glob_json_insert (s : LocalStorage) (id : string) (text : string) :
  has_char "/" id = false ->
  files s !! file_path s id = None ->
  glob_json {| path := path s; files := <[file_path s id := text]> (files s) |}
  ≡ₚ (id +:+ ".json", text) :: glob_json s.
Proof.
  intros Hid Hnone. unfold glob_json. cbn [path files].
  rewrite (map_to_list_insert _ _ _ Hnone). cbn [omap list_omap fst snd].
  change (file_path {| path := path s; files := files s |} id) with (file_path s id).
  rewrite (entry_name_file_path s id Hid), ends_with_app. reflexivity.
Qed.

(** What [store_artifact] does for a file name. *)
Lemma local_store_file_name (s : LocalStorage) (id : string) (doc : json) :
  has_char "/" id = false ->
  store_artifact s id doc
  = Ok {| path := path s; files := <[file_path s id := dumps doc]> (files s) |}.
Proof. intros H. cbn. unfold local_store. now rewrite H. Qed.

Lemma list_entries_raises (w : option string) (entries : list (string * string))
  (entry : string * string) (e0 : exc) :
  In entry entries -> entry_id w entry = Raise e0 ->
  exists e, list_entries w entries = Raise e.
Proof.
  intros Hin He. induction entries as [|x rest IH]; [destruct Hin|].
  cbn [list_entries]. destruct Hin as [->|Hin].
  - rewrite He. eauto.
  - destruct (entry_id w x) as [ox|e1]; [cbn [bind]|eauto].
    destruct (IH Hin) as (e & ->). eauto.
Qed.

Lemma glob_json_file (s : LocalStorage) (id text : string) :
  has_char "/" id = false ->
  files s !! file_path s id = Some text ->
  In (id +:+ ".json", text) (glob_json s).
Proof.
  intros Hid Hf. apply list_elem_of_In, list_elem_of_omap.
  exists (file_path s id, text). split.
  - now apply elem_of_map_to_list.
  - cbn [fst snd]. now rewrite (entry_name_file_path s id Hid), ends_with_app.
Qed.

(** Storing a document under a new id adds that id, and nothing else, to
    the listings that keep the document.  The id is a file name that is
    not empty and has no slash, no file of that name exists yet, and the
    document is a JSON document; the directory holds files only.  If the
    listing succeeded under a filter before the store, then after the
    store: when the filter can be applied to the document (no filter is
    given, or the document is a dict whose artifact, if it has one, is a
    dict), the listing succeeds and returns the ids it returned before,
    with the new id exactly when the document passes the filter (no
    filter, or its artifact has the workspaceId asked for), in some order;
    when the filter cannot be applied to the document, the listing now
    raises. *)
Theorem stored_artifact_is_listed (s : LocalStorage) (id : string) (doc : json)
  (w : option string) (l : list string) :
  has_char "/" id = false -> id <> "" -> wf doc = true ->
  files s !! file_path s id = None ->
  local_list_artifacts s w = Ok l ->
  exists s',
    store_artifact s id doc = Ok s'
    /\ match listed_under w doc with
       | Ok keep =>
           exists l', local_list_artifacts s' w = Ok l'
                      /\ l' ≡ₚ (if keep then id :: l else l)
       | Raise _ => exists e, local_list_artifacts s' w = Raise e
       end.
Proof.
  intros Hid Hne Hwf Hnone Hl.
  eexists. split; [apply (local_store_file_name s id doc Hid)|].
  destruct (listed_under w doc) as [keep|e0] eqn:Hkeep.
  - assert (Hnew : list_entries w ((id +:+ ".json", dumps doc) :: glob_json s)
                   = Ok (if keep then id :: l else l)).
    { cbn [list_entries]. unfold entry_id, listed_under in *. cbn [fst snd].
      unfold local_list_artifacts in Hl. rewrite Hl.
      destruct (given w) as [x|].
      - rewrite (loads_dumps doc Hwf). cbn [bind]. rewrite Hkeep. cbn [bind].
        rewrite (stem_json id Hne). destruct keep; reflexivity.
      - injection Hkeep as <-. cbn [bind]. now rewrite (stem_json id Hne). }
    destruct (list_entries_perm w _ _
                (symmetry (glob_json_insert s id (dumps doc) Hid Hnone)) _ Hnew)
      as (l' & Hl' & Hp).
    exists l'. split; [exact Hl' | now symmetry].
  - unfold local_list_artifacts.
    apply (list_entries_raises w _ (id +:+ ".json", dumps doc) e0).
    + apply glob_json_file; [exact Hid|]. cbn [files]. apply lookup_insert_eq.
    + unfold entry_id, listed_under in *. cbn [fst snd].
      destruct (given w) as [x|]; [|discriminate].
      rewrite (loads_dumps doc Hwf). cbn [bind]. now rewrite Hkeep.
Qed.

Lemma stored_artifact_is_listed_witness :
  let s := mkLocalStorage "/data"
             {[ "/data/a2.json" := qq "{'artifact': {'workspaceId': 'ws-2'}}" ]} in
  exists s',
    store_artifact s "a1" example_doc = Ok s'
    /\ exists l', local_list_artifacts s' (Some "ws-1") = Ok l'
                  /\ l' ≡ₚ "a1" :: [].
Proof.
  apply (stored_artifact_is_listed
           (mkLocalStorage "/data"
              {[ "/data/a2.json" := qq "{'artifact': {'workspaceId': 'ws-2'}}" ]})
           "a1" example_doc (Some "ws-1") []);
    first [reflexivity | discriminate].
Defined.

(** A document whose artifact is a list: the filtered listing, which
    succeeded before the store, raises after it. *)
Example stored_list_breaks_filtered_listing :
  let s := mkLocalStorage "/data"
             {[ "/data/a2.json" := qq "{'artifact': {'workspaceId': 'ws-2'}}" ]} in
  local_list_artifacts s (Some "ws-1") = Ok []
  /\ exists s',
       store_artifact s "a1" (JObj [("artifact", JArr [JInt 1])]) = Ok s'
       /\ local_list_artifacts s' (Some "ws-1") = Raise AttributeError.
Proof.
  split; [vm_compute; reflexivity|].
  eexists. split; [reflexivity | vm_compute; reflexivity].
Qed.

(** The name under which the listing gives a file name id back: the id,
    and for the empty id the name of its file, which is .json. *)
Definition listed_name (id : string) : string :=
  match id with
  | "" => ".json"
  | _ => id
  end.

Lemma stem_listed_name (id : string) : stem (id +:+ ".json") = listed_name id.
Proof.
  destruct id as [|c r]; [reflexivity|].
  apply stem_json. discriminate.
Qed.

Lemma stored_name_in_listing (s s' : LocalStorage) (id : string) (doc : json)
  (w : option string) :
  has_char "/" id = false -> given w = None ->
  store_artifact s id doc = Ok s' ->
  exists l, local_list_artifacts s' w = Ok l /\ In (listed_name id) l.
Proof.
  intros Hid Hw. rewrite (local_store_file_name s id doc Hid). intros [= <-].
  eexists. unfold local_list_artifacts.
  split; [now apply list_entries_unfiltered|].
  apply in_map_iff. exists (id +:+ ".json", dumps doc).
  split; [exact (stem_listed_name id)|].
  apply glob_json_file; [exact Hid|]. cbn [files]. apply lookup_insert_eq.
Qed.

Lemma stored_id_in_listing (s s' : LocalStorage) (id : string) (doc : json)
  (w : option string) :
  has_char "/" id = false -> id <> "" -> given w = None ->
  store_artifact s id doc = Ok s' ->
  exists l, local_list_artifacts s' w = Ok l /\ In id l.
Proof.
  intros Hid Hne Hw Hs.
  destruct (stored_name_in_listing s s' id doc w Hid Hw Hs) as (l & Hl & Hin).
  exists l. split; [exact Hl|]. destruct id; [contradiction | exact Hin].
Qed.



Example empty_id_is_listed_as_its_file :
  exists s',
    store_artifact (mkLocalStorage "/data" ∅) "" example_doc = Ok s'
    /\ local_list_artifacts s' None = Ok [".json"].
Proof. eexists. split; [reflexivity | vm_compute; reflexivity]. Qed.

(** *** A file that is no document *)

(** The characters a JSON value can start with, as [json.loads] takes
    them: a quote, a bracket, a brace, a minus sign, a digit, and the
    first letters of null, true, false, NaN and Infinity. *)
Definition opens_value (c : ascii) : bool :=
  let n := N_of_ascii c in
  ((n =? 34) || (n =? 91) || (n =? 123) || (n =? 45)
   || ((48 <=? n) && (n <=? 57))
   || (n =? 110) || (n =? 116) || (n =? 102) || (n =? 78) || (n =? 73))%N.

(** A text that is no JSON document for sure: after its white space comes
    nothing, or a character that starts no value. *)
Definition not_json (text : string) : bool :=
  match skip_ws text with
  | "" => true
  | String c _ => negb (opens_value c)
  end.

Lemma not_json_loads (text : string) : not_json text = true -> loads text = None.
Proof.
  unfold not_json, loads. destruct (skip_ws text) as [|c r]; [reflexivity|].
  intros H. apply negb_true_iff in H. unfold opens_value in H.
  repeat (apply orb_false_iff in H; destruct H as [H ?]).
  assert (Hdigit : is_digit c = false) by assumption.
  assert (Hzero : (N_of_ascii c =? 48)%N = false).
  { destruct (N.eqb_spec (N_of_ascii c) 48) as [E|]; [|reflexivity].
    unfold is_digit in Hdigit. rewrite E in Hdigit. discriminate. }
  cbn [parse_value].
  repeat match goal with
         | Heq : (N_of_ascii c =? _)%N = false |- _ => rewrite Heq; clear Heq
         end.
  unfold parse_number.
  match goal with
  | Heq : (N_of_ascii c =? 45)%N = false |- _ => rewrite Heq
  end.
  unfold scan_int. rewrite Hzero, Hdigit. reflexivity.
Qed.

(** One file that cannot be read as an artifact document breaks every
    listing with a filter, and no listing without one.  If the directory
    holds, as the file of an id that is a non-empty file name (no slash),
    a text that is no JSON document (it is empty, or starts, after white
    space, with a character that opens no JSON value), or a JSON document
    on which the look-up of the workspace fails (a list, a number), then
    the listing raises for every non-empty workspace filter, whatever the
    other files hold, while the listing without a filter returns the ids,
    that id among them. *)
Theorem unreadable_file_breaks_filtered_listing (s : LocalStorage)
  (id text : string) (c : ascii) (w : string) :
  has_char "/" id = false -> id <> "" ->
  files s !! file_path s id = Some text ->
  (not_json text = true
   \/ exists v e, loads text = Some v /\ workspace_matches v (String c w) = Raise e) ->
  (exists e, local_list_artifacts s (Some (String c w)) = Raise e)
  /\ (exists l, local_list_artifacts s None = Ok l /\ In id l).
Proof.
  intros Hid Hne Hf Hbad.
  pose proof (glob_json_file s id text Hid Hf) as Hin. split.
  - assert (He : exists e0, entry_id (Some (String c w)) (id +:+ ".json", text)
                            = Raise e0).
    { unfold entry_id. cbn [given snd].
      destruct Hbad as [Hno|(v & e & -> & Hw)]; cbn [bind].
      - rewrite (not_json_loads text Hno). cbn [bind]. eauto.
      - rewrite Hw. eauto. }
    destruct He as (e0 & He).
    exact (list_entries_raises _ _ _ e0 Hin He).
  - eexists. unfold local_list_artifacts.
    split; [now apply list_entries_unfiltered|].
    apply in_map_iff. exists (id +:+ ".json", text).
    split; [exact (stem_json id Hne) | exact Hin].
Qed.

Lemma unreadable_file_breaks_filtered_listing_witness :
  let s := mkLocalStorage "/data"
             {[ "/data/a1.json" := qq "{'artifact': {'workspaceId': 'ws-1'}}";
                "/data/a2.json" := "<html>" ]} in
  (exists e, local_list_artifacts s (Some "ws-1") = Raise e)
  /\ (exists l, local_list_artifacts s None = Ok l /\ In "a2" l).
Proof.
  apply (unreadable_file_breaks_filtered_listing
           (mkLocalStorage "/data"
              {[ "/data/a1.json" := qq "{'artifact': {'workspaceId': 'ws-1'}}";
                 "/data/a2.json" := "<html>" ]})
           "a2" "<html>" "w" "s-1");
    [reflexivity | discriminate | reflexivity | left; reflexivity].
Defined.

Example list_document_breaks_filtered_listing :
  local_list_artifacts
    (mkLocalStorage "/data"
       {[ "/data/a1.json" := qq "{'artifact': {'workspaceId': 'ws-1'}}";
          "/data/a2.json" := "[1, 2]" ]}) (Some "ws-1")
  = Raise AttributeError.
Proof. vm_compute. reflexivity. Qed.

(** *** [list_artifacts] of the object storage backend *)

(** [s.split('/')[-1]]: the text after the last slash; all of [s] when it
    holds none. *)
Definition last_segment (s : string) : string :=
  match rsplit1 "/" s with
  | Some (_, b) => b
  | None => s
  end.

(** [s.replace(old, '')] for a non-empty [old]: the occurrences of [old],
    found from the left and without overlap, are left out.  [skip] counts
    the characters of the occurrence being passed. *)
Fixpoint remove_all (old : string) (skip : nat) (s : string) : string :=
  match s with
  | "" => ""
  | String c r =>
      match skip with
      | S k => remove_all old k r
      | O =>
          match strip_prefix old (String c r) with
          | Some _ => remove_all old (String.length old - 1) r
          | None => String c (remove_all old O r)
          end
      end
  end.

(** The id the loop of [list_artifacts] makes of a key. *)
Definition listed_id (key : string) : string :=
  remove_all ".json" O (last_segment key).

(** [list_artifacts] of [S3Storage].  [contents] are the keys under
    Contents in the response of [list_objects_v2] for the prefix
    artifacts/ (one response: the code asks for no further page);
    [workspace_id] is not used. *)
Definition s3_list_artifacts (contents : list string) (workspace_id : option string)
  : list string :=
  map listed_id contents.

Example s3_list_example :
  s3_list_artifacts ["artifacts/a1.json"; "artifacts/x.json.json"; "artifacts/sub/a2.json";
                     "artifacts/b.jsonl"; "artifacts/"] (Some "ws-1")
  = ["a1"; "x"; "a2"; "bl"; ""].
Proof. reflexivity. Qed.

(** [old in s] *)
Fixpoint contains (old s : string) : bool :=
  match strip_prefix old s with
  | Some _ => true
  | None =>
      match s with
      | "" => false
      | String _ r => contains old r
      end
  end.

Fixpoint drop_str (n : nat) (s : string) : string :=
  match n, s with
  | S k, String _ r => drop_str k r
  | _, _ => s
  end.

Lemma remove_all_skip (old : string) (k : nat) (s : string) :
  remove_all old k s = remove_all old O (drop_str k s).
Proof.
  revert k. induction s as [|c r IH]; intros [|k]; try reflexivity.
  cbn [remove_all drop_str]. apply IH.
Qed.

Lemma strip_prefix_Some (p s t : string) :
  strip_prefix p s = Some t -> s = p +:+ t /\ drop_str (String.length p) s = t.
Proof.
  revert s. induction p as [|a p IH]; intros s; cbn.
  - intros [= ->]. now destruct t.
  - destruct s as [|b s]; [discriminate|].
    destruct (Ascii.eqb_spec a b) as [->|]; [|discriminate].
    intros H. destruct (IH s H) as [-> Hd]. split; [reflexivity | exact Hd].
Qed.

Lemma str_length_app (a b : string) :
  String.length (a +:+ b) = (String.length a + String.length b)%nat.
Proof. induction a as [|c a IH]; cbn; [reflexivity | now rewrite IH]. Qed.

Lemma remove_all_length (old : string) (k : nat) (s : string) :
  (String.length (remove_all old k s) <= String.length s - k)%nat.
Proof.
  revert k. induction s as [|c r IH]; intros k; [cbn; lia|].
  destruct k as [|k]; cbn [remove_all].
  - destruct (strip_prefix old (String c r)).
    + specialize (IH (String.length old - 1)%nat). cbn [String.length]. lia.
    + specialize (IH O). cbn [String.length]. lia.
  - specialize (IH k). cbn [String.length]. lia.
Qed.

Lemma remove_all_occurrence (old s : string) :
  old <> "" -> contains old s = true ->
  (String.length (remove_all old O s) + String.length old <= String.length s)%nat.
Proof.
  intros Hold. induction s as [|c r IH].
  - destruct old; [contradiction | discriminate].
  - cbn [contains remove_all].
    destruct (strip_prefix old (String c r)) as [t|] eqn:E.
    + intros _. destruct (strip_prefix_Some _ _ _ E) as [Hs _].
      apply (f_equal String.length) in Hs. rewrite str_length_app in Hs.
      pose proof (remove_all_length old (String.length old - 1) r) as Hl.
      cbn [String.length] in *.
      destruct old; [contradiction|]. cbn [String.length] in *. lia.
    + intros H. specialize (IH H). cbn [String.length]. lia.
Qed.

Lemma contains_app_r (old a : string) : contains old (a +:+ old) = true.
Proof.
  induction a as [|c a IH].
  - cbn [String.append]. destruct old as [|x old]; [reflexivity|].
    cbn [contains]. rewrite <- (app_nil_r (String x old)) at 2.
    now rewrite strip_prefix_app.
  - cbn [String.append contains]. rewrite IH.
    now destruct (strip_prefix old (String c (a +:+ old))).
Qed.

Lemma strip_prefix_app_l (p s t x : string) :
  strip_prefix p s = Some t -> strip_prefix p (s +:+ x) = Some (t +:+ x).
Proof.
  intros H. destruct (strip_prefix_Some _ _ _ H) as [-> _].
  now rewrite app_assoc, strip_prefix_app.
Qed.

(** An occurrence of .json in [x.json] that starts in a non-empty [x] lies
    within [x]: the suffix has one dot only, at its start. *)
Lemma json_no_straddle (c : ascii) (r t : string) :
  strip_prefix ".json" (String c r +:+ ".json") = Some t ->
  exists t', strip_prefix ".json" (String c r) = Some t' /\ t = t' +:+ ".json".
Proof.
  cbn [String.append strip_prefix].
  destruct (Ascii.eqb "." c); [|discriminate].
  destruct r as [|c1 r]; [discriminate|]. cbn [String.append strip_prefix].
  destruct (Ascii.eqb "j" c1); [|discriminate].
  destruct r as [|c2 r]; [discriminate|]. cbn [String.append strip_prefix].
  destruct (Ascii.eqb "s" c2); [|discriminate].
  destruct r as [|c3 r]; [discriminate|]. cbn [String.append strip_prefix].
  destruct (Ascii.eqb "o" c3); [|discriminate].
  destruct r as [|c4 r]; [discriminate|]. cbn [String.append strip_prefix].
  destruct (Ascii.eqb "n" c4); [|discriminate].
  intros [= <-]. eauto.
Qed.

Lemma remove_json_suffix (id : string) :
  contains ".json" id = false -> remove_all ".json" O (id +:+ ".json") = id.
Proof.
  induction id as [|c r IH]; [reflexivity|].
  cbn [contains]. destruct (strip_prefix ".json" (String c r)) as [t|] eqn:E;
    [discriminate|].
  intros H. change (String c r +:+ ".json") with (String c (r +:+ ".json")).
  cbn [remove_all].
  destruct (strip_prefix ".json" (String c (r +:+ ".json"))) as [t|] eqn:E2.
  - destruct (json_no_straddle c r t E2) as (t' & E3 & _). congruence.
  - now rewrite (IH H).
Qed.

Lemma remove_json_shorter (id : string) :
  contains ".json" id = true ->
  (String.length (remove_all ".json" O (id +:+ ".json")) < String.length id)%nat.
Proof.
  induction id as [|c r IH]; [discriminate|].
  cbn [contains]. change (String c r +:+ ".json") with (String c (r +:+ ".json")).
  cbn [remove_all].
  destruct (strip_prefix ".json" (String c (r +:+ ".json"))) as [t|] eqn:E2.
  - intros _. destruct (json_no_straddle c r t E2) as (t' & E3 & ->).
    destruct (strip_prefix_Some _ _ _ E2) as [_ Hd].
    change (drop_str 4 (r +:+ ".json") = t' +:+ ".json") in Hd.
    rewrite remove_all_skip.
    change (String.length ".json" - 1)%nat with 4%nat. rewrite Hd.
    pose proof (remove_all_occurrence ".json" (t' +:+ ".json")
                  ltac:(discriminate) (contains_app_r ".json" t')) as Hl.
    rewrite str_length_app in Hl.
    destruct (strip_prefix_Some _ _ _ E3) as [Hs _].
    apply (f_equal String.length) in Hs. rewrite str_length_app in Hs.
    cbn [String.length] in *. lia.
  - destruct (strip_prefix ".json" (String c r)) as [t|] eqn:E.
    + pose proof (strip_prefix_app_l _ _ _ ".json" E) as E3.
      change (String c r +:+ ".json") with (String c (r +:+ ".json")) in E3.
      congruence.
    + intros H. specialize (IH H). cbn [String.length]. lia.
Qed.

Lemma last_segment_object_key (id : string) :
  has_char "/" id = false -> last_segment (object_key id) = id +:+ ".json".
Proof.
  intros H. unfold last_segment, object_key.
  change ("artifacts/" +:+ id +:+ ".json")
    with ("artifacts" +:+ String "/" (id +:+ ".json")).
  rewrite rsplit1_app; [reflexivity|].
  rewrite has_char_app, H. reflexivity.
Qed.

Lemma rsplit1_app_r (sep : ascii) (s t : string) :
  has_char sep t = false ->
  rsplit1 sep (s +:+ t)
  = match rsplit1 sep s with
    | Some (a, b) => Some (a, b +:+ t)
    | None => None
    end.
Proof.
  intros Ht. induction s as [|c r IH].
  - cbn [String.append rsplit1]. exact (rsplit1_none sep t Ht).
  - cbn [String.append rsplit1]. rewrite IH.
    destruct (rsplit1 sep r) as [[a b]|]; [reflexivity|].
    now destruct (Ascii.eqb c sep).
Qed.

Lemma rsplit1_app_l (sep : ascii) (x y a b : string) :
  rsplit1 sep y = Some (a, b) -> rsplit1 sep (x +:+ y) = Some (x +:+ a, b).
Proof.
  intros Hy. induction x as [|c x IH]; [exact Hy|].
  cbn [String.append rsplit1]. now rewrite IH.
Qed.

Lemma rsplit1_length (sep : ascii) (s a b : string) :
  rsplit1 sep s = Some (a, b) ->
  (String.length a + 1 + String.length b = String.length s)%nat.
Proof.
  revert a. induction s as [|c r IH]; intros a; [discriminate|].
  cbn [rsplit1]. destruct (rsplit1 sep r) as [[a' b']|].
  - intros [= <- <-]. specialize (IH a' eq_refl). cbn [String.length]. lia.
  - destruct (Ascii.eqb c sep); [|discriminate].
    intros [= <- <-]. cbn [String.length]. lia.
Qed.

Lemma rsplit1_some (sep : ascii) (s : string) :
  has_char sep s = true -> exists a b, rsplit1 sep s = Some (a, b).
Proof.
  induction s as [|c r IH]; [discriminate|]. cbn [has_char rsplit1].
  destruct (rsplit1 sep r) as [[a b]|]; [eauto|].
  intros H. apply orb_true_iff in H as [->|H]; [eauto|].
  destruct (IH H) as (a & b & Hab). discriminate.
Qed.

(** The last segment of the key of an id with a slash is the file of a
    shorter name. *)
Lemma last_segment_slash_id (id : string) :
  has_char "/" id = true ->
  exists b, last_segment (object_key id) = b +:+ ".json"
            /\ (String.length b < String.length id)%nat.
Proof.
  intros H. destruct (rsplit1_some "/" id H) as (a & b & Hab).
  exists b. split; [|pose proof (rsplit1_length _ _ _ _ Hab); lia].
  unfold last_segment, object_key.
  change ("artifacts/" +:+ id +:+ ".json")
    with ("artifacts/" +:+ (id +:+ ".json")).
  rewrite (rsplit1_app_l "/" "artifacts/" (id +:+ ".json") a (b +:+ ".json"));
    [reflexivity|].
  rewrite rsplit1_app_r by reflexivity. now rewrite Hab.
Qed.

Lemma listed_id_slash (id : string) :
  has_char "/" id = true ->
  (String.length (listed_id (object_key id)) < String.length id)%nat.
Proof.
  intros H. destruct (last_segment_slash_id id H) as (b & Hb & Hlen).
  unfold listed_id. rewrite Hb.
  pose proof (remove_all_occurrence ".json" (b +:+ ".json")
                ltac:(discriminate) (contains_app_r ".json" b)) as Hl.
  rewrite str_length_app in Hl. cbn [String.length] in Hl. lia.
Qed.

(** The listing of the object storage gives an artifact back under its id
    exactly when the id holds neither a slash nor the text .json.  For
    such an id, a response that holds the key of the artifact yields the
    id, whatever workspace is asked for (the filter is not applied); any
    other id comes out shorter, under another name: of an id with a slash
    the listing keeps what follows the last slash, and it leaves out every
    .json. *)
Theorem s3_listing_gives_id_back (id : string) (contents : list string)
  (workspace_id : option string) :
  (listed_id (object_key id) = id
   <-> has_char "/" id = false /\ contains ".json" id = false)
  /\ (has_char "/" id = false -> contains ".json" id = false ->
      In (object_key id) contents ->
      In id (s3_list_artifacts contents workspace_id))
  /\ (has_char "/" id = true \/ contains ".json" id = true ->
      (String.length (listed_id (object_key id)) < String.length id)%nat).
Proof.
  assert (Hshort : has_char "/" id = true \/ contains ".json" id = true ->
                   (String.length (listed_id (object_key id)) < String.length id)%nat).
  { intros [H|H]; [exact (listed_id_slash id H)|].
    destruct (has_char "/" id) eqn:Hid; [exact (listed_id_slash id Hid)|].
    unfold listed_id. rewrite (last_segment_object_key id Hid).
    exact (remove_json_shorter id H). }
  assert (Hsame : has_char "/" id = false -> contains ".json" id = false ->
                  listed_id (object_key id) = id).
  { intros Hid Hc. unfold listed_id. rewrite (last_segment_object_key id Hid).
    exact (remove_json_suffix id Hc). }
  split; [split|split].
  - intros H. destruct (has_char "/" id) eqn:Hid.
    + pose proof (Hshort (or_introl eq_refl)) as Hl. rewrite H in Hl. lia.
    + destruct (contains ".json" id) eqn:Hc; [|split; reflexivity].
      pose proof (Hshort (or_intror eq_refl)) as Hl. rewrite H in Hl. lia.
  - intros [Hid Hc]. exact (Hsame Hid Hc).
  - intros Hid Hc Hin. unfold s3_list_artifacts. apply in_map_iff.
    exists (object_key id). split; [exact (Hsame Hid Hc) | exact Hin].
  - exact Hshort.
Qed.

Example s3_listed_ids :
  listed_id (object_key "a1") = "a1"
  /\ listed_id (object_key "sub/a2") = "a2"
  /\ listed_id (object_key "a.json") = "a"
  /\ listed_id (object_key "a.json/") = "".
Proof. repeat split; reflexivity. Qed.

End Storage.

(* ====================================================================== *)
(** ** src/fedmcp_server.py: audit log and endpoints                        *)
(* ====================================================================== *)

Module Server.
Import Str Json Py.

(** Modelled from the spec: the [AuditAction] enumeration the server
    imports from the fedmcp package, which is not among the sources (the
    server names CREATE, READ and VERIFY); its values are the six actions
    the specification lists. *)
Inductive AuditAction : Type := CREATE | READ | UPDATE | DELETE | VERIFY | DEPLOY.

(** The outcome of an endpoint: a returned body, an [HTTPException], or an
    exception nothing catches. *)
Inductive outcome (A : Type) : Type :=
| Returned (body : A)
| HTTPException (status_code : Z) (detail : string)
| Uncaught (e : exc).
Arguments Returned {A} body.
Arguments HTTPException {A} status_code detail.
Arguments Uncaught {A} e.

Record CreateArtifactRequest : Type := {
  req_artifact : json;
  req_sign : bool
}.

Record JWSResponse : Type := {
  jws : string;
  artifact_id : string;
  workspace_id : string
}.

Record VerifyResponse : Type := {
  valid : bool;
  artifact : option json;
  error : option string
}.

(** [not data] for the value [get_artifact] of the storage returns. *)
Definition falsy (v : option json) : bool :=
  match v with
  | None | Some JNull | Some (JBool false) | Some (JInt 0) | Some (JStr "")
  | Some (JArr []) | Some (JObj []) => true
  | Some _ => false
  end.

(** [d.get(key)] on the value [d]; only a dict has the method. *)
Definition dict_get_method (d : json) (key : string) : result (option json) :=
  match d with
  | JObj m => Ok (dict_get key m)
  | _ => Raise (mkExc "AttributeError" "object has no attribute 'get'")
  end.

Definition zero_uuid : string := "00000000-0000-0000-0000-000000000000".

Section WithCore.

(** The [uuid] module: the values of [UUID], its constructor from a str
    (ValueError on a malformed one), and [==] between a dumped id and a
    str. *)
Variable uuid : Type.
Variable UUID : string -> result uuid.
Variable uuid_eq_str : uuid -> string -> bool.

(** Modelled from the spec: [AuditEvent] of the fedmcp package, not among
    the sources, as [model_dump(by_alias=True)] lists it.  The event id
    and the timestamp are set when the event is built. *)
Record AuditEvent : Type := {
  eventId : uuid;
  artifactId : option uuid;
  workspaceId : uuid;
  action : AuditAction;
  actor : string;
  timestamp : string;
  metadata : list (string * json)
}.

(** The [Artifact] model of the fedmcp package, the signer and the
    verifier, by what the endpoints use of them. *)
Variable Artifact : Type.
(** The constructor, applied to the fields of [request.artifact], and
    [artifact.validate()] *)
Variable Artifact_new : json -> result Artifact.
Variable validate : Artifact -> result unit.
(** [str(artifact.id)], [str(artifact.workspaceId)],
    [artifact.model_dump(by_alias=True)] *)
Variable id_str : Artifact -> string.
Variable workspaceId_str : Artifact -> string.
Variable model_dump : Artifact -> json.
(** [signer.sign(artifact)], with the nonce of the signature, and
    [verifier.verify(jws)] *)
Variable signer_sign : Artifact -> N -> result string.
Variable verifier_verify : string -> result Artifact.

(** The storage backend in use. *)
Context {B : Type} {backend : Storage.StorageBackend B}.

(** The state the endpoints share: the storage and [audit_logs]. *)
Record State : Type := {
  storage : B;
  audit_logs : list AuditEvent
}.

(** What a call draws from outside: the id and the time of the event it
    emits, and the nonce of its signature. *)
Record Fresh : Type := {
  fresh_eventId : uuid;
  fresh_timestamp : string;
  fresh_nonce : N
}.

(** Computations on the state that may raise; an exception leaves the
    writes made before it in place. *)
Definition M (A : Type) : Type := State -> result A * State.

Definition pure {A} (a : A) : M A := fun st => (Ok a, st).

Definition and_then {A C} (m : M A) (k : A -> M C) : M C :=
  fun st =>
    match m st with
    | (Ok a, st') => k a st'
    | (Raise e, st') => (Raise e, st')
    end.

Definition lift {A} (r : result A) : M A := fun st => (r, st).

Notation "'run' x <- m ; k" := (and_then m (fun x => k))
  (at level 10, x name, m at level 100, k at level 200).

Definition store (artifact_id : string) (data : json) : M unit :=
  fun st =>
    match Storage.store_artifact (storage st) artifact_id data with
    | Ok b => (Ok tt, {| storage := b; audit_logs := audit_logs st |})
    | Raise e => (Raise e, st)
    end.

Definition fetch (artifact_id : string) : M (option json) :=
  fun st => (Storage.get_artifact (storage st) artifact_id, st).

(** [x if s else y] on an optional str: [None] and the empty str are
    falsy. *)
Definition truthy (s : option string) : option string :=
  match s with
  | Some (String c r) => Some (String c r)
  | _ => None
  end.

(** [UUID(workspace_id) if workspace_id else UUID(zero_uuid)], for the
    value a caller passes as [workspace_id]: [UUID] takes a str, and fails
    on anything else. *)
Definition workspace_uuid (workspace_id : option json) : result uuid :=
  if falsy workspace_id then UUID zero_uuid
  else match workspace_id with
       | Some (JStr s) => UUID s
       | _ => Raise (mkExc "AttributeError" "object has no attribute 'replace'")
       end.

(** [log_audit_event]: the event is built, dumped and appended. *)
Definition log_audit_event (act : AuditAction) (who : string)
  (artifact_id : option string) (workspace_id : option json) (fr : Fresh)
  : M unit :=
  run aid <- lift (match truthy artifact_id with
                   | Some s => do u <- UUID s; Ok (Some u)
                   | None => Ok None
                   end);
  run wid <- lift (workspace_uuid workspace_id);
  fun st =>
    (Ok tt,
     {| storage := storage st;
        audit_logs := audit_logs st
                      ++ [{| eventId := fresh_eventId fr; artifactId := aid;
                             workspaceId := wid; action := act; actor := who;
                             timestamp := fresh_timestamp fr; metadata := [] |}] |}).

(** The body of [create_artifact], inside its [try]. *)
Definition create_artifact_body (request : CreateArtifactRequest)
  (current_user : string) (fr : Fresh) : M JWSResponse :=
  run artifact <- lift (Artifact_new (req_artifact request));
  run validated <- lift (validate artifact);
  run jws_token <-
    (if req_sign request then
       run token <- lift (signer_sign artifact (fresh_nonce fr));
       run stored <- store (id_str artifact)
                       (JObj [("artifact", model_dump artifact); ("jws", JStr token)]);
       pure (Some token)
     else
       run stored <- store (id_str artifact)
                       (JObj [("artifact", model_dump artifact)]);
       pure None);
  run logged <- log_audit_event CREATE current_user
                  (Some (id_str artifact))
                  (Some (JStr (workspaceId_str artifact))) fr;
  pure {| jws := match jws_token with Some t => t | None => "" end;
          artifact_id := id_str artifact;
          workspace_id := workspaceId_str artifact |}.

Definition create_artifact (request : CreateArtifactRequest)
  (current_user : string) (fr : Fresh) (st : State)
  : outcome JWSResponse * State :=
  match create_artifact_body request current_user fr st with
  | (Ok r, st') => (Returned r, st')
  | (Raise e, st') => (HTTPException 400 (exc_str e), st')
  end.

Definition get_artifact (artifact_id : string) (current_user : string)
  (fr : Fresh) (st : State) : outcome json * State :=
  match fetch artifact_id st with
  | (Raise e, st') => (Uncaught e, st')
  | (Ok data, st') =>
      match data with
      | Some d =>
          if falsy data then (HTTPException 404 "Artifact not found", st')
          else
            match (run art <- lift (ArtifactPy.subscript d "artifact");
                   run ws <- lift (dict_get_method art "workspaceId");
                   log_audit_event READ current_user (Some artifact_id) ws fr)
                    st' with
            | (Ok _, st'') => (Returned d, st'')
            | (Raise e, st'') => (Uncaught e, st'')
            end
      | None => (HTTPException 404 "Artifact not found", st')
      end
  end.

Definition verify_artifact (request_jws : string) (current_user : string)
  (fr : Fresh) (st : State) : outcome VerifyResponse * State :=
  match (run artifact <- lift (verifier_verify request_jws);
         run logged <- log_audit_event VERIFY current_user
                         (Some (id_str artifact))
                         (Some (JStr (workspaceId_str artifact))) fr;
         pure {| valid := true; artifact := Some (model_dump artifact);
                 error := None |}) st with
  | (Ok r, st') => (Returned r, st')
  | (Raise e, st') =>
      (Returned {| valid := false; artifact := None; error := Some (exc_str e) |}, st')
  end.

(** [l[start:]] *)
Definition slice_from {A} (start : Z) (l : list A) : list A :=
  let n := Z.of_nat (length l) in
  let s := if start <? 0 then Z.max 0 (start + n) else Z.min start n in
  drop (Z.to_nat s) l.

(** [e.get(field) == wanted], for an id the dump may hold *)
Definition id_matches (field : option uuid) (wanted : string) : bool :=
  match field with
  | Some u => uuid_eq_str u wanted
  | None => false
  end.

Definition get_audit_events (artifact_id workspace_id : option string)
  (limit : Z) (st : State) : list AuditEvent :=
  let events := slice_from (- limit) (audit_logs st) in
  let events :=
    match truthy artifact_id with
    | Some a => List.filter (fun e => id_matches (artifactId e) a) events
    | None => events
    end in
  match truthy workspace_id with
  | Some w => List.filter (fun e => id_matches (Some (workspaceId e)) w) events
  | None => events
  end.


(** *** The audit log under [log_audit_event] *)

Lemma log_audit_event_raise (act : AuditAction) (who : string)
  (aid : option string) (wid : option json) (fr : Fresh) (st st' : State) (e : exc) :
  log_audit_event act who aid wid fr st = (Raise e, st') -> st' = st.
Proof.
  unfold log_audit_event, and_then, lift.
  destruct (truthy aid) as [s|]; [destruct (UUID s) as [u|e1]; cbn [bind]|];
    destruct (workspace_uuid wid); intros [= ]; subst; reflexivity.
Qed.

Lemma log_audit_event_ok (act : AuditAction) (who : string)
  (aid : option string) (wid : option json) (fr : Fresh) (st st' : State) :
  log_audit_event act who aid wid fr st = (Ok tt, st') ->
  exists ev : AuditEvent,
    audit_logs st' = audit_logs st ++ [ev]
    /\ storage st' = storage st
    /\ action ev = act /\ actor ev = who
    /\ match truthy aid with
       | Some s => exists u, UUID s = Ok u /\ artifactId ev = Some u
       | None => artifactId ev = None
       end.
Proof.
  unfold log_audit_event, and_then, lift.
  destruct (truthy aid) as [s|]; [destruct (UUID s) as [u|e1]; cbn [bind]|];
    destruct (workspace_uuid wid); intros [= ]; subst;
    eexists; cbn; repeat split; eauto.
Qed.

Lemma truthy_nonempty (s : string) : s <> "" -> truthy (Some s) = Some s.
Proof. destruct s; [contradiction | reflexivity]. Qed.

Lemma truthy_Some (o : option string) (s : string) :
  truthy o = Some s -> o = Some s /\ s <> "".
Proof.
  destruct o as [[|c r]|]; try discriminate. intros [= <-]. split; [reflexivity | discriminate].
Qed.

(** *** What each endpoint leaves in the log *)

Lemma create_artifact_audited (request : CreateArtifactRequest) (user : string)
  (fr : Fresh) (st st' : State) (resp : JWSResponse) :
  create_artifact request user fr st = (Returned resp, st') ->
  exists (a : Artifact) (ev : AuditEvent),
    Artifact_new (req_artifact request) = Ok a
    /\ artifact_id resp = id_str a
    /\ audit_logs st' = audit_logs st ++ [ev]
    /\ action ev = CREATE
    /\ (id_str a <> "" -> exists u, UUID (id_str a) = Ok u /\ artifactId ev = Some u).
Proof.
  unfold create_artifact, create_artifact_body, and_then, lift, pure, store.
  destruct (Artifact_new (req_artifact request)) as [a|e]; [|discriminate].
  destruct (validate a) as [[]|e]; [|discriminate].
  assert (Hlog : forall (tok : option string) (st1 : State),
             audit_logs st1 = audit_logs st ->
             match
               match log_audit_event CREATE user (Some (id_str a))
                       (Some (JStr (workspaceId_str a))) fr st1 with
               | (Ok _, st2) =>
                   (Ok {| jws := match tok with Some t => t | None => "" end;
                          artifact_id := id_str a;
                          workspace_id := workspaceId_str a |}, st2)
               | (Raise e, st2) => (Raise e, st2)
               end
             with
             | (Ok r, st2) => (Returned r, st2)
             | (Raise e, st2) => (HTTPException 400 (exc_str e), st2)
             end = (Returned resp, st') ->
             exists (a0 : Artifact) (ev : AuditEvent),
               Ok a = Ok a0 /\ artifact_id resp = id_str a0
               /\ audit_logs st' = audit_logs st ++ [ev] /\ action ev = CREATE
               /\ (id_str a0 <> "" ->
                   exists u, UUID (id_str a0) = Ok u /\ artifactId ev = Some u)).
  { intros tok st1 Hst1.
    destruct (log_audit_event CREATE user (Some (id_str a))
                (Some (JStr (workspaceId_str a))) fr st1) as [[[]|e] st2] eqn:E;
      [|discriminate].
    intros [= <- <-].
    destruct (log_audit_event_ok _ _ _ _ _ _ _ E) as (ev & Hl & _ & Hact & _ & Hid).
    exists a, ev. rewrite Hl, Hst1. repeat split; try assumption.
    intros Hne. rewrite (truthy_nonempty _ Hne) in Hid. exact Hid. }
  destruct (req_sign request).
  - destruct (signer_sign a (fresh_nonce fr)) as [tok|e]; [|discriminate].
    destruct (Storage.store_artifact (storage st) (id_str a) _) as [b|e];
      [|discriminate].
    apply (Hlog (Some tok)). reflexivity.
  - destruct (Storage.store_artifact (storage st) (id_str a) _) as [b|e];
      [|discriminate].
    apply (Hlog None). reflexivity.
Qed.

Lemma get_artifact_audited (id : string) (user : string) (fr : Fresh)
  (st st' : State) (data : json) :
  get_artifact id user fr st = (Returned data, st') ->
  exists ev : AuditEvent,
    Storage.get_artifact (storage st) id = Ok (Some data)
    /\ storage st' = storage st
    /\ audit_logs st' = audit_logs st ++ [ev]
    /\ action ev = READ
    /\ (id <> "" -> exists u, UUID id = Ok u /\ artifactId ev = Some u).
Proof.
  unfold get_artifact, fetch, and_then, lift.
  destruct (Storage.get_artifact (storage st) id) as [[d|]|e]; try discriminate.
  destruct (falsy (Some d)); [discriminate|].
  destruct (ArtifactPy.subscript d "artifact") as [art|e]; [|discriminate].
  destruct (dict_get_method art "workspaceId") as [ws|e]; [|discriminate].
  destruct (log_audit_event READ user (Some id) ws fr st) as [[[]|e] st2] eqn:E;
    [|discriminate].
  intros [= <- <-].
  destruct (log_audit_event_ok _ _ _ _ _ _ _ E) as (ev & Hl & Hs & Hact & _ & Hid).
  exists ev. repeat split; try assumption.
  intros Hne. rewrite (truthy_nonempty _ Hne) in Hid. exact Hid.
Qed.

Lemma verify_artifact_cases (request_jws : string) (user : string) (fr : Fresh)
  (st : State) :
  match verifier_verify request_jws with
  | Raise e =>
      verify_artifact request_jws user fr st
      = (Returned {| valid := false; artifact := None; error := Some (exc_str e) |}, st)
  | Ok a =>
      (exists ev : AuditEvent,
          verify_artifact request_jws user fr st
          = (Returned {| valid := true; artifact := Some (model_dump a);
                         error := None |},
             {| storage := storage st; audit_logs := audit_logs st ++ [ev] |})
          /\ action ev = VERIFY
          /\ (id_str a <> "" -> exists u, UUID (id_str a) = Ok u /\ artifactId ev = Some u))
      \/ (exists e : exc,
            verify_artifact request_jws user fr st
            = (Returned {| valid := false; artifact := None;
                           error := Some (exc_str e) |}, st))
  end.
Proof.
  unfold verify_artifact, and_then, lift, pure.
  destruct (verifier_verify request_jws) as [a|e]; [|reflexivity].
  destruct (log_audit_event VERIFY user (Some (id_str a))
              (Some (JStr (workspaceId_str a))) fr st) as [[[]|e] st2] eqn:E.
  - left. destruct (log_audit_event_ok _ _ _ _ _ _ _ E) as (ev & Hl & Hs & Hact & _ & Hid).
    exists ev. split; [|split; [exact Hact|]].
    + f_equal. destruct st2 as [b l]. cbn in Hl, Hs. now subst.
    + intros Hne. rewrite (truthy_nonempty _ Hne) in Hid. exact Hid.
  - right. exists e. rewrite (log_audit_event_raise _ _ _ _ _ _ _ _ E). reflexivity.
Qed.

(** *** The claims on the endpoints *)

(** C7 (audit completeness): every successful CreateArtifact, GetArtifact
    and VerifyToken call appends exactly one event to the audit log: the
    log after the call is the log before it followed by one event, whose
    action is CREATE, READ or VERIFY, and whose artifactId is the UUID of
    the id of the artifact the call created, read or verified (an id is
    a non-empty str). *)
Theorem audit_completeness :
  (forall (request : CreateArtifactRequest) (user : string) (fr : Fresh)
          (st st' : State) (resp : JWSResponse),
      create_artifact request user fr st = (Returned resp, st') ->
      artifact_id resp <> "" ->
      exists (ev : AuditEvent) (u : uuid),
        audit_logs st' = audit_logs st ++ [ev]
        /\ action ev = CREATE
        /\ UUID (artifact_id resp) = Ok u /\ artifactId ev = Some u)
  /\ (forall (id user : string) (fr : Fresh) (st st' : State) (data : json),
        get_artifact id user fr st = (Returned data, st') ->
        id <> "" ->
        exists (ev : AuditEvent) (u : uuid),
          audit_logs st' = audit_logs st ++ [ev]
          /\ action ev = READ
          /\ UUID id = Ok u /\ artifactId ev = Some u)
  /\ (forall (request_jws user : string) (fr : Fresh) (st st' : State)
             (resp : VerifyResponse),
        verify_artifact request_jws user fr st = (Returned resp, st') ->
        valid resp = true ->
        exists (a : Artifact) (ev : AuditEvent),
          verifier_verify request_jws = Ok a
          /\ artifact resp = Some (model_dump a)
          /\ audit_logs st' = audit_logs st ++ [ev]
          /\ action ev = VERIFY
          /\ (id_str a <> "" ->
              exists u, UUID (id_str a) = Ok u /\ artifactId ev = Some u)).
Proof.
  split; [|split].
  - intros request user fr st st' resp Hcall Hne.
    destruct (create_artifact_audited _ _ _ _ _ _ Hcall)
      as (a & ev & _ & Hid & Hl & Hact & Hu).
    rewrite Hid in Hne |- *. destruct (Hu Hne) as (u & Hu1 & Hu2).
    exists ev, u. auto.
  - intros id user fr st st' data Hcall Hne.
    destruct (get_artifact_audited _ _ _ _ _ _ Hcall)
      as (ev & _ & _ & Hl & Hact & Hu).
    destruct (Hu Hne) as (u & Hu1 & Hu2). exists ev, u. auto.
  - intros request_jws user fr st st' resp Hcall Hvalid.
    pose proof (verify_artifact_cases request_jws user fr st) as Hc.
    destruct (verifier_verify request_jws) as [a|e].
    + destruct Hc as [(ev & Hc & Hact & Hu)|(e & Hc)];
        rewrite Hc in Hcall; injection Hcall as <- <-; [|discriminate Hvalid].
      exists a, ev. auto.
    + rewrite Hc in Hcall. injection Hcall as <- <-. discriminate Hvalid.
Qed.

(** C10 (failed verification): whenever [verifier.verify] raises, the
    VerifyToken endpoint returns a response with valid false and the
    error string, and leaves the state as it was.  The endpoint never
    raises and never answers with an HTTP error; a response with valid
    false carries an error and comes with an unchanged audit log, and an
    event is appended, with action VERIFY, only when the verifier has
    returned an artifact. *)
Theorem failed_verification_not_audited (request_jws user : string) (fr : Fresh)
  (st : State) :
  (forall e : exc,
      verifier_verify request_jws = Raise e ->
      verify_artifact request_jws user fr st
      = (Returned {| valid := false; artifact := None; error := Some (exc_str e) |}, st))
  /\ (exists resp : VerifyResponse,
        fst (verify_artifact request_jws user fr st) = Returned resp
        /\ (valid resp = false ->
            (exists msg, error resp = Some msg)
            /\ snd (verify_artifact request_jws user fr st) = st)
        /\ (audit_logs (snd (verify_artifact request_jws user fr st)) <> audit_logs st ->
            exists (a : Artifact) (ev : AuditEvent),
              verifier_verify request_jws = Ok a
              /\ valid resp = true
              /\ action ev = VERIFY
              /\ audit_logs (snd (verify_artifact request_jws user fr st))
                 = audit_logs st ++ [ev])).
Proof.
  pose proof (verify_artifact_cases request_jws user fr st) as Hc.
  split.
  - intros e He. rewrite He in Hc. exact Hc.
  - destruct (verifier_verify request_jws) as [a|e].
    + destruct Hc as [(ev & Hc & Hact & _)|(e & Hc)]; rewrite Hc; cbn [fst snd].
      * eexists. split; [reflexivity|]. split; [discriminate|].
        intros _. exists a, ev. auto.
      * eexists. split; [reflexivity|]. split; [eauto|]. intros H. contradiction.
    + rewrite Hc. cbn [fst snd]. eexists. split; [reflexivity|].
      split; [eauto|]. intros H. contradiction.
Qed.

(** C9, as the code has it: when verification fails, the response has
    valid false, no artifact, and as its error the text of the exception
    that stopped the verification, unchanged.  Two failures get the same
    response exactly when their exceptions have the same text. *)
Theorem verify_error_is_exception_text (jws1 jws2 user1 user2 : string)
  (fr1 fr2 : Fresh) (st1 st2 : State) (e1 e2 : exc) :
  verifier_verify jws1 = Raise e1 -> verifier_verify jws2 = Raise e2 ->
  fst (verify_artifact jws1 user1 fr1 st1)
  = Returned {| valid := false; artifact := None; error := Some (exc_str e1) |}
  /\ (fst (verify_artifact jws1 user1 fr1 st1) = fst (verify_artifact jws2 user2 fr2 st2)
      <-> exc_str e1 = exc_str e2).
Proof.
  intros H1 H2.
  pose proof (verify_artifact_cases jws1 user1 fr1 st1) as C1.
  pose proof (verify_artifact_cases jws2 user2 fr2 st2) as C2.
  rewrite H1 in C1. rewrite H2 in C2. rewrite C1, C2. cbn [fst].
  split; [reflexivity|]. split; [intros [= ->] | intros ->]; reflexivity.
Qed.

(** *** The audit query *)

(** The [n] most recent events of the log, in the order of the log. *)
Definition last_n {A} (n : nat) (l : list A) : list A := drop (length l - n) l.

(** An event passes the filters that are given (a filter that is absent,
    or the empty str, is not given). *)
Definition event_wanted (artifact_id workspace_id : option string)
  (e : AuditEvent) : bool :=
  match truthy artifact_id with
  | Some a => id_matches (artifactId e) a
  | None => true
  end
  && match truthy workspace_id with
     | Some w => id_matches (Some (workspaceId e)) w
     | None => true
     end.

(** The query the specification words: the events that pass the filters,
    most recent first, cut to [limit] events. *)
Definition query_as_specified (artifact_id workspace_id : option string)
  (limit : Z) (st : State) : list AuditEvent :=
  take (Z.to_nat limit)
    (List.filter (event_wanted artifact_id workspace_id) (rev (audit_logs st))).

Lemma slice_from_neg {A} (limit : Z) (l : list A) :
  0 < limit -> slice_from (- limit) l = last_n (Z.to_nat limit) l.
Proof.
  intros H. unfold slice_from, last_n.
  destruct (Z.ltb_spec (- limit) 0) as [_|]; [|lia].
  f_equal. lia.
Qed.

Lemma filter_filter {A} (f g : A -> bool) (l : list A) :
  List.filter f (List.filter g l) = List.filter (fun x => g x && f x) l.
Proof.
  induction l as [|x l IH]; [reflexivity|]. cbn.
  destruct (g x); cbn; [destruct (f x)|]; now rewrite IH.
Qed.

Lemma filter_true {A} (l : list A) : List.filter (fun _ => true) l = l.
Proof. induction l as [|x l IH]; [reflexivity|]. cbn. now rewrite IH. Qed.

Lemma filter_sublist {A} (f : A -> bool) (l : list A) : sublist (List.filter f l) l.
Proof.
  induction l as [|x l IH]; cbn; [constructor|].
  destruct (f x); now constructor.
Qed.

Lemma filter_length_le {A} (f : A -> bool) (l : list A) :
  (length (List.filter f l) <= length l)%nat.
Proof. apply sublist_length, filter_sublist. Qed.

Lemma get_audit_events_filter (artifact_id workspace_id : option string)
  (limit : Z) (st : State) :
  get_audit_events artifact_id workspace_id limit st
  = List.filter (event_wanted artifact_id workspace_id)
      (slice_from (- limit) (audit_logs st)).
Proof.
  unfold get_audit_events, event_wanted.
  destruct (truthy artifact_id) as [a|], (truthy workspace_id) as [w|]; cbn [andb].
  - apply filter_filter.
  - apply List.filter_ext. intros e. now rewrite andb_true_r.
  - reflexivity.
  - symmetry. apply filter_true.
Qed.

(** C6, as the code has it: for a positive limit, the query takes the
    [limit] most recent events of the log and then keeps those that pass
    the filters given.  So the result holds at most [limit] events, every
    one of them matches each filter given, and they come in the order of
    the log, the oldest first; the limit is applied before the filters. *)
Theorem audit_query_window (artifact_id workspace_id : option string)
  (limit : Z) (st : State) :
  0 < limit ->
  get_audit_events artifact_id workspace_id limit st
  = List.filter (event_wanted artifact_id workspace_id)
      (last_n (Z.to_nat limit) (audit_logs st))
  /\ (length (get_audit_events artifact_id workspace_id limit st) <= Z.to_nat limit)%nat
  /\ (forall e : AuditEvent,
        In e (get_audit_events artifact_id workspace_id limit st) ->
        (forall a, truthy artifact_id = Some a -> id_matches (artifactId e) a = true)
        /\ (forall w, truthy workspace_id = Some w ->
                      id_matches (Some (workspaceId e)) w = true))
  /\ sublist (get_audit_events artifact_id workspace_id limit st) (audit_logs st).
Proof.
  intros Hpos. rewrite get_audit_events_filter, (slice_from_neg _ _ Hpos).
  split; [reflexivity|]. split; [|split].
  - etransitivity; [apply filter_length_le|].
    unfold last_n. rewrite length_drop. lia.
  - intros e He. apply List.filter_In in He as [_ Hw]. unfold event_wanted in Hw.
    apply andb_true_iff in Hw as [Ha Hw].
    split; [intros a Ea; rewrite Ea in Ha | intros w Ew; rewrite Ew in Hw];
      assumption.
  - etransitivity; [apply filter_sublist|]. apply sublist_drop.
Qed.
(** *** What a call that fails leaves behind *)

(** The document [create_artifact] stores for an artifact: with the token
    when the request asks for a signature, without it otherwise. *)
Definition stored_document (a : Artifact) (token : option string) : json :=
  match token with
  | Some t => JObj [("artifact", model_dump a); ("jws", JStr t)]
  | None => JObj [("artifact", model_dump a)]
  end.

(** [create_artifact] ends in a response or in an HTTP 400, never in
    anything else; a 400 comes with an audit log that has not changed.
    And a 400 does not tell that nothing was stored: either the state is
    as it was, or the document has been stored and it is the audit event
    that could not be built (an id that [UUID] refuses); the detail of the
    400 is then the text of that error. *)
Theorem create_artifact_outcomes (request : CreateArtifactRequest)
  (user : string) (fr : Fresh) (st : State) :
  (exists resp : JWSResponse,
      fst (create_artifact request user fr st) = Returned resp)
  \/ (exists e : exc,
        fst (create_artifact request user fr st) = HTTPException 400 (exc_str e)
        /\ audit_logs (snd (create_artifact request user fr st)) = audit_logs st
        /\ (snd (create_artifact request user fr st) = st
            \/ exists (a : Artifact) (token : option string) (b : B),
                 Artifact_new (req_artifact request) = Ok a
                 /\ validate a = Ok tt
                 /\ Storage.store_artifact (storage st) (id_str a)
                      (stored_document a token) = Ok b
                 /\ snd (create_artifact request user fr st)
                    = {| storage := b; audit_logs := audit_logs st |}
                 /\ forall st1 : State,
                      log_audit_event CREATE user (Some (id_str a))
                        (Some (JStr (workspaceId_str a))) fr st1
                      = (Raise e, st1))).
Proof.
  unfold create_artifact, create_artifact_body, and_then, lift, pure, store.
  destruct (Artifact_new (req_artifact request)) as [a|e] eqn:Ha;
    [|right; exists e; cbn; auto].
  destruct (validate a) as [[]|e] eqn:Hv; [|right; exists e; cbn; auto].
  assert (Hlog : forall (tok : option string) (b : B),
             Storage.store_artifact (storage st) (id_str a) (stored_document a tok)
             = Ok b ->
             forall out,
               out = match
                 match log_audit_event CREATE user (Some (id_str a))
                         (Some (JStr (workspaceId_str a))) fr
                         {| storage := b; audit_logs := audit_logs st |} with
                 | (Ok _, st2) =>
                     (Ok {| jws := match tok with Some t => t | None => "" end;
                            artifact_id := id_str a;
                            workspace_id := workspaceId_str a |}, st2)
                 | (Raise e, st2) => (Raise e, st2)
                 end
               with
               | (Ok r, st2) => (Returned r, st2)
               | (Raise e, st2) => (HTTPException 400 (exc_str e), st2)
               end ->
               (exists resp : JWSResponse, fst out = Returned resp)
               \/ (exists e : exc,
                     fst out = HTTPException 400 (exc_str e)
                     /\ audit_logs (snd out) = audit_logs st
                     /\ (snd out = st
                         \/ exists (a0 : Artifact) (token : option string) (b0 : B),
                              Ok a = Ok a0
                              /\ validate a0 = Ok tt
                              /\ Storage.store_artifact (storage st) (id_str a0)
                                   (stored_document a0 token) = Ok b0
                              /\ snd out = {| storage := b0; audit_logs := audit_logs st |}
                              /\ forall st1 : State,
                                   log_audit_event CREATE user (Some (id_str a0))
                                     (Some (JStr (workspaceId_str a0))) fr st1
                                   = (Raise e, st1)))).
  { intros tok b Hb out ->.
    destruct (log_audit_event CREATE user (Some (id_str a))
                (Some (JStr (workspaceId_str a))) fr
                {| storage := b; audit_logs := audit_logs st |})
      as [[[]|e] st2] eqn:E.
    - left. eexists. reflexivity.
    - right. exists e. pose proof (log_audit_event_raise _ _ _ _ _ _ _ _ E) as ->.
      cbn [fst snd audit_logs]. split; [reflexivity|]. split; [reflexivity|].
      right. exists a, tok, b. repeat split; try assumption.
      intros st1. revert E. unfold log_audit_event, and_then, lift.
      destruct (truthy (Some (id_str a))) as [s|];
        [destruct (UUID s) as [u|e1]; cbn [bind]|];
        destruct (workspace_uuid (Some (JStr (workspaceId_str a))));
        intros [= ]; subst; reflexivity. }
  destruct (req_sign request).
  - destruct (signer_sign a (fresh_nonce fr)) as [tok|e];
      [|right; exists e; cbn; auto].
    destruct (Storage.store_artifact (storage st) (id_str a)
                (JObj [("artifact", model_dump a); ("jws", JStr tok)]))
      as [b|e] eqn:Hb; [|right; exists e; cbn; auto].
    apply (Hlog (Some tok) b Hb). reflexivity.
  - destruct (Storage.store_artifact (storage st) (id_str a)
                (JObj [("artifact", model_dump a)]))
      as [b|e] eqn:Hb; [|right; exists e; cbn; auto].
    apply (Hlog None b Hb). reflexivity.
Qed.

(** [get_artifact] reads only: whatever its outcome, the storage is as it
    was.  A read that does not return the document leaves no trace at all:
    the answer is 404 exactly when the storage holds nothing under the id,
    or a document that is falsy (an empty one), and then, as when an
    exception escapes, the state is unchanged. *)
Theorem get_artifact_outcomes (artifact_id user : string) (fr : Fresh)
  (st : State) :
  storage (snd (get_artifact artifact_id user fr st)) = storage st
  /\ (forall data : option json,
        Storage.get_artifact (storage st) artifact_id = Ok data ->
        falsy data = true ->
        get_artifact artifact_id user fr st
        = (HTTPException 404 "Artifact not found", st))
  /\ (forall e : exc,
        Storage.get_artifact (storage st) artifact_id = Raise e ->
        get_artifact artifact_id user fr st = (Uncaught e, st))
  /\ match fst (get_artifact artifact_id user fr st) with
     | Returned d =>
         Storage.get_artifact (storage st) artifact_id = Ok (Some d)
         /\ falsy (Some d) = false
     | HTTPException status detail =>
         status = 404 /\ detail = "Artifact not found"
         /\ snd (get_artifact artifact_id user fr st) = st
         /\ exists data : option json,
              Storage.get_artifact (storage st) artifact_id = Ok data
              /\ falsy data = true
     | Uncaught e => snd (get_artifact artifact_id user fr st) = st
     end.
Proof.
  unfold get_artifact, fetch, and_then, lift.
  destruct (Storage.get_artifact (storage st) artifact_id) as [[d|]|e] eqn:Hg.
  - destruct (falsy (Some d)) eqn:Hf.
    + cbn [fst snd]. repeat split; try discriminate; eauto.
      all: try (intros data [= <-] _; reflexivity).
    + assert (Hno : forall (data : option json) (P : Prop),
                 Ok (Some d) = Ok data -> falsy data = true -> P).
      { intros data P [= <-] H. congruence. }
      destruct (ArtifactPy.subscript d "artifact") as [art|e]; cbn [fst snd];
        [destruct (dict_get_method art "workspaceId") as [ws|e]; cbn [fst snd];
         [destruct (log_audit_event READ user (Some artifact_id) ws fr st)
            as [[[]|e] st2] eqn:E; cbn [fst snd];
          [destruct (log_audit_event_ok _ _ _ _ _ _ _ E) as (ev & _ & Hs & _)
          |rewrite (log_audit_event_raise _ _ _ _ _ _ _ _ E)]|]|];
        repeat split; try discriminate; try assumption;
        try (intros data H1 H2; exact (Hno data _ H1 H2)).
  - cbn [fst snd]. repeat split; try discriminate; eauto.
  - cbn [fst snd]. repeat split; try discriminate.
    all: try (intros e' [= <-]; reflexivity).
Qed.

(** *** What a successful create has stored *)

Lemma create_artifact_returned (request : CreateArtifactRequest)
  (user : string) (fr : Fresh) (st st' : State) (resp : JWSResponse) :
  create_artifact request user fr st = (Returned resp, st') ->
  exists (a : Artifact) (token : option string),
    Artifact_new (req_artifact request) = Ok a
    /\ validate a = Ok tt
    /\ artifact_id resp = id_str a
    /\ workspace_id resp = workspaceId_str a
    /\ (if req_sign request
        then signer_sign a (fresh_nonce fr) = Ok (jws resp) /\ token = Some (jws resp)
        else jws resp = "" /\ token = None)
    /\ Storage.store_artifact (storage st) (id_str a) (stored_document a token)
       = Ok (storage st').
Proof.
  unfold create_artifact, create_artifact_body, and_then, lift, pure, store.
  destruct (Artifact_new (req_artifact request)) as [a|e] eqn:Ha; [|discriminate].
  destruct (validate a) as [[]|e] eqn:Hv; [|discriminate].
  assert (Hlog : forall (tok : option string) (b : B),
             match
               match log_audit_event CREATE user (Some (id_str a))
                       (Some (JStr (workspaceId_str a))) fr
                       {| storage := b; audit_logs := audit_logs st |} with
               | (Ok _, st2) =>
                   (Ok {| jws := match tok with Some t => t | None => "" end;
                          artifact_id := id_str a;
                          workspace_id := workspaceId_str a |}, st2)
               | (Raise e, st2) => (Raise e, st2)
               end
             with
             | (Ok r, st2) => (Returned r, st2)
             | (Raise e, st2) => (HTTPException 400 (exc_str e), st2)
             end = (Returned resp, st') ->
             resp = {| jws := match tok with Some t => t | None => "" end;
                       artifact_id := id_str a;
                       workspace_id := workspaceId_str a |}
             /\ storage st' = b).
  { intros tok b.
    destruct (log_audit_event CREATE user (Some (id_str a))
                (Some (JStr (workspaceId_str a))) fr
                {| storage := b; audit_logs := audit_logs st |})
      as [[[]|e] st2] eqn:E; [|discriminate].
    intros [= <- <-].
    destruct (log_audit_event_ok _ _ _ _ _ _ _ E) as (ev & _ & Hs & _).
    split; [reflexivity | exact Hs]. }
  destruct (req_sign request).
  - destruct (signer_sign a (fresh_nonce fr)) as [tok|e] eqn:Hs; [|discriminate].
    destruct (Storage.store_artifact (storage st) (id_str a)
                (JObj [("artifact", model_dump a); ("jws", JStr tok)]))
      as [b|e] eqn:Hb; [|discriminate].
    intros H. destruct (Hlog (Some tok) b H) as [-> ->].
    exists a, (Some tok). cbn [jws artifact_id workspace_id stored_document].
    repeat split; first [assumption | reflexivity].
  - destruct (Storage.store_artifact (storage st) (id_str a)
                (JObj [("artifact", model_dump a)]))
      as [b|e] eqn:Hb; [|discriminate].
    intros H. destruct (Hlog None b H) as [-> ->].
    exists a, None. cbn [jws artifact_id workspace_id stored_document].
    repeat split; first [assumption | reflexivity].
Qed.

(** *** The audit query without a positive limit *)

Lemma drop_min_length {A} (k : nat) (l : list A) :
  drop (Nat.min k (length l)) l = drop k l.
Proof.
  destruct (Nat.le_ge_cases k (length l)) as [H|H].
  - now rewrite Nat.min_l.
  - rewrite Nat.min_r by exact H. rewrite (drop_ge l k) by exact H.
    apply drop_all.
Qed.

(** The limit bounds the query only when it is positive.  With a limit of
    0 the slice [audit_logs[-0:]] is the whole log, so the query answers
    with every event that passes the filters, and with the whole log when
    no filter is given; with a negative limit it leaves out the [-limit]
    oldest events and answers with all the others that pass the
    filters. *)
Theorem audit_query_nonpositive_limit (artifact_id workspace_id : option string)
  (limit : Z) (st : State) :
  limit <= 0 ->
  get_audit_events artifact_id workspace_id limit st
  = List.filter (event_wanted artifact_id workspace_id)
      (drop (Z.to_nat (- limit)) (audit_logs st))
  /\ (limit = 0 ->
      get_audit_events artifact_id workspace_id limit st
      = List.filter (event_wanted artifact_id workspace_id) (audit_logs st))
  /\ (limit = 0 -> truthy artifact_id = None -> truthy workspace_id = None ->
      get_audit_events artifact_id workspace_id limit st = audit_logs st).
Proof.
  intros Hlimit.
  assert (Hslice : slice_from (- limit) (audit_logs st)
                   = drop (Z.to_nat (- limit)) (audit_logs st)).
  { unfold slice_from. destruct (Z.ltb_spec (- limit) 0) as [H|H]; [lia|].
    rewrite <- (drop_min_length (Z.to_nat (- limit))). f_equal. lia. }
  rewrite get_audit_events_filter, Hslice. split; [reflexivity|].
  split.
  - intros ->. reflexivity.
  - intros -> Ha Hw. cbn [Z.opp Z.to_nat drop].
    etransitivity; [|apply filter_true].
    apply List.filter_ext. intros e. unfold event_wanted. now rewrite Ha, Hw.
Qed.

(** *** The audit log over a sequence of calls *)

(** A call to one of the endpoints, with what it draws from outside. *)
Inductive Call : Type :=
| CallCreate (request : CreateArtifactRequest) (user : string) (fr : Fresh)
| CallGet (artifact_id : string) (user : string) (fr : Fresh)
| CallVerify (request_jws : string) (user : string) (fr : Fresh)
| CallQuery (artifact_id workspace_id : option string) (limit : Z).

(** What a call answers: the outcome of its endpoint; for the audit
    query, the events it returns. *)
Inductive Answer : Type :=
| Created (out : outcome JWSResponse)
| Fetched (out : outcome json)
| Verified (out : outcome VerifyResponse)
| Queried (events : list AuditEvent).

(** One call: its answer, and the state it leaves. *)
Definition serve_one (c : Call) (st : State) : Answer * State :=
  match c with
  | CallCreate request user fr =>
      let (out, st') := create_artifact request user fr st in (Created out, st')
  | CallGet artifact_id user fr =>
      let (out, st') := get_artifact artifact_id user fr st in (Fetched out, st')
  | CallVerify request_jws user fr =>
      let (out, st') := verify_artifact request_jws user fr st in (Verified out, st')
  | CallQuery artifact_id workspace_id limit =>
      (Queried (get_audit_events artifact_id workspace_id limit st), st)
  end.

(** The calls one after the other: their answers, and the final state. *)
Fixpoint serve (calls : list Call) (st : State) : list Answer * State :=
  match calls with
  | [] => ([], st)
  | c :: rest =>
      let (answer, st1) := serve_one c st in
      let (answers, st2) := serve rest st1 in
      (answer :: answers, st2)
  end.

(** The answers that tell of an artifact created, read or verified: a
    create or a get that returned its response, a verification that
    answered valid.  A call that failed is none of them, and neither is
    an audit query, whatever events it returns. *)
Definition tells_of_artifact (a : Answer) : bool :=
  match a with
  | Created (Returned _) => true
  | Fetched (Returned _) => true
  | Verified (Returned r) => valid r
  | _ => false
  end.

Definition endpoint_action (ev : AuditEvent) : bool :=
  match action ev with
  | CREATE | READ | VERIFY => true
  | _ => false
  end.

Lemma create_artifact_unaudited (request : CreateArtifactRequest) (user : string)
  (fr : Fresh) (st : State) :
  (exists resp, fst (create_artifact request user fr st) = Returned resp)
  \/ audit_logs (snd (create_artifact request user fr st)) = audit_logs st.
Proof.
  unfold create_artifact, create_artifact_body, and_then, lift, pure, store.
  destruct (Artifact_new (req_artifact request)) as [a|e]; [|now right].
  destruct (validate a) as [[]|e]; [|now right].
  assert (Hlog : forall (tok : option string) (b : B) out,
             out = match
               match log_audit_event CREATE user (Some (id_str a))
                       (Some (JStr (workspaceId_str a))) fr
                       {| storage := b; audit_logs := audit_logs st |} with
               | (Ok _, st2) =>
                   (Ok {| jws := match tok with Some t => t | None => "" end;
                          artifact_id := id_str a;
                          workspace_id := workspaceId_str a |}, st2)
               | (Raise e, st2) => (Raise e, st2)
               end
             with
             | (Ok r, st2) => (Returned r, st2)
             | (Raise e, st2) => (HTTPException 400 (exc_str e), st2)
             end ->
             (exists resp, fst out = Returned resp)
             \/ audit_logs (snd out) = audit_logs st).
  { intros tok b out ->.
    destruct (log_audit_event CREATE user (Some (id_str a))
                (Some (JStr (workspaceId_str a))) fr
                {| storage := b; audit_logs := audit_logs st |})
      as [[[]|e] st2] eqn:E.
    - left. eexists. reflexivity.
    - right. now rewrite (log_audit_event_raise _ _ _ _ _ _ _ _ E). }
  destruct (req_sign request).
  - destruct (signer_sign a (fresh_nonce fr)) as [tok|e]; [|now right].
    destruct (Storage.store_artifact (storage st) (id_str a) _) as [b|e];
      [|now right].
    apply (Hlog (Some tok) b). reflexivity.
  - destruct (Storage.store_artifact (storage st) (id_str a) _) as [b|e];
      [|now right].
    apply (Hlog None b). reflexivity.
Qed.

Lemma get_artifact_unaudited (artifact_id user : string) (fr : Fresh) (st : State) :
  (exists d, fst (get_artifact artifact_id user fr st) = Returned d)
  \/ snd (get_artifact artifact_id user fr st) = st.
Proof.
  unfold get_artifact, fetch, and_then, lift.
  destruct (Storage.get_artifact (storage st) artifact_id) as [[d|]|e];
    [|now right|now right].
  destruct (falsy (Some d)); [now right|].
  destruct (ArtifactPy.subscript d "artifact") as [art|e]; [|now right].
  destruct (dict_get_method art "workspaceId") as [ws|e]; [|now right].
  destruct (log_audit_event READ user (Some artifact_id) ws fr st)
    as [[[]|e] st2] eqn:E.
  - left. eexists. reflexivity.
  - right. exact (log_audit_event_raise _ _ _ _ _ _ _ _ E).
Qed.

Lemma serve_one_log (c : Call) (st : State) :
  exists tail : list AuditEvent,
    audit_logs (snd (serve_one c st)) = audit_logs st ++ tail
    /\ length tail = (if tells_of_artifact (fst (serve_one c st)) then 1 else 0)%nat
    /\ forallb endpoint_action tail = true.
Proof.
  destruct c as [request user fr|id user fr|tok user fr|a w limit];
    cbn [serve_one].
  - destruct (create_artifact request user fr st) as [out st'] eqn:E.
    cbn [fst snd tells_of_artifact].
    destruct out as [resp|status detail|e].
    + destruct (create_artifact_audited _ _ _ _ _ _ E)
        as (a & ev & _ & _ & Hl & Hact & _).
      exists [ev]. repeat split; [exact Hl|].
      cbn. unfold endpoint_action. now rewrite Hact.
    + exists []. rewrite List.app_nil_r. repeat split.
      destruct (create_artifact_unaudited request user fr st) as [[r H]|H];
        rewrite E in H; [discriminate H | exact H].
    + exists []. rewrite List.app_nil_r. repeat split.
      destruct (create_artifact_unaudited request user fr st) as [[r H]|H];
        rewrite E in H; [discriminate H | exact H].
  - destruct (get_artifact id user fr st) as [out st'] eqn:E.
    cbn [fst snd tells_of_artifact].
    destruct out as [d|status detail|e].
    + destruct (get_artifact_audited _ _ _ _ _ _ E) as (ev & _ & _ & Hl & Hact & _).
      exists [ev]. repeat split; [exact Hl|].
      cbn. unfold endpoint_action. now rewrite Hact.
    + exists []. rewrite List.app_nil_r. repeat split.
      destruct (get_artifact_unaudited id user fr st) as [[r H]|H];
        rewrite E in H; [discriminate H | cbn in H; now subst].
    + exists []. rewrite List.app_nil_r. repeat split.
      destruct (get_artifact_unaudited id user fr st) as [[r H]|H];
        rewrite E in H; [discriminate H | cbn in H; now subst].
  - pose proof (verify_artifact_cases tok user fr st) as Hc.
    destruct (verifier_verify tok) as [a|e].
    + destruct Hc as [(ev & -> & Hact & _)|(e & ->)].
      * exists [ev]. cbn [fst snd valid audit_logs tells_of_artifact]. repeat split.
        cbn. unfold endpoint_action. now rewrite Hact.
      * exists []. cbn [fst snd valid tells_of_artifact]. now rewrite List.app_nil_r.
    + rewrite Hc. exists []. cbn [fst snd valid tells_of_artifact].
      now rewrite List.app_nil_r.
  - exists []. cbn [fst snd tells_of_artifact]. now rewrite List.app_nil_r.
Qed.

(** The audit log is append-only, and it counts the artifacts created,
    read and verified.  Over any sequence of calls to the create, get,
    verify and audit query endpoints, the log at the end is the log at the
    start followed by exactly one event for each create and each get that
    returned its response and for each verification that answered valid,
    and by nothing for the other calls: a call that failed adds nothing,
    and neither does an audit query, whatever it returns.  The events
    added have the actions CREATE, READ and VERIFY only. *)
Theorem audit_log_append_only (calls : list Call) (st : State) :
  exists tail : list AuditEvent,
    audit_logs (snd (serve calls st)) = audit_logs st ++ tail
    /\ length tail = length (List.filter tells_of_artifact (fst (serve calls st)))
    /\ forallb endpoint_action tail = true.
Proof.
  revert st. induction calls as [|c rest IH]; intros st.
  - exists []. cbn. now rewrite List.app_nil_r.
  - cbn [serve]. destruct (serve_one_log c st) as (t1 & Hl1 & Hn1 & Ha1).
    destruct (serve_one c st) as [answer st1]. cbn [fst snd] in *.
    destruct (IH st1) as (t2 & Hl2 & Hn2 & Ha2).
    destruct (serve rest st1) as [answers st2]. cbn [fst snd] in *.
    exists (t1 ++ t2). rewrite Hl2, Hl1, <- List.app_assoc.
    split; [reflexivity|]. split.
    + rewrite List.length_app, Hn1, Hn2. cbn [List.filter].
      now destruct (tells_of_artifact answer).
    + rewrite forallb_app, Ha1, Ha2. reflexivity.
Qed.

(** *** Create, then get *)

(** The ids of an artifact that has been created are ids [UUID] takes: an
    audit event can be built from them again. *)
Lemma create_artifact_ids_accepted (request : CreateArtifactRequest)
  (user : string) (fr : Fresh) (st st1 : State) (resp : JWSResponse)
  (a : Artifact) (act : AuditAction) (who : string) (fr2 : Fresh) (st2 : State) :
  create_artifact request user fr st = (Returned resp, st1) ->
  Artifact_new (req_artifact request) = Ok a ->
  exists ev : AuditEvent,
    log_audit_event act who (Some (id_str a)) (Some (JStr (workspaceId_str a))) fr2 st2
    = (Ok tt, {| storage := storage st2; audit_logs := audit_logs st2 ++ [ev] |})
    /\ action ev = act /\ actor ev = who.
Proof.
  intros Hcreate Ha. revert Hcreate.
  unfold create_artifact, create_artifact_body, and_then, lift, pure, store.
  rewrite Ha. destruct (validate a) as [[]|e]; [|discriminate].
  assert (Hfrom : forall (tok : option string) (st0 : State),
             match
               match log_audit_event CREATE user (Some (id_str a))
                       (Some (JStr (workspaceId_str a))) fr st0 with
               | (Ok _, st3) =>
                   (Ok {| jws := match tok with Some t => t | None => "" end;
                          artifact_id := id_str a;
                          workspace_id := workspaceId_str a |}, st3)
               | (Raise e, st3) => (Raise e, st3)
               end
             with
             | (Ok r, st3) => (Returned r, st3)
             | (Raise e, st3) => (HTTPException 400 (exc_str e), st3)
             end = (Returned resp, st1) ->
             exists ev,
               log_audit_event act who (Some (id_str a))
                 (Some (JStr (workspaceId_str a))) fr2 st2
               = (Ok tt, {| storage := storage st2;
                            audit_logs := audit_logs st2 ++ [ev] |})
               /\ action ev = act /\ actor ev = who).
  { intros tok st0. unfold log_audit_event, and_then, lift.
    destruct (truthy (Some (id_str a))) as [s|];
      [destruct (UUID s) as [u|e1]; cbn [bind]|];
      destruct (workspace_uuid (Some (JStr (workspaceId_str a))));
      try discriminate; intros _; eexists; repeat split. }
  destruct (req_sign request).
  - destruct (signer_sign a (fresh_nonce fr)) as [tok|e]; [|discriminate].
    destruct (Storage.store_artifact (storage st) (id_str a) _) as [b|e];
      [|discriminate].
    apply (Hfrom (Some tok)).
  - destruct (Storage.store_artifact (storage st) (id_str a) _) as [b|e];
      [|discriminate].
    apply (Hfrom None).
Qed.

(** On a storage that gives back what it was given, an artifact that has
    been created can be read: when [create_artifact] has returned, a get
    of the [artifact_id] of its response returns the document made of the
    dump of the artifact and of the token of the response (no jws, and an
    empty token in the response, when no signature was asked for), and
    appends a READ event.  The dump is taken to be a JSON document that
    carries the workspaceId of the artifact as a str. *)
Theorem create_then_get (request : CreateArtifactRequest) (user user2 : string)
  (fr fr2 : Fresh) (st st1 : State) (resp : JWSResponse) (a : Artifact) :
  (forall (b b' : B) (id : string) (doc : json),
      wf doc = true -> Storage.store_artifact b id doc = Ok b' ->
      Storage.get_artifact b' id = Ok (Some doc)) ->
  create_artifact request user fr st = (Returned resp, st1) ->
  Artifact_new (req_artifact request) = Ok a ->
  wf (model_dump a) = true ->
  dict_get_method (model_dump a) "workspaceId" = Ok (Some (JStr (workspaceId_str a))) ->
  exists (doc : json) (ev : AuditEvent),
    doc = stored_document a (if req_sign request then Some (jws resp) else None)
    /\ (req_sign request = false -> jws resp = "")
    /\ get_artifact (artifact_id resp) user2 fr2 st1
       = (Returned doc,
          {| storage := storage st1; audit_logs := audit_logs st1 ++ [ev] |})
    /\ action ev = READ /\ actor ev = user2.
Proof.
  clear verifier_verify uuid_eq_str. intros Hlaw Hcreate Ha Hwf Hws.
  destruct (create_artifact_returned _ _ _ _ _ _ Hcreate)
    as (a' & token & Ha' & _ & Hid & Hwid & Htok & Hstore).
  assert (a' = a) as -> by congruence.
  assert (Htoken : token = if req_sign request then Some (jws resp) else None).
  { destruct (req_sign request); tauto. }
  rewrite Htoken in Hstore. clear Htoken.
  set (doc := stored_document a (if req_sign request then Some (jws resp) else None))
    in *.
  assert (Hdoc : wf doc = true).
  { unfold doc, stored_document. destruct (req_sign request); cbn; rewrite Hwf;
      reflexivity. }
  assert (Hsub : ArtifactPy.subscript doc "artifact" = Ok (model_dump a)).
  { unfold doc, stored_document. destruct (req_sign request); reflexivity. }
  assert (Hfalsy : falsy (Some doc) = false).
  { unfold doc, stored_document. destruct (req_sign request); reflexivity. }
  pose proof (Hlaw _ _ _ _ Hdoc Hstore) as Hget.
  destruct (create_artifact_ids_accepted _ _ _ _ _ _ a READ user2 fr2 st1 Hcreate Ha)
    as (ev & Hlog & Hact & Hwho).
  exists doc, ev. split; [reflexivity|].
  split; [intros Hs; rewrite Hs in Htok; tauto|].
  split; [|split; assumption].
  unfold get_artifact, fetch, and_then, lift.
  rewrite Hid, Hget, Hfalsy, Hsub, Hws, Hlog. reflexivity.
Qed.

(** *** The listing endpoint *)

(** [list_artifacts]: the ids the storage lists, and how many they are.
    [listing] is the method [list_artifacts] of the backend in use. *)
Definition list_artifacts (listing : B -> option string -> result (list string))
  (workspace_id : option string) (current_user : string) (st : State)
  : outcome json * State :=
  match listing (storage st) workspace_id with
  | Ok artifact_ids =>
      (Returned (JObj [("artifacts", JArr (map JStr artifact_ids));
                       ("count", JInt (Z.of_nat (length artifact_ids)))]), st)
  | Raise e => (Uncaught e, st)
  end.

(** *** Calls that only read *)

Definition is_create (c : Call) : bool :=
  match c with
  | CallCreate _ _ _ => true
  | _ => false
  end.

Lemma serve_one_reads (c : Call) (st : State) :
  is_create c = false -> storage (snd (serve_one c st)) = storage st.
Proof.
  destruct c as [request user fr|id user fr|tok user fr|a w limit];
    [discriminate|intros _; cbn [serve_one]..].
  - destruct (get_artifact id user fr st) as [out st'] eqn:E. cbn [snd].
    destruct (get_artifact_unaudited id user fr st) as [[d H]|H]; rewrite E in H.
    + cbn in H. subst out.
      destruct (get_artifact_audited _ _ _ _ _ _ E) as (ev & _ & Hs & _).
      exact Hs.
    + cbn in H. now subst st'.
  - pose proof (verify_artifact_cases tok user fr st) as Hc.
    destruct (verifier_verify tok) as [a|e].
    + destruct Hc as [(ev & -> & _)|(e & ->)]; reflexivity.
    + rewrite Hc. reflexivity.
  - reflexivity.
Qed.

(** Only a create writes to the storage: over any sequence of calls to
    the get, verify and audit query endpoints, whatever their outcomes,
    the storage at the end is the storage at the start. *)
Theorem only_create_writes_storage (calls : list Call) (st : State) :
  forallb (fun c => negb (is_create c)) calls = true ->
  storage (snd (serve calls st)) = storage st.
Proof.
  revert st. induction calls as [|c rest IH]; intros st; [reflexivity|].
  cbn [forallb serve]. intros H. apply andb_true_iff in H as [Hc Hrest].
  apply negb_true_iff in Hc.
  pose proof (serve_one_reads c st Hc) as H1.
  destruct (serve_one c st) as [ok st1]. cbn [snd] in H1.
  specialize (IH st1 Hrest).
  destruct (serve rest st1) as [n st2]. cbn [snd] in *. congruence.
Qed.

(** *** Reading an artifact that names no workspace *)

(** A read of a document whose artifact has no workspaceId (or a falsy
    one: null, an empty str) is logged under the nil UUID.  For a document
    the storage holds under an id that [UUID] takes (a non-empty one),
    truthy, with a dict under artifact, the get returns the document and
    appends a READ event whose artifactId is the UUID of the id and whose
    workspaceId is [UUID(zero_uuid)].  The audit query for the nil
    workspace with limit 1 then returns this event if the dumped
    workspaceId compares equal to the str of the query, and nothing if it
    does not. *)
Theorem read_without_workspace_is_logged_under_nil (artifact_id user : string)
  (fr : Fresh) (st : State) (d art : json) (ws : option json) (u z : uuid) :
  Storage.get_artifact (storage st) artifact_id = Ok (Some d) ->
  falsy (Some d) = false ->
  ArtifactPy.subscript d "artifact" = Ok art ->
  dict_get_method art "workspaceId" = Ok ws ->
  falsy ws = true ->
  artifact_id <> "" -> UUID artifact_id = Ok u ->
  UUID zero_uuid = Ok z ->
  exists ev : AuditEvent,
    get_artifact artifact_id user fr st
    = (Returned d, {| storage := storage st; audit_logs := audit_logs st ++ [ev] |})
    /\ action ev = READ /\ artifactId ev = Some u /\ workspaceId ev = z
    /\ get_audit_events None (Some zero_uuid) 1
         {| storage := storage st; audit_logs := audit_logs st ++ [ev] |}
       = (if uuid_eq_str z zero_uuid then [ev] else []).
Proof.
  intros Hget Hd Hart Hws Hfalsy Hne Hu Hz.
  eexists. split; [|split; [|split; [|split]]].
  - unfold get_artifact, fetch, and_then, lift.
    rewrite Hget, Hd, Hart, Hws.
    unfold log_audit_event, and_then, lift, workspace_uuid.
    rewrite (truthy_nonempty _ Hne), Hu, Hfalsy, Hz. cbn [bind]. reflexivity.
  - reflexivity.
  - reflexivity.
  - reflexivity.
  - unfold get_audit_events. cbn [audit_logs truthy zero_uuid].
    rewrite (slice_from_neg 1) by lia. unfold last_n.
    rewrite List.length_app. cbn [length].
    replace (length (audit_logs st) + 1 - Z.to_nat 1)%nat
      with (length (audit_logs st)) by lia.
    rewrite drop_app_length. cbn [List.filter id_matches workspaceId].
    change (String "0" "0000000-0000-0000-0000-000000000000") with zero_uuid.
    now destruct (uuid_eq_str z zero_uuid).
Qed.

End WithCore.

Arguments eventId {uuid} a.
Arguments artifactId {uuid} a.
Arguments workspaceId {uuid} a.
Arguments action {uuid} a.
Arguments actor {uuid} a.
Arguments timestamp {uuid} a.
Arguments metadata {uuid} a.
Arguments Build_AuditEvent {uuid} eventId artifactId workspaceId action actor
  timestamp metadata.
Arguments storage {uuid B} s.
Arguments audit_logs {uuid B} s.
Arguments Build_State {uuid B} storage audit_logs.
Arguments fresh_eventId {uuid} f.
Arguments fresh_timestamp {uuid} f.
Arguments fresh_nonce {uuid} f.
Arguments Build_Fresh {uuid} fresh_eventId fresh_timestamp fresh_nonce.

End Server.

(* ====================================================================== *)
(** ** The server over the file system backend                              *)
(* ====================================================================== *)

(** The deployment the configuration gives by default ([STORAGE_TYPE] is
    local): the endpoints of [Server] over [Storage.LocalStorage], whose
    method [list_artifacts] the listing endpoint calls. *)

Module LocalDeployment.
Import Str Json Py.

Section WithCore.

Variable uuid : Type.
Variable UUID : string -> result uuid.
Variable Artifact : Type.
Variable Artifact_new : json -> result Artifact.
Variable validate : Artifact -> result unit.
Variable id_str : Artifact -> string.
Variable workspaceId_str : Artifact -> string.
Variable model_dump : Artifact -> json.
Variable signer_sign : Artifact -> N -> result string.

Definition State : Type := @Server.State uuid Storage.LocalStorage.

Definition create_artifact :=
  @Server.create_artifact uuid UUID Artifact Artifact_new validate id_str
    workspaceId_str model_dump signer_sign Storage.LocalStorage
    Storage.LocalStorage_backend.

Definition list_artifacts : option string -> string -> State
                            -> Server.outcome json * State :=
  @Server.list_artifacts uuid Storage.LocalStorage Storage.local_list_artifacts.

(** The body of a listing response. *)
Definition listing_body (ids : list string) : json :=
  JObj [("artifacts", JArr (map JStr ids)); ("count", JInt (Z.of_nat (length ids)))].

(** An artifact that has been created is listed: after [create_artifact]
    has returned, the listing without a filter returns, whatever else the
    directory holds, a body whose artifacts hold the [artifact_id] of the
    response and whose count is the number of ids listed; the listing
    changes nothing, and it writes no audit event.  (The id is a file
    name: not empty, without a slash.) *)
Theorem created_artifact_is_listed (request : Server.CreateArtifactRequest)
  (user user2 : string) (fr : Server.Fresh uuid) (st st1 : State)
  (resp : Server.JWSResponse) :
  create_artifact request user fr st = (Server.Returned resp, st1) ->
  Storage.has_char "/" (Server.artifact_id resp) = false ->
  Server.artifact_id resp <> "" ->
  exists ids : list string,
    list_artifacts None user2 st1 = (Server.Returned (listing_body ids), st1)
    /\ list_artifacts (Some "") user2 st1 = (Server.Returned (listing_body ids), st1)
    /\ In (Server.artifact_id resp) ids.
Proof.
  intros Hcreate Hslash Hne.
  destruct (Server.create_artifact_returned _ _ _ _ _ _ _ _ _ _ _ _ _ _ _ Hcreate)
    as (a & token & _ & _ & Hid & _ & _ & Hstore).
  rewrite <- Hid in Hstore.
  destruct (Storage.stored_id_in_listing _ _ _ _ None Hslash Hne eq_refl Hstore)
    as (ids & Hl & Hin).
  exists ids. unfold list_artifacts, Server.list_artifacts.
  assert (Hl2 : Storage.local_list_artifacts (Server.storage st1) (Some "") = Ok ids).
  { unfold Storage.local_list_artifacts in *.
    rewrite Storage.list_entries_unfiltered in Hl |- * by reflexivity. exact Hl. }
  rewrite Hl, Hl2. repeat split. exact Hin.
Qed.

End WithCore.

End LocalDeployment.

(* ====================================================================== *)
(** ** A small deployment, to run the endpoints                             *)
(* ====================================================================== *)

(** The endpoints of [Server] are stated over the fedmcp package and the
    uuid module.  [RefServer] fills them in with values that compute: a
    UUID is kept as its text, an Artifact is a valid artifact dict, the
    signer and the verifier are the functions of [fedmcp/artifact.py] over
    [RefJws], for the key k1 and the workspace ws-1, and the storage is the
    file system backend. *)

Module RefServer.
Import Str Json Py.

Definition UUID (s : string) : result string :=
  match s with
  | "" => Raise (mkExc "ValueError" "badly formed hexadecimal UUID string")
  | _ => Ok s
  end.

Definition Artifact_new (fields : json) : result json :=
  if ArtifactPy.valid_artifact fields then Ok fields
  else Raise (mkExc "ValidationError" "the fields are not those of an Artifact").

Definition validate (a : json) : result unit := Ok tt.

Definition str_field (key : string) (a : json) : string :=
  match ArtifactPy.subscript a key with
  | Ok (JStr s) => s
  | _ => ""
  end.

Definition signer_sign (a : json) (nonce : N) : result string :=
  RefJws.sign_artifact a "PRIVATE k1" "kid-1" nonce.

Definition verifier_verify (token : string) : result json :=
  RefJws.verify_artifact token "PUBLIC k1" "ws-1".

Definition AuditEvent : Type := Server.AuditEvent string.
Definition State : Type := @Server.State string Storage.LocalStorage.
Definition Fresh : Type := Server.Fresh string.

Definition create_artifact :=
  @Server.create_artifact string UUID json Artifact_new validate
    (str_field "id") (str_field "workspaceId") (fun a => a) signer_sign
    Storage.LocalStorage Storage.LocalStorage_backend.

Definition get_artifact :=
  @Server.get_artifact string UUID Storage.LocalStorage Storage.LocalStorage_backend.

Definition verify_artifact :=
  @Server.verify_artifact string UUID json (str_field "id")
    (str_field "workspaceId") (fun a => a) verifier_verify Storage.LocalStorage.

Definition get_audit_events :=
  @Server.get_audit_events string String.eqb Storage.LocalStorage.

Definition query_as_specified :=
  @Server.query_as_specified string String.eqb Storage.LocalStorage.

Definition fresh (n : N) (event_id : string) : Fresh :=
  {| Server.fresh_eventId := event_id;
     Server.fresh_timestamp := "2025-01-01T00:00:00+00:00";
     Server.fresh_nonce := n |}.

Definition st0 : State :=
  {| Server.storage := Storage.mkLocalStorage "/tmp/fedmcp" ∅;
     Server.audit_logs := [] |}.

(** The scenario of the specification: create, then get, then verify. *)
Definition request1 : Server.CreateArtifactRequest :=
  {| Server.req_artifact := RefJws.example_artifact; Server.req_sign := true |}.

Definition created : Server.outcome Server.JWSResponse * State :=
  create_artifact request1 "user:alice" (fresh 1 "e-1") st0.

Definition token1 : string :=
  match fst created with
  | Server.Returned r => Server.jws r
  | _ => ""
  end.

Definition fetched : Server.outcome json * State :=
  get_artifact "a1" "user:bob" (fresh 2 "e-2") (snd created).

Definition verified : Server.outcome Server.VerifyResponse * State :=
  verify_artifact token1 "user:carol" (fresh 3 "e-3") (snd fetched).

Definition event (event_id artifact workspace who : string)
  (act : Server.AuditAction) : AuditEvent :=
  {| Server.eventId := event_id; Server.artifactId := Some artifact;
     Server.workspaceId := workspace; Server.action := act; Server.actor := who;
     Server.timestamp := "2025-01-01T00:00:00+00:00"; Server.metadata := [] |}.

Example scenario_runs :
  fst created
  = Server.Returned {| Server.jws := token1; Server.artifact_id := "a1";
                       Server.workspace_id := "ws-1" |}
  /\ token1 <> ""
  /\ fst fetched
     = Server.Returned (JObj [("artifact", RefJws.example_artifact);
                              ("jws", JStr token1)])
  /\ fst verified
     = Server.Returned {| Server.valid := true;
                          Server.artifact := Some RefJws.example_artifact;
                          Server.error := None |}
  /\ Server.audit_logs (snd verified)
     = [event "e-1" "a1" "ws-1" "user:alice" Server.CREATE;
        event "e-2" "a1" "ws-1" "user:bob" Server.READ;
        event "e-3" "a1" "ws-1" "user:carol" Server.VERIFY].
Proof. vm_compute. repeat split; try reflexivity. discriminate. Qed.

(** Tokens that fail verification, each for a cause of its own. *)
Definition token_other_workspace : string :=
  match RefJws.sign_artifact
          (JObj [("id", JStr "a2"); ("workspaceId", JStr "ws-2")])
          "PRIVATE k1" "kid-1" 4 with
  | Ok t => t
  | Raise _ => ""
  end.

Definition token_other_key : string :=
  match RefJws.sign_artifact RefJws.example_artifact "PRIVATE k2" "kid-1" 5 with
  | Ok t => t
  | Raise _ => ""
  end.

Definition failure (text : string) : Server.VerifyResponse :=
  {| Server.valid := false; Server.artifact := None; Server.error := Some text |}.

(** A log of three events, the oldest first. *)
Definition log3 : list AuditEvent :=
  [event "e-1" "a1" "ws-1" "user:alice" Server.CREATE;
   event "e-2" "a2" "ws-1" "user:alice" Server.CREATE;
   event "e-3" "a1" "ws-1" "user:bob" Server.READ].

Definition st3 : State :=
  {| Server.storage := Storage.mkLocalStorage "/tmp/fedmcp" ∅;
     Server.audit_logs := log3 |}.

(** *** Concrete runs of the claims *)

Lemma audit_completeness_witness :
  (exists (ev : AuditEvent) (u : string),
      Server.audit_logs (snd created) = Server.audit_logs st0 ++ [ev]
      /\ Server.action ev = Server.CREATE
      /\ UUID "a1" = Ok u /\ Server.artifactId ev = Some u)
  /\ (exists (ev : AuditEvent) (u : string),
        Server.audit_logs (snd fetched) = Server.audit_logs (snd created) ++ [ev]
        /\ Server.action ev = Server.READ
        /\ UUID "a1" = Ok u /\ Server.artifactId ev = Some u)
  /\ (exists (a : json) (ev : AuditEvent),
        verifier_verify token1 = Ok a
        /\ Some RefJws.example_artifact = Some a
        /\ Server.audit_logs (snd verified) = Server.audit_logs (snd fetched) ++ [ev]
        /\ Server.action ev = Server.VERIFY
        /\ (str_field "id" a <> "" ->
            exists u, UUID (str_field "id" a) = Ok u /\ Server.artifactId ev = Some u)).
Proof.
  destruct (@Server.audit_completeness string UUID json Artifact_new validate
              (str_field "id") (str_field "workspaceId") (fun a => a) signer_sign
              verifier_verify Storage.LocalStorage Storage.LocalStorage_backend)
    as (Hcreate & Hget & Hverify).
  split; [|split].
  - apply (Hcreate request1 "user:alice" (fresh 1 "e-1") st0 (snd created)
             {| Server.jws := token1; Server.artifact_id := "a1";
                Server.workspace_id := "ws-1" |});
      [vm_compute; reflexivity | discriminate].
  - apply (Hget "a1" "user:bob" (fresh 2 "e-2") (snd created) (snd fetched)
             (JObj [("artifact", RefJws.example_artifact); ("jws", JStr token1)]));
      [vm_compute; reflexivity | discriminate].
  - apply (Hverify token1 "user:carol" (fresh 3 "e-3") (snd fetched) (snd verified)
             {| Server.valid := true; Server.artifact := Some RefJws.example_artifact;
                Server.error := None |});
      [vm_compute; reflexivity | reflexivity].
Defined.

Lemma audit_query_window_witness :
  get_audit_events (Some "a1") None 2 st3
  = List.filter (Server.event_wanted string String.eqb (Some "a1") None)
      (Server.last_n 2 (Server.audit_logs st3))
  /\ (length (get_audit_events (Some "a1") None 2 st3) <= 2)%nat
  /\ (forall e : AuditEvent,
        In e (get_audit_events (Some "a1") None 2 st3) ->
        (forall a, Server.truthy (Some "a1") = Some a ->
                   Server.id_matches string String.eqb (Server.artifactId e) a = true)
        /\ (forall w, Server.truthy None = Some w ->
                      Server.id_matches string String.eqb
                        (Some (Server.workspaceId e)) w = true))
  /\ sublist (get_audit_events (Some "a1") None 2 st3) (Server.audit_logs st3).
Proof.
  apply (@Server.audit_query_window string String.eqb Storage.LocalStorage
           (Some "a1") None 2 st3).
  reflexivity.
Defined.

(** C6 fails as stated.  On a log of three events: a query for two events
    returns them oldest first, not most recent first; a query for one event
    of artifact a2 returns none, because the limit has kept the last event
    only before the filter ran; and a query with limit 0 returns the whole
    log. *)
Lemma audit_query_differs_from_specified :
  get_audit_events None None 2 st3
  = [event "e-2" "a2" "ws-1" "user:alice" Server.CREATE;
     event "e-3" "a1" "ws-1" "user:bob" Server.READ]
  /\ query_as_specified None None 2 st3
     = [event "e-3" "a1" "ws-1" "user:bob" Server.READ;
        event "e-2" "a2" "ws-1" "user:alice" Server.CREATE]
  /\ get_audit_events (Some "a2") None 1 st3 = []
  /\ query_as_specified (Some "a2") None 1 st3
     = [event "e-2" "a2" "ws-1" "user:alice" Server.CREATE]
  /\ get_audit_events None None 0 st3 = log3
  /\ length log3 = 3%nat.
Proof. repeat split; reflexivity. Qed.

Lemma verify_error_is_exception_text_witness :
  fst (verify_artifact token_other_workspace "user:carol" (fresh 3 "e-3") st0)
  = Server.Returned (failure (exc_str ArtifactPy.workspace_mismatch))
  /\ (fst (verify_artifact token_other_workspace "user:carol" (fresh 3 "e-3") st0)
      = fst (verify_artifact token_other_key "user:dave" (fresh 4 "e-4") st3)
      <-> exc_str ArtifactPy.workspace_mismatch
          = exc_str (mkExc "InvalidJWSSignature" "Verification failed for all signatures")).
Proof.
  apply (@Server.verify_error_is_exception_text string UUID json (str_field "id")
           (str_field "workspaceId") (fun a => a) verifier_verify
           Storage.LocalStorage token_other_workspace token_other_key
           "user:carol" "user:dave" (fresh 3 "e-3") (fresh 4 "e-4") st0 st3
           ArtifactPy.workspace_mismatch
           (mkExc "InvalidJWSSignature" "Verification failed for all signatures"));
    vm_compute; reflexivity.
Defined.

(** C9 fails as stated.  Three tokens fail verification, one because its
    artifact belongs to another workspace, one because its signature is
    not of the registered key, one because it is malformed: the error of
    each response is the text of its own exception, so the response tells
    which check failed; the first one tells that the signature was valid. *)
Lemma verify_errors_tell_causes_apart :
  fst (verify_artifact token_other_workspace "user:carol" (fresh 3 "e-3") st0)
  = Server.Returned (failure "workspaceId mismatch")
  /\ fst (verify_artifact token_other_key "user:carol" (fresh 3 "e-3") st0)
     = Server.Returned (failure "Verification failed for all signatures")
  /\ fst (verify_artifact "x.y.z" "user:carol" (fresh 3 "e-3") st0)
     = Server.Returned (failure "Invalid format").
Proof. repeat split; vm_compute; reflexivity. Qed.

Lemma failed_verification_witness :
  verify_artifact token_other_key "user:carol" (fresh 3 "e-3") st3
  = (Server.Returned (failure "Verification failed for all signatures"), st3).
Proof.
  apply (proj1 (@Server.failed_verification_not_audited string UUID json
                  (str_field "id") (str_field "workspaceId") (fun a => a)
                  verifier_verify Storage.LocalStorage token_other_key
                  "user:carol" (fresh 3 "e-3") st3)
           (mkExc "InvalidJWSSignature" "Verification failed for all signatures")).
  vm_compute. reflexivity.
Defined.

(** *** Runs of the further properties of the endpoints *)

(** The same deployment over the object storage backend, which gives
    back what it was given under any id. *)
Definition st0_s3 : @Server.State string Storage.S3Storage :=
  {| Server.storage := Storage.mkS3Storage "fedmcp-artifacts" ∅;
     Server.audit_logs := [] |}.

Definition created_s3
  : Server.outcome Server.JWSResponse * @Server.State string Storage.S3Storage :=
  @Server.create_artifact string UUID json Artifact_new validate
    (str_field "id") (str_field "workspaceId") (fun a => a) signer_sign
    Storage.S3Storage Storage.S3Storage_backend
    request1 "user:alice" (fresh 1 "e-1") st0_s3.

Lemma create_then_get_witness :
  exists (doc : json) (ev : AuditEvent),
    doc = JObj [("artifact", RefJws.example_artifact); ("jws", JStr token1)]
    /\ (true = false -> token1 = "")
    /\ @Server.get_artifact string UUID Storage.S3Storage Storage.S3Storage_backend
         "a1" "user:bob" (fresh 2 "e-2") (snd created_s3)
       = (Server.Returned doc,
          {| Server.storage := Server.storage (snd created_s3);
             Server.audit_logs := Server.audit_logs (snd created_s3) ++ [ev] |})
    /\ Server.action ev = Server.READ /\ Server.actor ev = "user:bob".
Proof.
  apply (@Server.create_then_get string UUID json Artifact_new validate
           (str_field "id") (str_field "workspaceId") (fun a => a) signer_sign
           Storage.S3Storage Storage.S3Storage_backend
           request1 "user:alice" "user:bob" (fresh 1 "e-1") (fresh 2 "e-2")
           st0_s3 (snd created_s3)
           {| Server.jws := token1; Server.artifact_id := "a1";
              Server.workspace_id := "ws-1" |}
           RefJws.example_artifact Storage.s3_store_get_law);
    vm_compute; reflexivity.
Defined.

(** The file system backend does the same for the artifact of the
    scenario, whose id is a file name. *)
Example create_then_get_local :
  fst (get_artifact "a1" "user:bob" (fresh 2 "e-2") (snd created))
  = Server.Returned (JObj [("artifact", RefJws.example_artifact);
                           ("jws", JStr token1)]).
Proof. vm_compute. reflexivity. Qed.

Lemma created_artifact_is_listed_witness :
  exists ids : list string,
    LocalDeployment.list_artifacts string None "user:bob" (snd created)
    = (Server.Returned (LocalDeployment.listing_body ids), snd created)
    /\ LocalDeployment.list_artifacts string (Some "") "user:bob" (snd created)
       = (Server.Returned (LocalDeployment.listing_body ids), snd created)
    /\ In "a1" ids.
Proof.
  apply (LocalDeployment.created_artifact_is_listed string UUID json Artifact_new
           validate (str_field "id") (str_field "workspaceId") (fun a => a)
           signer_sign request1 "user:alice" "user:bob" (fresh 1 "e-1") st0
           (snd created)
           {| Server.jws := token1; Server.artifact_id := "a1";
              Server.workspace_id := "ws-1" |});
    [vm_compute; reflexivity | reflexivity | discriminate].
Defined.

Example listing_after_create :
  fst (LocalDeployment.list_artifacts string None "user:bob" (snd created))
  = Server.Returned (JObj [("artifacts", JArr [JStr "a1"]); ("count", JInt 1)])
  /\ fst (LocalDeployment.list_artifacts string (Some "ws-1") "user:bob" (snd created))
     = Server.Returned (JObj [("artifacts", JArr [JStr "a1"]); ("count", JInt 1)])
  /\ fst (LocalDeployment.list_artifacts string (Some "ws-2") "user:bob" (snd created))
     = Server.Returned (JObj [("artifacts", JArr []); ("count", JInt 0)]).
Proof. repeat split; vm_compute; reflexivity. Qed.

Lemma audit_query_nonpositive_limit_witness :
  get_audit_events None None 0 st3
  = List.filter (Server.event_wanted string String.eqb None None)
      (drop (Z.to_nat (- 0)) (Server.audit_logs st3))
  /\ (0 = 0 ->
      get_audit_events None None 0 st3
      = List.filter (Server.event_wanted string String.eqb None None)
          (Server.audit_logs st3))
  /\ (0 = 0 -> Server.truthy None = None -> Server.truthy None = None ->
      get_audit_events None None 0 st3 = Server.audit_logs st3).
Proof.
  apply (@Server.audit_query_nonpositive_limit string String.eqb
           Storage.LocalStorage None None 0 st3).
  lia.
Defined.

Example audit_query_negative_limit :
  get_audit_events None None (-1) st3
  = [event "e-2" "a2" "ws-1" "user:alice" Server.CREATE;
     event "e-3" "a1" "ws-1" "user:bob" Server.READ]
  /\ get_audit_events None None (-3) st3 = []
  /\ get_audit_events (Some "a1") None 0 st3
     = [event "e-1" "a1" "ws-1" "user:alice" Server.CREATE;
        event "e-3" "a1" "ws-1" "user:bob" Server.READ].
Proof. repeat split; reflexivity. Qed.

(** A document that is falsy reads as if it were not there. *)
Example empty_document_is_not_found :
  get_artifact "a9" "user:bob" (fresh 2 "e-2")
    {| Server.storage :=
         Storage.mkLocalStorage "/tmp/fedmcp" {[ "/tmp/fedmcp/a9.json" := "{}" ]};
       Server.audit_logs := [] |}
  = (Server.HTTPException 404 "Artifact not found",
     {| Server.storage :=
          Storage.mkLocalStorage "/tmp/fedmcp" {[ "/tmp/fedmcp/a9.json" := "{}" ]};
        Server.audit_logs := [] |}).
Proof. reflexivity. Qed.

(** *** Sequences of calls *)

Definition serve :=
  @Server.serve string UUID String.eqb json Artifact_new validate
    (str_field "id") (str_field "workspaceId") (fun a => a) signer_sign
    verifier_verify Storage.LocalStorage Storage.LocalStorage_backend.

Definition reads : list (Server.Call string) :=
  [Server.CallGet string "a1" "user:bob" (fresh 2 "e-2");
   Server.CallGet string "a404" "user:bob" (fresh 3 "e-3");
   Server.CallVerify string token1 "user:carol" (fresh 4 "e-4");
   Server.CallVerify string token_other_key "user:carol" (fresh 5 "e-5");
   Server.CallQuery string (Some "a1") None 10].

Lemma only_create_writes_storage_witness :
  Server.storage (snd (serve reads (snd created))) = Server.storage (snd created).
Proof.
  apply (@Server.only_create_writes_storage string UUID String.eqb json Artifact_new
           validate (str_field "id") (str_field "workspaceId") (fun a => a)
           signer_sign verifier_verify Storage.LocalStorage
           Storage.LocalStorage_backend reads (snd created)).
  reflexivity.
Defined.

(** Five calls: a get and a verification that succeed, a get and a
    verification that fail, and a query that returns the three events of
    the artifact.  Two events more in the log. *)
Example serve_reads :
  map (Server.tells_of_artifact string) (fst (serve reads (snd created)))
  = [true; false; true; false; false]
  /\ Server.audit_logs (snd (serve reads (snd created)))
     = Server.audit_logs (snd created)
       ++ [event "e-2" "a1" "ws-1" "user:bob" Server.READ;
           event "e-4" "a1" "ws-1" "user:carol" Server.VERIFY].
Proof. split; vm_compute; reflexivity. Qed.

(** *** A document without a workspace *)

Definition st7 : State :=
  {| Server.storage :=
       Storage.mkLocalStorage "/tmp/fedmcp"
         {[ "/tmp/fedmcp/a7.json" := qq "{'artifact': {'id': 'a7', 'workspaceId': null}}" ]};
     Server.audit_logs := log3 |}.

Lemma read_without_workspace_is_logged_under_nil_witness :
  exists ev : AuditEvent,
    get_artifact "a7" "user:bob" (fresh 2 "e-9") st7
    = (Server.Returned (JObj [("artifact", JObj [("id", JStr "a7");
                                                 ("workspaceId", JNull)])]),
       {| Server.storage := Server.storage st7;
          Server.audit_logs := Server.audit_logs st7 ++ [ev] |})
    /\ Server.action ev = Server.READ
    /\ Server.artifactId ev = Some "a7"
    /\ Server.workspaceId ev = Server.zero_uuid
    /\ get_audit_events None (Some Server.zero_uuid) 1
         {| Server.storage := Server.storage st7;
            Server.audit_logs := Server.audit_logs st7 ++ [ev] |}
       = (if String.eqb Server.zero_uuid Server.zero_uuid then [ev] else []).
Proof.
  apply (@Server.read_without_workspace_is_logged_under_nil string UUID String.eqb
           Storage.LocalStorage Storage.LocalStorage_backend
           "a7" "user:bob" (fresh 2 "e-9") st7
           (JObj [("artifact", JObj [("id", JStr "a7"); ("workspaceId", JNull)])])
           (JObj [("id", JStr "a7"); ("workspaceId", JNull)])
           (Some JNull) "a7" Server.zero_uuid);
    first [reflexivity | discriminate].
Defined.

(** With ids dumped as values that no str equals, the event is logged all
    the same and the query by workspace finds nothing. *)
Example query_by_workspace_finds_nothing :
  exists ev : AuditEvent,
    get_artifact "a7" "user:bob" (fresh 2 "e-9") st7
    = (Server.Returned (JObj [("artifact", JObj [("id", JStr "a7");
                                                 ("workspaceId", JNull)])]),
       {| Server.storage := Server.storage st7;
          Server.audit_logs := Server.audit_logs st7 ++ [ev] |})
    /\ Server.workspaceId ev = Server.zero_uuid
    /\ @Server.get_audit_events string (fun _ _ => false) Storage.LocalStorage
         None (Some Server.zero_uuid) 1
         {| Server.storage := Server.storage st7;
            Server.audit_logs := Server.audit_logs st7 ++ [ev] |}
       = [].
Proof. eexists. split; [reflexivity|]. split; reflexivity. Qed.

(** *** A deployment whose [UUID] refuses what is no UUID *)

(** [s] without its [n] first characters, when they are hexadecimal
    digits. *)
Fixpoint hex_run (n : nat) (s : string) : option string :=
  match n with
  | O => Some s
  | S k =>
      match s with
      | String c r =>
          match Json.hex_val c with
          | Some _ => hex_run k r
          | None => None
          end
      | "" => None
      end
  end.

Definition after_hyphen (s : option string) : option string :=
  match s with
  | Some (String "-" r) => Some r
  | _ => None
  end.

(** The canonical form only: five groups of 8, 4, 4, 4 and 12 hexadecimal
    digits, with hyphens between them. *)
Definition UUID_canonical (s : string) : result string :=
  let r1 := after_hyphen (hex_run 8 s) in
  let r2 := after_hyphen (match r1 with Some r => hex_run 4 r | None => None end) in
  let r3 := after_hyphen (match r2 with Some r => hex_run 4 r | None => None end) in
  let r4 := after_hyphen (match r3 with Some r => hex_run 4 r | None => None end) in
  match (match r4 with Some r => hex_run 12 r | None => None end) with
  | Some "" => Ok s
  | _ => Raise (mkExc "ValueError" "badly formed hexadecimal UUID string")
  end.

Definition create_artifact_strict :=
  @Server.create_artifact string UUID_canonical json Artifact_new validate
    (str_field "id") (str_field "workspaceId") (fun a => a) signer_sign
    Storage.LocalStorage Storage.LocalStorage_backend.

Definition uuid_artifact : json :=
  JObj [("id", JStr "123e4567-e89b-12d3-a456-426614174000");
        ("type", JStr "policy"); ("version", JInt 1);
        ("workspaceId", JStr "9b2f0c1e-0000-4000-8000-000000000001");
        ("createdAt", JStr "2025-01-01T00:00:00+00:00");
        ("jsonBody", JObj [("rule", JStr "x")])].

(** The artifact of the scenario has the id a1 and the workspace ws-1,
    which are no UUIDs: the create stores its document, then fails on the
    audit event.  The answer is a 400, the log is empty, and the document
    is in the storage.  With ids that are UUIDs the create returns. *)
Example create_rejected_after_store :
  fst (create_artifact_strict request1 "user:alice" (fresh 1 "e-1") st0)
  = Server.HTTPException 400 "badly formed hexadecimal UUID string"
  /\ Server.audit_logs (snd (create_artifact_strict request1 "user:alice"
                               (fresh 1 "e-1") st0)) = []
  /\ Storage.local_get
       (Server.storage (snd (create_artifact_strict request1 "user:alice"
                               (fresh 1 "e-1") st0))) "a1"
     = Ok (Some (JObj [("artifact", RefJws.example_artifact); ("jws", JStr token1)]))
  /\ (exists resp,
        fst (create_artifact_strict
               {| Server.req_artifact := uuid_artifact; Server.req_sign := false |}
               "user:alice" (fresh 1 "e-1") st0) = Server.Returned resp
        /\ Server.jws resp = ""
        /\ Server.artifact_id resp = "123e4567-e89b-12d3-a456-426614174000").
Proof.
  split; [vm_compute; reflexivity|]. split; [vm_compute; reflexivity|].
  split; [vm_compute; reflexivity|]. eexists. split; [vm_compute; reflexivity|].
  split; reflexivity.
Qed.

End RefServer.

(* ====================================================================== *)
(** ** src/fed_server.py: the audit middleware                              *)
(* ====================================================================== *)

Module FedServer.
Import Str Json Py.

(** What the middleware reads of a request. *)
Record Request : Type := {
  body : string;
  url_path : string;
  method : string
}.

(** An event of a CloudWatch log stream, as [put_log_events] takes it. *)
Record LogEvent : Type := {
  logGroupName : string;
  logStreamName : string;
  log_timestamp : Z;
  message : string
}.

(** [x if s else y] for a setting of the environment: unset and empty
    are falsy. *)
Definition given (setting : option string) : option string :=
  match setting with
  | Some (String c r) => Some (String c r)
  | _ => None
  end.

Section WithServices.

(** The environment: [AUDIT_LOG_GROUP], and [AUDIT_LOG_STREAM] with its
    default. *)
Variable LOG_GROUP : option string.
Variable LOG_STREAM : string.

(** [hashlib.sha256(raw_body).hexdigest()] *)
Variable sha256_hexdigest : string -> string.

(** [get_analyzer().analyze(raw_body.decode("utf-8", "ignore"),
    language="en")]: the findings in the body, or the exception of the
    analyzer or of the loading of its model. *)
Variable Finding : Type.
Variable analyze : string -> result (list Finding).

(** The CloudWatch service: the events it holds, and what it refuses (a
    stream that does not exist, credentials, throttling). *)
Variable refuses : list LogEvent -> LogEvent -> option exc.

(** The application behind the middleware, and the headers of its
    responses. *)
Variable App : Type.
Variable Response : Type.
Variable call_next : Request -> App -> result Response * App.
Variable set_header : Response -> string -> string -> Response.
Variable get_header : Response -> string -> option string.

Hypothesis get_set_header :
  forall (r : Response) (name value : string),
    get_header (set_header r name value) name = Some value.

Record World : Type := {
  logs : list LogEvent;
  app : App
}.

Definition put_log_events (l : list LogEvent) (ev : LogEvent)
  : result unit * list LogEvent :=
  match refuses l ev with
  | Some e => (Raise e, l)
  | None => (Ok tt, l ++ [ev])
  end.

(** [_emit_audit]: nothing without a log group; [now_ms] is the clock
    read in milliseconds. *)
Definition _emit_audit (record : json) (now_ms : Z) (l : list LogEvent)
  : result unit * list LogEvent :=
  match given LOG_GROUP with
  | None => (Ok tt, l)
  | Some group =>
      put_log_events l {| logGroupName := group; logStreamName := LOG_STREAM;
                          log_timestamp := now_ms; message := dumps record |}
  end.

(** [bool(findings)] inside the [try], [False] from the [except]. *)
Definition contains_pii (raw_body : string) : bool :=
  match analyze raw_body with
  | Ok (_ :: _) => true
  | Ok [] => false
  | Raise _ => false
  end.

Definition audit_record (request : Request) (now_iso : string) : json :=
  JObj [("ts", JStr (now_iso +:+ "Z"));
        ("path", JStr (url_path request));
        ("method", JStr (method request));
        ("pii", JBool (contains_pii (body request)));
        ("sha256", JStr (sha256_hexdigest (body request)))].

(** [audit_middleware]; [now_iso] is the clock read by the middleware, as
    [isoformat] prints it, and [now_ms] the clock read by
    [_emit_audit]. *)
Definition audit_middleware (request : Request) (now_iso : string) (now_ms : Z)
  (w : World) : result Response * World :=
  let raw_body := body request in
  let sha256 := sha256_hexdigest raw_body in
  match _emit_audit (audit_record request now_iso) now_ms (logs w) with
  | (Raise e, l) => (Raise e, {| logs := l; app := app w |})
  | (Ok _, l) =>
      match call_next request (app w) with
      | (Raise e, a) => (Raise e, {| logs := l; app := a |})
      | (Ok response, a) =>
          (Ok (set_header response "X-Content-SHA256" sha256),
           {| logs := l; app := a |})
      end
  end.


(** The event [_emit_audit] sends for a request. *)
Definition audit_event (group : string) (request : Request) (now_iso : string)
  (now_ms : Z) : LogEvent :=
  {| logGroupName := group; logStreamName := LOG_STREAM; log_timestamp := now_ms;
     message := dumps (audit_record request now_iso) |}.

Lemma audit_record_reads_back (request : Request) (now_iso : string) :
  loads (dumps (audit_record request now_iso)) = Some (audit_record request now_iso).
Proof. apply loads_dumps. reflexivity. Qed.

(** The hash a response carries is the hash that was logged.  When the
    middleware returns a response, it is the response of the handler with
    the header X-Content-SHA256 set to the digest of the request body; and
    with a log group configured, exactly one event was added to the log,
    whose message is one line of printable JSON that reads back as the
    record of the request, with that same digest under sha256, the path
    and the method of the request, and a pii flag that is true only if the
    analyzer returned findings.  Without a log group the log is left
    alone. *)
Theorem response_hash_is_logged_hash (request : Request) (now_iso : string)
  (now_ms : Z) (w w' : World) (resp : Response) :
  audit_middleware request now_iso now_ms w = (Ok resp, w') ->
  get_header resp "X-Content-SHA256" = Some (sha256_hexdigest (body request))
  /\ (exists response : Response,
        call_next request (app w) = (Ok response, app w')
        /\ resp = set_header response "X-Content-SHA256"
                    (sha256_hexdigest (body request)))
  /\ match given LOG_GROUP with
     | None => logs w' = logs w
     | Some group =>
         exists (ev : LogEvent) (record : json),
           logs w' = logs w ++ [ev]
           /\ ev = audit_event group request now_iso now_ms
           /\ printable (message ev) = true
           /\ loads (message ev) = Some record
           /\ ArtifactPy.subscript record "sha256"
              = Ok (JStr (sha256_hexdigest (body request)))
           /\ ArtifactPy.subscript record "path" = Ok (JStr (url_path request))
           /\ ArtifactPy.subscript record "method" = Ok (JStr (method request))
           /\ exists pii : bool,
                ArtifactPy.subscript record "pii" = Ok (JBool pii)
                /\ (pii = true <->
                    exists f fs, analyze (body request) = Ok (f :: fs))
     end.
Proof.
  unfold audit_middleware, _emit_audit, put_log_events.
  assert (Hrec : forall group,
             exists (ev : LogEvent) (record : json),
               logs w ++ [audit_event group request now_iso now_ms] = logs w ++ [ev]
               /\ ev = audit_event group request now_iso now_ms
               /\ printable (message ev) = true
               /\ loads (message ev) = Some record
               /\ ArtifactPy.subscript record "sha256"
                  = Ok (JStr (sha256_hexdigest (body request)))
               /\ ArtifactPy.subscript record "path" = Ok (JStr (url_path request))
               /\ ArtifactPy.subscript record "method" = Ok (JStr (method request))
               /\ exists pii : bool,
                    ArtifactPy.subscript record "pii" = Ok (JBool pii)
                    /\ (pii = true <->
                        exists f fs, analyze (body request) = Ok (f :: fs))).
  { intros group. exists (audit_event group request now_iso now_ms),
                         (audit_record request now_iso).
    split; [reflexivity|]. split; [reflexivity|].
    split; [apply dumps_printable|].
    split; [apply audit_record_reads_back|].
    split; [reflexivity|]. split; [reflexivity|]. split; [reflexivity|].
    exists (contains_pii (body request)). split; [reflexivity|].
    unfold contains_pii. destruct (analyze (body request)) as [[|f fs]|e].
    - split; [discriminate | intros (f & fs & H); discriminate].
    - split; [eauto | reflexivity].
    - split; [discriminate | intros (f & fs & H); discriminate]. }
  destruct (given LOG_GROUP) as [group|].
  - fold (audit_event group request now_iso now_ms).
    destruct (refuses (logs w) (audit_event group request now_iso now_ms));
      [discriminate|].
    destruct (call_next request (app w)) as [[response|e] a]; [|discriminate].
    intros [= <- <-]. cbn [logs app].
    split; [apply get_set_header|]. split; [eauto|]. apply Hrec.
  - destruct (call_next request (app w)) as [[response|e] a]; [|discriminate].
    intros [= <- <-]. cbn [logs app].
    split; [apply get_set_header|]. split; [eauto | reflexivity].
Qed.

(** The request is logged before it is handled, and a log that refuses
    the event stops the request.  With a log group configured: if the
    service refuses the event, the middleware raises the error of the
    service, the handler is not called and nothing has changed; if the
    service takes the event, the event is in the log whatever the handler
    does then, and an exception of the handler goes through.  An exception
    of the analyzer never shows: the record then says pii false. *)
Theorem request_is_logged_before_it_is_handled (request : Request)
  (now_iso : string) (now_ms : Z) (w : World) (group : string) :
  given LOG_GROUP = Some group ->
  (forall e : exc,
      refuses (logs w) (audit_event group request now_iso now_ms) = Some e ->
      audit_middleware request now_iso now_ms w = (Raise e, w))
  /\ (refuses (logs w) (audit_event group request now_iso now_ms) = None ->
      logs (snd (audit_middleware request now_iso now_ms w))
      = logs w ++ [audit_event group request now_iso now_ms]
      /\ app (snd (audit_middleware request now_iso now_ms w))
         = snd (call_next request (app w))
      /\ forall e : exc,
           fst (call_next request (app w)) = Raise e ->
           fst (audit_middleware request now_iso now_ms w) = Raise e)
  /\ (forall e : exc,
        analyze (body request) = Raise e ->
        ArtifactPy.subscript (audit_record request now_iso) "pii" = Ok (JBool false)).
Proof.
  intros Hg. unfold audit_middleware, _emit_audit, put_log_events. rewrite Hg.
  fold (audit_event group request now_iso now_ms).
  split; [|split].
  - intros e ->. destruct w. reflexivity.
  - intros ->. destruct (call_next request (app w)) as [[response|e] a];
      cbn [fst snd logs app]; repeat split; try discriminate.
    intros e' [= <-]. reflexivity.
  - intros e He. cbn. unfold contains_pii. rewrite He. reflexivity.
Qed.

(** Without a log group the service is not called: the middleware only
    adds the header to what the handler returns, and an exception of the
    handler goes through. *)
Lemma no_log_group_no_event (request : Request) (now_iso : string) (now_ms : Z)
  (w : World) :
  given LOG_GROUP = None ->
  logs (snd (audit_middleware request now_iso now_ms w)) = logs w.
Proof.
  intros Hg. unfold audit_middleware, _emit_audit. rewrite Hg.
  destruct (call_next request (app w)) as [[response|e] a]; reflexivity.
Qed.

End WithServices.

Arguments logs {App} w.
Arguments app {App} w.
Arguments Build_World {App} logs app.

End FedServer.

(** *** A small deployment of the middleware *)

(** The services of [FedServer], filled in with values that compute: a
    digest that is a tag on the body, an analyzer that finds an at sign
    and fails on a body it cannot read, a log service that takes two
    events and refuses the third, and a handler that knows one path. *)

Module RefFedServer.
Import Str Json Py.

Definition sha256_hexdigest (raw_body : string) : string := "sha256-of-" +:+ raw_body.

Definition analyze (raw_body : string) : result (list string) :=
  if String.eqb raw_body "unreadable"
  then Raise (mkExc "OSError" "Can't find model 'en_core_web_sm'")
  else if Storage.has_char "@" raw_body then Ok ["EMAIL_ADDRESS"] else Ok [].

Definition refuses (l : list FedServer.LogEvent) (ev : FedServer.LogEvent)
  : option exc :=
  if (2 <=? length l)%nat
  then Some (mkExc "ThrottlingException" "Rate exceeded")
  else None.

Definition Response : Type := Z * list (string * string).

(** The handler counts the requests it has seen. *)
Definition call_next (request : FedServer.Request) (seen : nat)
  : result Response * nat :=
  if String.eqb (FedServer.url_path request) "/health"
  then (Ok (200, [("content-type", "application/json")]), S seen)
  else (Raise (mkExc "RuntimeError" "no route"), S seen).

Definition set_header (r : Response) (name value : string) : Response :=
  (fst r, List.filter (fun kv => negb (String.eqb (fst kv) name)) (snd r)
          ++ [(name, value)]).

Definition get_header (r : Response) (name : string) : option string :=
  match List.filter (fun kv => String.eqb (fst kv) name) (snd r) with
  | kv :: _ => Some (snd kv)
  | [] => None
  end.

Lemma get_set_header (r : Response) (name value : string) :
  get_header (set_header r name value) name = Some value.
Proof.
  unfold get_header, set_header. cbn [snd]. rewrite List.filter_app.
  cbn [List.filter fst]. rewrite String.eqb_refl.
  replace (List.filter (fun kv => String.eqb (fst kv) name)
             (List.filter (fun kv => negb (String.eqb (fst kv) name)) (snd r)))
    with (@nil (string * string)); [reflexivity|].
  induction (snd r) as [|kv l IH]; [reflexivity|]. cbn [List.filter].
  destruct (String.eqb (fst kv) name) eqn:E; cbn [negb]; [exact IH|].
  cbn [List.filter]. now rewrite E.
Qed.

Definition World : Type := FedServer.World nat.

Definition audit_middleware :=
  FedServer.audit_middleware (Some "fedmcp-audit") "primary" sha256_hexdigest
    string analyze refuses nat Response call_next set_header.

Definition health : FedServer.Request :=
  {| FedServer.body := "alice@example.org"; FedServer.url_path := "/health";
     FedServer.method := "GET" |}.

Definition w0 : World := {| FedServer.logs := []; FedServer.app := O |}.

Example middleware_runs :
  audit_middleware health "2025-01-01T00:00:00" 1735689600000 w0
  = (Ok (200, [("content-type", "application/json");
               ("X-Content-SHA256", "sha256-of-alice@example.org")]),
     {| FedServer.logs :=
          [{| FedServer.logGroupName := "fedmcp-audit";
              FedServer.logStreamName := "primary";
              FedServer.log_timestamp := 1735689600000;
              FedServer.message :=
                qq "{'ts': '2025-01-01T00:00:00Z', 'path': '/health', 'method': 'GET', 'pii': true, 'sha256': 'sha256-of-alice@example.org'}" |}];
        FedServer.app := 1%nat |}).
Proof. reflexivity. Qed.


Definition health_response : Response :=
  (200, [("content-type", "application/json");
         ("X-Content-SHA256", "sha256-of-alice@example.org")]).

Definition health_event : FedServer.LogEvent :=
  FedServer.audit_event "primary" sha256_hexdigest string analyze
    "fedmcp-audit" health "2025-01-01T00:00:00" 1735689600000.

Lemma response_hash_is_logged_hash_witness :
  get_header health_response "X-Content-SHA256" = Some "sha256-of-alice@example.org"
  /\ (exists response : Response,
        call_next health O = (Ok response, 1%nat)
        /\ health_response
           = set_header response "X-Content-SHA256" "sha256-of-alice@example.org")
  /\ exists (ev : FedServer.LogEvent) (record : json),
       [health_event] = [] ++ [ev]
       /\ ev = health_event
       /\ printable (FedServer.message ev) = true
       /\ loads (FedServer.message ev) = Some record
       /\ ArtifactPy.subscript record "sha256" = Ok (JStr "sha256-of-alice@example.org")
       /\ ArtifactPy.subscript record "path" = Ok (JStr "/health")
       /\ ArtifactPy.subscript record "method" = Ok (JStr "GET")
       /\ exists pii : bool,
            ArtifactPy.subscript record "pii" = Ok (JBool pii)
            /\ (pii = true <-> exists f fs, analyze "alice@example.org" = Ok (f :: fs)).
Proof.
  apply (FedServer.response_hash_is_logged_hash (Some "fedmcp-audit") "primary"
           sha256_hexdigest string analyze refuses nat Response call_next
           set_header get_header get_set_header health "2025-01-01T00:00:00"
           1735689600000 w0
           {| FedServer.logs := [health_event]; FedServer.app := 1%nat |}
           health_response).
  reflexivity.
Defined.

Definition w2 : World :=
  {| FedServer.logs := [health_event; health_event]; FedServer.app := 2%nat |}.

Definition unreadable : FedServer.Request :=
  {| FedServer.body := "unreadable"; FedServer.url_path := "/artifacts";
     FedServer.method := "POST" |}.

Lemma request_is_logged_before_it_is_handled_witness :
  (forall e : exc,
      refuses (FedServer.logs w0)
        (FedServer.audit_event "primary" sha256_hexdigest string analyze
           "fedmcp-audit" unreadable "2025-01-01T00:00:00" 1735689600000) = Some e ->
      audit_middleware unreadable "2025-01-01T00:00:00" 1735689600000 w0
      = (Raise e, w0))
  /\ (refuses (FedServer.logs w0)
        (FedServer.audit_event "primary" sha256_hexdigest string analyze
           "fedmcp-audit" unreadable "2025-01-01T00:00:00" 1735689600000) = None ->
      FedServer.logs (snd (audit_middleware unreadable "2025-01-01T00:00:00"
                             1735689600000 w0))
      = FedServer.logs w0
        ++ [FedServer.audit_event "primary" sha256_hexdigest string analyze
              "fedmcp-audit" unreadable "2025-01-01T00:00:00" 1735689600000]
      /\ FedServer.app (snd (audit_middleware unreadable "2025-01-01T00:00:00"
                               1735689600000 w0))
         = snd (call_next unreadable (FedServer.app w0))
      /\ forall e : exc,
           fst (call_next unreadable (FedServer.app w0)) = Raise e ->
           fst (audit_middleware unreadable "2025-01-01T00:00:00" 1735689600000 w0)
           = Raise e)
  /\ (forall e : exc,
        analyze (FedServer.body unreadable) = Raise e ->
        ArtifactPy.subscript
          (FedServer.audit_record sha256_hexdigest string analyze unreadable
             "2025-01-01T00:00:00") "pii" = Ok (JBool false)).
Proof.
  apply (FedServer.request_is_logged_before_it_is_handled (Some "fedmcp-audit")
           "primary" sha256_hexdigest string analyze refuses nat Response
           call_next set_header unreadable "2025-01-01T00:00:00" 1735689600000 w0
           "fedmcp-audit").
  reflexivity.
Defined.

(** The third request meets a log service that refuses: it fails before
    the handler sees it, the health check like any other.  A request whose
    handler raises has been logged all the same, and a body the analyzer
    fails on is logged with pii false. *)
Example refused_event_stops_health_check :
  audit_middleware health "2025-01-01T00:00:00" 1735689600000 w2
  = (Raise (mkExc "ThrottlingException" "Rate exceeded"), w2)
  /\ fst (audit_middleware unreadable "2025-01-01T00:00:00" 1735689600000 w0)
     = Raise (mkExc "RuntimeError" "no route")
  /\ map FedServer.message
       (FedServer.logs (snd (audit_middleware unreadable "2025-01-01T00:00:00"
                               1735689600000 w0)))
     = [qq "{'ts': '2025-01-01T00:00:00Z', 'path': '/artifacts', 'method': 'POST', 'pii': false, 'sha256': 'sha256-of-unreadable'}"].
Proof. repeat split; reflexivity. Qed.

End RefFedServer.
